(** * Semantic conflict detection (merge/semantic_conflict_detector.py)

    A shallow embedding of the detector module and the properties its
    specification states about it.

    Conventions of the embedding.
    - A Python [str] is a [string]; [==] on strings is [String.eqb] and the
      substring test [x in s] is [str_contains].
    - A Python [dict] with string keys is an association list that keeps
      insertion order (module [PyDict]): assigning to a key that is already
      present replaces the value and keeps the key's position, iteration
      follows the list.  A dict the caller passes in has pairwise distinct
      keys ([PyDict.wf]).
    - A [for] loop that updates local state is a [fold_left] of its body
      over the iterated sequence; [continue] returns the state unchanged.
    - Code that can raise returns an [outcome]; a call whose exception the
      caller does not catch is sequenced with the bind of that monad, so the
      exception propagates as in Python.
    - The standard library functions the module calls ([pathlib], [str.lower],
      [ast.parse], [ast.unparse]) are the fields of the class [PythonStdlib]:
      the development holds for every implementation of them.
    - The interpreter can abort the walk of the visitor over a tree
      ([RecursionError] on a tree too deep for its recursion limit,
      [MemoryError]); whether it does is the field [walk_raises] of the
      same class, and [visit] is the walk that completes. *)

From Stdlib Require Import String Ascii List ZArith Bool Lia DecimalString.
Import ListNotations.
Open Scope string_scope.

Set Implicit Arguments.
Set Warnings "-register-all".

(* ===================================================================== *)
(** ** Python values *)

(** Truthiness of a [str | None] value: [None] and the empty string are
    falsy. *)
Definition truthy (o : option string) : bool :=
  match o with
  | Some s => negb (s =? "")
  | None => false
  end.

(** [x in s] for strings. *)
Fixpoint str_contains (x s : string) : bool :=
  if prefix x s then true
  else match s with
       | EmptyString => false
       | String _ rest => str_contains x rest
       end.

(** [str(n)] for an [int]. *)
Definition str_of_int (n : Z) : string := NilZero.string_of_int (Z.to_int n).

(** [str(l)] for a list of ints, as an f-string formats it. *)
Definition str_of_int_list (l : list Z) : string :=
  "[" ++ String.concat ", " (map str_of_int l) ++ "]".

(** Equality of two [str | None] values. *)
Definition opt_str_eqb (a b : option string) : bool :=
  match a, b with
  | Some x, Some y => x =? y
  | None, None => true
  | _, _ => false
  end.

(* ===================================================================== *)
(** ** Insertion-ordered dictionaries *)

Module PyDict.
Section Dict.
Variable V : Type.

Definition dict := list (string * V).

Definition empty : dict := [].

(** [d.get(k)] *)
Fixpoint get (k : string) (d : dict) : option V :=
  match d with
  | [] => None
  | (k', v) :: rest => if k' =? k then Some v else get k rest
  end.

(** [k in d] *)
Definition mem (k : string) (d : dict) : bool :=
  match get k d with
  | Some _ => true
  | None => false
  end.

(** [d[k] = v] *)
Fixpoint set (k : string) (v : V) (d : dict) : dict :=
  match d with
  | [] => [(k, v)]
  | (k', v') :: rest =>
      if k' =? k then (k', v) :: rest else (k', v') :: set k v rest
  end.

Definition keys (d : dict) : list string := map fst d.

(** A Python dict never holds a key twice. *)
Definition wf (d : dict) : Prop := NoDup (keys d).
End Dict.
Arguments empty {V}.
End PyDict.

Abbreviation dict := PyDict.dict.

(* ===================================================================== *)
(** ** Exceptions *)

(** The exceptions the module distinguishes: [except SyntaxError] and
    [except Exception].  [OtherException] stands for any other subclass of
    [Exception] ([ValueError], [MemoryError], ...).  What is not a subclass
    of [Exception] ([KeyboardInterrupt], [SystemExit]) comes from outside
    the call and is not modelled. *)
Inductive exn : Type :=
| SyntaxError (msg : string)
| OtherException (cls msg : string).

Inductive exn_class : Type := SyntaxError_class | Exception_class.

Definition isinstance (e : exn) (c : exn_class) : bool :=
  match c, e with
  | Exception_class, _ => true
  | SyntaxError_class, SyntaxError _ => true
  | SyntaxError_class, OtherException _ _ => false
  end.

Inductive outcome (A : Type) : Type :=
| Returned (a : A)
| Raised (e : exn).
Arguments Raised {A} e.

Definition bind {A B : Type} (o : outcome A) (k : A -> outcome B) : outcome B :=
  match o with
  | Returned a => k a
  | Raised e => Raised e
  end.

Notation "x <- c ;; k" := (bind c (fun x => k))
  (at level 61, c at next level, right associativity).

(** A [for] loop whose body may raise. *)
Fixpoint for_each {A S : Type} (l : list A) (s : S)
         (body : S -> A -> outcome S) : outcome S :=
  match l with
  | [] => Returned s
  | x :: rest => s' <- body s x ;; for_each rest s' body
  end.

(** [returns o P]: the computation returns normally and its value
    satisfies [P]. *)
Definition returns {A : Type} (o : outcome A) (P : A -> Prop) : Prop :=
  exists a, o = Returned a /\ P a.

(* ===================================================================== *)
(** ** The syntax tree the visitor walks

    One constructor per node class that [PythonSymbolExtractor] has a
    [visit_] method for, [Attribute] (which [visit_Call] inspects), and
    [OtherNode] for every other class, of which only the child nodes matter
    ([generic_visit] walks them in field order).  The fields of a
    constructor are the node's [_fields], in their order, that hold nodes,
    and the attributes the visitor reads. *)

Inductive expr_context : Type := Load | Store | Del.

Record alias : Type := mk_alias {
  alias_name : string;
  alias_asname : option string
}.

Inductive node : Type :=
| Import (lineno : Z) (names : list alias)
| ImportFrom (lineno : Z) (module : option string) (names : list alias)
| FunctionDef (lineno : Z) (name : string) (args : node)
              (body decorator_list : list node) (returns_ : option node)
              (type_params : list node)
| AsyncFunctionDef (lineno : Z) (name : string) (args : node)
              (body decorator_list : list node) (returns_ : option node)
              (type_params : list node)
| ClassDef (lineno : Z) (name : string)
           (bases keywords body decorator_list type_params : list node)
| Assign (lineno : Z) (targets : list node) (value : node)
| AnnAssign (lineno : Z) (target annotation : node) (value : option node)
| Name (lineno : Z) (id : string) (ctx : expr_context)
| Call (lineno : Z) (func : node) (args keywords : list node)
| Attribute (lineno : Z) (value : node) (attr : string) (ctx : expr_context)
| OtherNode (children : list node).

(** The standard library, as far as the module calls it. *)
Class PythonStdlib : Type := {
  (** [Path(p).suffix] *)
  path_suffix : string -> string;
  (** [s.lower()] *)
  str_lower : string -> string;
  (** [ast.parse(content, filename=file_path)] *)
  ast_parse : string -> string -> outcome node;
  (** [ast.unparse], when the interpreter has it ([hasattr(ast, 'unparse')]) *)
  ast_unparse : option (node -> string);
  (** The exception, if any, that aborts [extractor.visit(tree)]: the
      visitor and [ast.unparse] recurse on the tree, and a tree too deep for
      the recursion limit of the interpreter raises [RecursionError];
      [None] when the walk completes. *)
  walk_raises : node -> option exn
}.

(* ===================================================================== *)
(** ** SymbolTable *)

Record SymbolTable : Type := mk_SymbolTable {
  definitions : dict (string * Z * string);
  usages : dict (list Z);
  imports : dict string;
  function_calls : dict (list Z);
  function_signatures : dict (option string)
}.

Definition SymbolTable_init : SymbolTable :=
  mk_SymbolTable PyDict.empty PyDict.empty PyDict.empty PyDict.empty
                 PyDict.empty.

Definition add_definition (name def_type : string) (line : Z) (scope : string)
           (self : SymbolTable) : SymbolTable :=
  mk_SymbolTable
    (PyDict.set name (def_type, line, scope) self.(definitions))
    self.(usages) self.(imports) self.(function_calls)
    self.(function_signatures).

(** [d[name].append(line)], after creating an empty list when [name] is not
    in [d]. *)
Definition append_line (name : string) (line : Z) (d : dict (list Z))
  : dict (list Z) :=
  let d' := if PyDict.mem name d then d else PyDict.set name [] d in
  match PyDict.get name d' with
  | Some lines => PyDict.set name (lines ++ [line])%list d'
  | None => d'
  end.

Definition add_usage (name : string) (line : Z) (self : SymbolTable)
  : SymbolTable :=
  mk_SymbolTable self.(definitions) (append_line name line self.(usages))
    self.(imports) self.(function_calls) self.(function_signatures).

Definition add_import (symbol module : string) (self : SymbolTable)
  : SymbolTable :=
  mk_SymbolTable self.(definitions) self.(usages)
    (PyDict.set symbol module self.(imports))
    self.(function_calls) self.(function_signatures).

Definition add_function_call (func_name : string) (line : Z)
           (self : SymbolTable) : SymbolTable :=
  mk_SymbolTable self.(definitions) self.(usages) self.(imports)
    (append_line func_name line self.(function_calls))
    self.(function_signatures).

Definition add_function_signature (func_name : string)
           (return_type : option string) (self : SymbolTable) : SymbolTable :=
  mk_SymbolTable self.(definitions) self.(usages) self.(imports)
    self.(function_calls)
    (PyDict.set func_name return_type self.(function_signatures)).

(* ===================================================================== *)
(** ** PythonSymbolExtractor *)

(** The visitor's mutable state. *)
Record PythonSymbolExtractor : Type := mk_extractor {
  symbol_table : SymbolTable;
  current_scope : string
}.

(** [PythonSymbolExtractor.__init__] *)
Definition PythonSymbolExtractor_init : PythonSymbolExtractor :=
  mk_extractor SymbolTable_init "module".

Definition on_table (f : SymbolTable -> SymbolTable)
           (self : PythonSymbolExtractor) : PythonSymbolExtractor :=
  mk_extractor (f self.(symbol_table)) self.(current_scope).

Definition set_scope (scope : string) (self : PythonSymbolExtractor)
  : PythonSymbolExtractor :=
  mk_extractor self.(symbol_table) scope.

(** [alias.asname if alias.asname else alias.name] *)
Definition bound_name (a : alias) : string :=
  match a.(alias_asname) with
  | Some n => if truthy (Some n) then n else a.(alias_name)
  | None => a.(alias_name)
  end.

(** The loop of [visit_Import] over [node.names]. *)
Definition import_alias (lineno : Z) (self : PythonSymbolExtractor)
           (a : alias) : PythonSymbolExtractor :=
  let name := bound_name a in
  let self := on_table (add_import name a.(alias_name)) self in
  on_table (add_definition name "import" lineno self.(current_scope)) self.

(** The loop of [visit_ImportFrom] over [node.names]; [module] is
    [node.module or ""]. *)
Definition import_from_alias (lineno : Z) (module : string)
           (self : PythonSymbolExtractor) (a : alias)
  : PythonSymbolExtractor :=
  let name := bound_name a in
  let self := on_table (add_import name (module ++ "." ++ a.(alias_name))) self in
  on_table (add_definition name "import" lineno self.(current_scope)) self.

(** The loop of [visit_Assign] over [node.targets], and the test of
    [visit_AnnAssign] on [node.target]. *)
Definition define_target (lineno : Z) (self : PythonSymbolExtractor)
           (target : node) : PythonSymbolExtractor :=
  match target with
  | Name _ id _ =>
      on_table (add_definition id "variable" lineno self.(current_scope)) self
  | _ => self
  end.

Section Extractor.
Context {py : PythonStdlib}.

(** The return annotation as [visit_FunctionDef] records it. *)
Definition return_type_of (returns_ : option node) : option string :=
  match returns_ with
  | Some r =>
      match ast_unparse with
      | Some unparse => Some (unparse r)
      | None => None
      end
  | None => None
  end.

(** [NodeVisitor.visit]: dispatch on the node class, the [visit_] method
    of the class when there is one, [generic_visit] otherwise.  Every
    [visit_] method of the extractor ends with [generic_visit], which
    visits the child nodes in field order. *)
Fixpoint visit (n : node) (self : PythonSymbolExtractor) {struct n}
  : PythonSymbolExtractor :=
  let visit_all :=
    fix visit_all (l : list node) (self : PythonSymbolExtractor)
      : PythonSymbolExtractor :=
      match l with
      | [] => self
      | child :: rest => visit_all rest (visit child self)
      end in
  let visit_opt := fun (o : option node) (self : PythonSymbolExtractor) =>
      match o with
      | Some child => visit child self
      | None => self
      end in
  let visit_def := fun (def_type : string) lineno name args body
                       decorator_list returns_ type_params self =>
      let return_type := return_type_of returns_ in
      let self := on_table (add_definition name def_type lineno
                              self.(current_scope)) self in
      let self := on_table (add_function_signature name return_type) self in
      let old_scope := self.(current_scope) in
      let self := set_scope ("function:" ++ name) self in
      let self := visit args self in
      let self := visit_all body self in
      let self := visit_all decorator_list self in
      let self := visit_opt returns_ self in
      let self := visit_all type_params self in
      set_scope old_scope self in
  match n with
  | Import lineno names =>
      (* the alias nodes have no child nodes *)
      fold_left (import_alias lineno) names self
  | ImportFrom lineno module names =>
      let module := match module with
                    | Some m => if truthy (Some m) then m else ""
                    | None => ""
                    end in
      fold_left (import_from_alias lineno module) names self
  | FunctionDef lineno name args body decorator_list returns_ type_params =>
      visit_def "function" lineno name args body decorator_list returns_
                type_params self
  | AsyncFunctionDef lineno name args body decorator_list returns_
                     type_params =>
      visit_def "async_function" lineno name args body decorator_list
                returns_ type_params self
  | ClassDef lineno name bases keywords body decorator_list type_params =>
      let self := on_table (add_definition name "class" lineno
                              self.(current_scope)) self in
      let old_scope := self.(current_scope) in
      let self := set_scope ("class:" ++ name) self in
      let self := visit_all bases self in
      let self := visit_all keywords self in
      let self := visit_all body self in
      let self := visit_all decorator_list self in
      let self := visit_all type_params self in
      set_scope old_scope self
  | Assign lineno targets value =>
      let self := fold_left (define_target lineno) targets self in
      let self := visit_all targets self in
      visit value self
  | AnnAssign lineno target annotation value =>
      let self := define_target lineno self target in
      let self := visit target self in
      let self := visit annotation self in
      visit_opt value self
  | Name lineno id ctx =>
      match ctx with
      | Load => on_table (add_usage id lineno) self
      | _ => self
      end
  | Call lineno func args keywords =>
      let self :=
        match func with
        | Name _ id _ => on_table (add_function_call id lineno) self
        | Attribute _ _ attr _ => on_table (add_function_call attr lineno) self
        | _ => self
        end in
      let self := visit func self in
      let self := visit_all args self in
      visit_all keywords self
  | Attribute _ value _ _ => visit value self
  | OtherNode children => visit_all children self
  end.

(** The body of the [try] block of [build_symbol_table]: the parse, then
    the walk of the visitor, which raises when the interpreter aborts it. *)
Definition parse_and_extract (file_path content : string)
  : outcome SymbolTable :=
  tree <- ast_parse content file_path ;;
  let extractor := PythonSymbolExtractor_init in
  match walk_raises tree with
  | Some e => Raised e
  | None =>
      let extractor := visit tree extractor in
      Returned extractor.(symbol_table)
  end.

(** [build_symbol_table]: [None] for an unsupported extension; the two
    [except] clauses are tried in order, an exception neither matches
    propagates.  [debug_error] only logs. *)
Definition build_symbol_table (file_path content : string)
  : outcome (option SymbolTable) :=
  let ext := str_lower (path_suffix file_path) in
  if negb (ext =? ".py") then Returned None
  else
    match parse_and_extract file_path content with
    | Returned table => Returned (Some table)
    | Raised e =>
        if isinstance e SyntaxError_class then Returned None
        else if isinstance e Exception_class then Returned None
        else Raised e
    end.
End Extractor.

(* ===================================================================== *)
(** ** The types of merge/types.py

    Modelled from the spec: merge/types.py, which declares [ChangeType],
    [ConflictSeverity], [MergeStrategy], [SemanticChange], [FileAnalysis] and
    [ConflictRegion], is not among the sources.  The records have the fields
    the data model of the specification lists, under the names the detector
    and its tests use; the enumerations have the members the detector, its
    tests and the specification name, and one more constructor for the
    members they do not name. *)

Inductive ChangeType : Type :=
| RENAME_FUNCTION
| REMOVE_IMPORT
| MODIFY_VARIABLE
| MODIFY_FUNCTION
| ADD_FUNCTION
| UNKNOWN
| OtherChangeType (member : string).

Definition ChangeType_eqb (a b : ChangeType) : bool :=
  match a, b with
  | RENAME_FUNCTION, RENAME_FUNCTION => true
  | REMOVE_IMPORT, REMOVE_IMPORT => true
  | MODIFY_VARIABLE, MODIFY_VARIABLE => true
  | MODIFY_FUNCTION, MODIFY_FUNCTION => true
  | ADD_FUNCTION, ADD_FUNCTION => true
  | UNKNOWN, UNKNOWN => true
  | OtherChangeType x, OtherChangeType y => x =? y
  | _, _ => false
  end.

Inductive ConflictSeverity : Type := CRITICAL | HIGH | MEDIUM | LOW.

Inductive MergeStrategy : Type :=
| HUMAN_REQUIRED
| OtherMergeStrategy (member : string).

Record SemanticChange : Type := mk_SemanticChange {
  change_type : ChangeType;
  target : string;
  location : string;
  line_start : Z;
  line_end : Z;
  content_before : option string;
  content_after : option string
}.

Record FileAnalysis : Type := mk_FileAnalysis {
  file_path : string;
  changes : list SemanticChange
}.

Record ConflictRegion : Type := mk_ConflictRegion {
  cr_file_path : string;
  cr_location : string;
  cr_tasks_involved : list string;
  change_types : list ChangeType;
  cr_severity : ConflictSeverity;
  can_auto_merge : bool;
  merge_strategy : MergeStrategy;
  reason : string
}.

(* ===================================================================== *)
(** ** SemanticConflict *)

(** The values the detectors store in [metadata]. *)
Inductive meta_value : Type :=
| MetaStr (s : string)
| MetaLines (lines : list Z).

Record SemanticConflict : Type := mk_SemanticConflict {
  conflict_type : string;
  sc_file_path : string;
  sc_location : string;
  tasks_involved : list string;
  description : string;
  line_number : Z;
  severity : ConflictSeverity;
  suggestion : option string;
  metadata : dict meta_value
}.

(** [lines[0] if lines else 0] *)
Definition first_line (lines : list Z) : Z :=
  match lines with
  | [] => 0%Z
  | l :: _ => l
  end.

(** The inputs of the detectors: task id -> analysis, and
    task id -> (content before, content after). *)
Definition TaskAnalyses : Type := dict FileAnalysis.
Definition FileContents : Type := dict (string * string).

(* ===================================================================== *)
(** ** detect_function_rename_conflicts *)

(** Body of the loop over [analysis.changes] that fills [renames]
    (old name -> (new name, task id)). *)
Definition record_rename (task_id : string) (renames : dict (string * string))
           (change : SemanticChange) : dict (string * string) :=
  if ChangeType_eqb change.(change_type) RENAME_FUNCTION then
    if truthy change.(content_before) && truthy change.(content_after) then
      let old_name := change.(target) in
      PyDict.set old_name (change.(target), task_id) renames
    else renames
  else renames.

Definition collect_renames (task_analyses : TaskAnalyses)
  : dict (string * string) :=
  fold_left
    (fun renames '(task_id, analysis) =>
       fold_left (record_rename task_id) analysis.(changes) renames)
    task_analyses PyDict.empty.

Definition rename_conflict (file_path task_id old_name new_name
                            rename_task_id : string) (call_lines : list Z)
  : SemanticConflict :=
  {| conflict_type := "function_rename";
     sc_file_path := file_path;
     sc_location := "function:" ++ old_name;
     tasks_involved := [rename_task_id; task_id];
     description :=
       "Task " ++ rename_task_id ++ " renamed function '" ++ old_name
       ++ "' to '" ++ new_name ++ "', " ++ "but task " ++ task_id
       ++ " still calls '" ++ old_name ++ "' at line(s) "
       ++ str_of_int_list call_lines;
     line_number := first_line call_lines;
     severity := HIGH;
     suggestion :=
       Some ("Update function calls from '" ++ old_name ++ "' to '"
             ++ new_name ++ "' in task " ++ task_id);
     metadata := [("old_name", MetaStr old_name);
                  ("new_name", MetaStr new_name);
                  ("call_lines", MetaLines call_lines)] |}.

(** Body of the loop over [renames.items()]. *)
Definition rename_check (file_path task_id : string)
           (symbol_table : SymbolTable) (conflicts : list SemanticConflict)
           (entry : string * (string * string)) : list SemanticConflict :=
  let '(old_name, (new_name, rename_task_id)) := entry in
  if rename_task_id =? task_id then conflicts
  else
    match PyDict.get old_name symbol_table.(function_calls) with
    | Some call_lines =>
        (conflicts ++ [rename_conflict file_path task_id old_name new_name
                                       rename_task_id call_lines])%list
    | None => conflicts
    end.

(* ===================================================================== *)
(** ** detect_import_removal_conflicts *)

(** Body of the loop over [analysis.changes] that fills [removals]
    (symbol -> task id). *)
Definition record_removal (task_id : string) (removals : dict string)
           (change : SemanticChange) : dict string :=
  if ChangeType_eqb change.(change_type) REMOVE_IMPORT then
    let symbol := change.(target) in
    PyDict.set symbol task_id removals
  else removals.

Definition collect_removals (task_analyses : TaskAnalyses) : dict string :=
  fold_left
    (fun removals '(task_id, analysis) =>
       fold_left (record_removal task_id) analysis.(changes) removals)
    task_analyses PyDict.empty.

Definition removal_conflict (file_path task_id symbol removal_task_id : string)
           (usage_lines : list Z) : SemanticConflict :=
  {| conflict_type := "import_removal";
     sc_file_path := file_path;
     sc_location := "import:" ++ symbol;
     tasks_involved := [removal_task_id; task_id];
     description :=
       "Task " ++ removal_task_id ++ " removed import of '" ++ symbol
       ++ "', " ++ "but task " ++ task_id ++ " uses it at line(s) "
       ++ str_of_int_list usage_lines ++ " without importing it";
     line_number := first_line usage_lines;
     severity := CRITICAL;
     suggestion :=
       Some ("Task " ++ task_id ++ " should import '" ++ symbol
             ++ "' explicitly");
     metadata := [("symbol", MetaStr symbol);
                  ("usage_lines", MetaLines usage_lines)] |}.

(** Body of the loop over [removals.items()]. *)
Definition removal_check (file_path task_id : string)
           (symbol_table : SymbolTable) (conflicts : list SemanticConflict)
           (entry : string * string) : list SemanticConflict :=
  let '(symbol, removal_task_id) := entry in
  if removal_task_id =? task_id then conflicts
  else
    match PyDict.get symbol symbol_table.(usages) with
    | Some usage_lines =>
        if negb (PyDict.mem symbol symbol_table.(imports)) then
          (conflicts ++ [removal_conflict file_path task_id symbol
                                          removal_task_id usage_lines])%list
        else conflicts
    | None => conflicts
    end.

(* ===================================================================== *)
(** ** detect_type_change_conflicts *)

(** An entry of [type_changes]: (old type, new type, task id). *)
Definition type_change : Type := (option string * option string * string)%type.

(** Body of the loop over the keys of [after_symbols.function_signatures]. *)
Definition record_type_change (before_symbols after_symbols : SymbolTable)
           (task_id : string) (type_changes : dict type_change)
           (func_name : string) : dict type_change :=
  match PyDict.get func_name before_symbols.(function_signatures) with
  | Some old_type =>
      match PyDict.get func_name after_symbols.(function_signatures) with
      | Some new_type =>
          if negb (opt_str_eqb old_type new_type) then
            PyDict.set func_name (old_type, new_type, task_id) type_changes
          else type_changes
      | None => type_changes
      end
  | None => type_changes
  end.

Definition type_change_conflict (file_path func_name old_type new_type
                                 change_task_id : string) : SemanticConflict :=
  {| conflict_type := "type_change";
     sc_file_path := file_path;
     sc_location := "function:" ++ func_name;
     tasks_involved := [change_task_id];
     description :=
       "Task " ++ change_task_id ++ " changed return type of '" ++ func_name
       ++ "' " ++ "from '" ++ old_type ++ "' to '" ++ new_type
       ++ "' (added None). "
       ++ "This may break callers that don't handle None.";
     line_number := 0%Z;
     severity := MEDIUM;
     suggestion :=
       Some ("Review all callers of '" ++ func_name
             ++ "' to ensure they handle None");
     metadata := [("function", MetaStr func_name);
                  ("old_type", MetaStr old_type);
                  ("new_type", MetaStr new_type)] |}.

(** Body of the loop over [type_changes.items()]. *)
Definition type_change_check (file_path : string)
           (conflicts : list SemanticConflict) (entry : string * type_change)
  : list SemanticConflict :=
  let '(func_name, (old_type, new_type, change_task_id)) := entry in
  if truthy old_type && truthy new_type then
    match old_type, new_type with
    | Some old, Some new =>
        if str_contains "None" new && negb (str_contains "None" old) then
          (conflicts ++ [type_change_conflict file_path func_name old new
                                              change_task_id])%list
        else conflicts
    | _, _ => conflicts
    end
  else conflicts.

(* ===================================================================== *)
(** ** The aggregator's conversion *)

Definition change_type_map : dict ChangeType :=
  [("function_rename", RENAME_FUNCTION);
   ("import_removal", REMOVE_IMPORT);
   ("variable_rename", MODIFY_VARIABLE);
   ("type_change", MODIFY_FUNCTION)].

(** [d.get(k, default)] *)
Definition get_default {V : Type} (k : string) (default : V) (d : dict V) : V :=
  match PyDict.get k d with
  | Some v => v
  | None => default
  end.

(** Body of the loop of [detect_semantic_conflicts] over [all_conflicts]. *)
Definition to_region (conflict : SemanticConflict) : ConflictRegion :=
  let change_type :=
    get_default conflict.(conflict_type) UNKNOWN change_type_map in
  let reason_prefix := "[Semantic: " ++ conflict.(conflict_type) ++ "] " in
  let full_reason := reason_prefix ++ conflict.(description) in
  let full_reason :=
    match conflict.(suggestion) with
    | Some s =>
        if truthy (Some s) then full_reason ++ " Suggestion: " ++ s
        else full_reason
    | None => full_reason
    end in
  {| cr_file_path := conflict.(sc_file_path);
     cr_location := conflict.(sc_location);
     cr_tasks_involved := conflict.(tasks_involved);
     change_types := repeat change_type (length conflict.(tasks_involved));
     cr_severity := conflict.(severity);
     can_auto_merge := false;
     merge_strategy := HUMAN_REQUIRED;
     reason := full_reason |}.

(* ===================================================================== *)
(** ** The detectors *)

Section Detectors.
Context {py : PythonStdlib}.

Definition detect_function_rename_conflicts
           (task_analyses : TaskAnalyses) (file_contents : FileContents)
  : outcome (list SemanticConflict) :=
  let conflicts : list SemanticConflict := [] in
  match task_analyses with
  | [] => Returned conflicts
  | (_, first) :: _ =>
      let file_path := first.(file_path) in
      let renames := collect_renames task_analyses in
      for_each file_contents conflicts
        (fun conflicts '(task_id, (before_content, after_content)) =>
           symbol_table <- build_symbol_table file_path after_content ;;
           match symbol_table with
           | None => Returned conflicts
           | Some symbol_table =>
               Returned (fold_left
                           (rename_check file_path task_id symbol_table)
                           renames conflicts)
           end)
  end.

Definition detect_import_removal_conflicts
           (task_analyses : TaskAnalyses) (file_contents : FileContents)
  : outcome (list SemanticConflict) :=
  let conflicts : list SemanticConflict := [] in
  match task_analyses with
  | [] => Returned conflicts
  | (_, first) :: _ =>
      let file_path := first.(file_path) in
      let removals := collect_removals task_analyses in
      for_each file_contents conflicts
        (fun conflicts '(task_id, (before_content, after_content)) =>
           symbol_table <- build_symbol_table file_path after_content ;;
           match symbol_table with
           | None => Returned conflicts
           | Some symbol_table =>
               Returned (fold_left
                           (removal_check file_path task_id symbol_table)
                           removals conflicts)
           end)
  end.

(** A stub in the source: reports nothing. *)
Definition detect_variable_rename_conflicts
           (task_analyses : TaskAnalyses) (file_contents : FileContents)
  : outcome (list SemanticConflict) :=
  let conflicts : list SemanticConflict := [] in
  Returned conflicts.

(** The first loop of [detect_type_change_conflicts]. *)
Definition collect_type_changes (file_path : string)
           (file_contents : FileContents) : outcome (dict type_change) :=
  for_each file_contents PyDict.empty
    (fun type_changes '(task_id, (before_content, after_content)) =>
       before_symbols <- build_symbol_table file_path before_content ;;
       after_symbols <- build_symbol_table file_path after_content ;;
       match before_symbols, after_symbols with
       | Some before_symbols, Some after_symbols =>
           Returned (fold_left
                       (record_type_change before_symbols after_symbols
                                           task_id)
                       (PyDict.keys after_symbols.(function_signatures))
                       type_changes)
       | _, _ => Returned type_changes
       end).

Definition detect_type_change_conflicts
           (task_analyses : TaskAnalyses) (file_contents : FileContents)
  : outcome (list SemanticConflict) :=
  let conflicts : list SemanticConflict := [] in
  match task_analyses with
  | [] => Returned conflicts
  | (_, first) :: _ =>
      let file_path := first.(file_path) in
      type_changes <- collect_type_changes file_path file_contents ;;
      Returned (fold_left (type_change_check file_path) type_changes
                          conflicts)
  end.

(** The passes of the aggregator, in the order it runs them. *)
Definition run_detectors
           (task_analyses : TaskAnalyses) (file_contents : FileContents)
  : outcome (list SemanticConflict) :=
  let all_conflicts : list SemanticConflict := [] in
  found <- detect_function_rename_conflicts task_analyses file_contents ;;
  let all_conflicts := (all_conflicts ++ found)%list in
  found <- detect_import_removal_conflicts task_analyses file_contents ;;
  let all_conflicts := (all_conflicts ++ found)%list in
  found <- detect_variable_rename_conflicts task_analyses file_contents ;;
  let all_conflicts := (all_conflicts ++ found)%list in
  found <- detect_type_change_conflicts task_analyses file_contents ;;
  let all_conflicts := (all_conflicts ++ found)%list in
  Returned all_conflicts.

Definition detect_semantic_conflicts
           (task_analyses : TaskAnalyses) (file_contents : FileContents)
  : outcome (list ConflictRegion) :=
  match task_analyses with
  | [] => Returned []
  | _ :: _ =>
      all_conflicts <- run_detectors task_analyses file_contents ;;
      let conflict_regions : list ConflictRegion := [] in
      Returned (fold_left
                  (fun conflict_regions conflict =>
                     (conflict_regions ++ [to_region conflict])%list)
                  all_conflicts conflict_regions)
  end.
End Detectors.

(* ===================================================================== *)
(** ** Sample sources

    Concrete inputs for the examples below: an implementation of
    [PythonStdlib] that agrees with CPython (3.12) on the file names and
    source texts used here, which are those of the module's tests or
    shortened forms of them.  Each syntax tree is the one [ast.parse]
    returns for the text next to it. *)

Module Samples.

Definition nl : string := String (ascii_of_nat 10) "".

(** [name[i:]] for the last ['.'] of [name], if there is one. *)
Fixpoint from_last_dot (name : string) : option string :=
  match name with
  | EmptyString => None
  | String c rest =>
      match from_last_dot rest with
      | Some s => Some s
      | None => if Ascii.eqb c "."%char then Some name else None
      end
  end.

(** The texts between the separators ['/'] of a path. *)
Fixpoint split_path (p : string) : list string :=
  match p with
  | EmptyString => [""]
  | String c rest =>
      if Ascii.eqb c "/"%char then "" :: split_path rest
      else match split_path rest with
           | [] => [String c ""]
           | first :: others => String c first :: others
           end
  end.

(** [PurePosixPath(p).name]: the last component of the path, empty
    components and ["."] left out. *)
Definition name_of (p : string) : string :=
  last (filter (fun part => negb (part =? "") && negb (part =? "."))
               (split_path p))
       "".

(** [PurePosixPath(p).suffix]: [name[i:]] for the last ['.'] of the name,
    when [0 < i < len(name) - 1]. *)
Definition suffix (p : string) : string :=
  match name_of p with
  | EmptyString => ""
  | String c rest =>
      match from_last_dot rest with
      | Some s => if s =? "." then "" else s
      | None => ""
      end
  end.

(** The number of levels of a tree. *)
Fixpoint height (n : node) : nat :=
  let all :=
    fix all (l : list node) : nat :=
      match l with
      | [] => 0
      | child :: rest => Nat.max (height child) (all rest)
      end in
  let opt := fun o : option node =>
    match o with
    | Some child => height child
    | None => 0
    end in
  S match n with
    | Import _ _ => 0
    | ImportFrom _ _ _ => 0
    | FunctionDef _ _ args body decorator_list returns_ type_params
    | AsyncFunctionDef _ _ args body decorator_list returns_ type_params =>
        Nat.max (height args)
          (Nat.max (all body)
             (Nat.max (all decorator_list)
                (Nat.max (opt returns_) (all type_params))))
    | ClassDef _ _ bases keywords body decorator_list type_params =>
        Nat.max (all bases)
          (Nat.max (all keywords)
             (Nat.max (all body)
                (Nat.max (all decorator_list) (all type_params))))
    | Assign _ targets value => Nat.max (all targets) (height value)
    | AnnAssign _ target annotation value =>
        Nat.max (height target) (Nat.max (height annotation) (opt value))
    | Name _ _ _ => 0
    | Call _ func args keywords =>
        Nat.max (height func) (Nat.max (all args) (all keywords))
    | Attribute _ value _ _ => height value
    | OtherNode children => all children
    end.

(** The walk under the default recursion limit of 1000 frames: the visitor
    uses at least two frames for each level of the tree ([visit] and
    [generic_visit]), so a tree of more than 500 levels aborts it; the
    sample trees that are walked have fewer than 10 levels. *)
Definition walk (tree : node) : option exn :=
  if (500 <? height tree)%nat
  then Some (OtherException "RecursionError"
                            "maximum recursion depth exceeded")
  else None.

(** [str.lower] on ASCII text. *)
Definition lower_char (c : ascii) : ascii :=
  let n := nat_of_ascii c in
  if (65 <=? n)%nat && (n <=? 90)%nat then ascii_of_nat (n + 32) else c.

Fixpoint lower (s : string) : string :=
  match s with
  | EmptyString => EmptyString
  | String c rest => String (lower_char c) (lower rest)
  end.

(** [arguments()] of a function without parameters, [Pass()], a
    [Constant], an operator: nodes without child nodes. *)
Definition leaf : node := OtherNode [].

(** [def name() -> returns: pass] on line 1. *)
Definition def_pass (name : string) (returns_ : option node) : node :=
  OtherNode [FunctionDef 1 name leaf [leaf] [] returns_ []].

Definition src_f_plain : string := "def f(): pass".
Definition ast_f_plain : node := def_pass "f" None.

Definition src_f_int : string := "def f() -> int: pass".
Definition ast_f_int : node := def_pass "f" (Some (Name 1 "int" Load)).

Definition src_f_str : string := "def f() -> str: pass".
Definition ast_f_str : node := def_pass "f" (Some (Name 1 "str" Load)).

(** The annotation is [BinOp(Name('int'), BitOr(), Constant(None))]. *)
Definition src_f_int_or_none : string := "def f() -> int | None: pass".
Definition ast_f_int_or_none : node :=
  def_pass "f" (Some (OtherNode [Name 1 "int" Load; leaf; leaf])).

(** [Module([Expr(Call(Attribute(Name('os'), 'getcwd'), [], []))])] *)
Definition src_use_os : string := "os.getcwd()".
Definition ast_use_os : node :=
  OtherNode [OtherNode [Call 1 (Attribute 1 (Name 1 "os" Load) "getcwd" Load)
                             [] []]].

Definition src_empty : string := "".
Definition ast_empty : node := OtherNode [].

(** [after_b] of [test_conflict_rename_and_call_old_name]. *)
Definition src_caller_calls_foo : string :=
  nl ++ "def foo():" ++ nl ++ "    pass" ++ nl ++ nl
     ++ "def caller():" ++ nl ++ "    result = foo()" ++ nl
     ++ "    return result" ++ nl.
Definition ast_caller_calls_foo : node :=
  OtherNode
    [FunctionDef 2 "foo" leaf [leaf] [] None [];
     FunctionDef 5 "caller" leaf
       [Assign 6 [Name 6 "result" Store] (Call 6 (Name 6 "foo" Load) [] []);
        OtherNode [Name 7 "result" Load]]
       [] None []].

(** [before_b] of the same test. *)
Definition src_caller_returns_5 : string :=
  nl ++ "def foo():" ++ nl ++ "    pass" ++ nl ++ nl
     ++ "def caller():" ++ nl ++ "    return 5" ++ nl.
Definition ast_caller_returns_5 : node :=
  OtherNode
    [FunctionDef 2 "foo" leaf [leaf] [] None [];
     FunctionDef 5 "caller" leaf [OtherNode [leaf]] [] None []].

(** [before_a] and [after_a] of [test_no_conflict_same_task]. *)
Definition src_foo_called : string :=
  nl ++ "def foo():" ++ nl ++ "    pass" ++ nl ++ nl
     ++ "def caller():" ++ nl ++ "    foo()" ++ nl.
Definition ast_foo_called : node :=
  OtherNode
    [FunctionDef 2 "foo" leaf [leaf] [] None [];
     FunctionDef 5 "caller" leaf
       [OtherNode [Call 6 (Name 6 "foo" Load) [] []]] [] None []].

Definition src_bar_called : string :=
  nl ++ "def bar():" ++ nl ++ "    pass" ++ nl ++ nl
     ++ "def caller():" ++ nl ++ "    bar()" ++ nl.
Definition ast_bar_called : node :=
  OtherNode
    [FunctionDef 2 "bar" leaf [leaf] [] None [];
     FunctionDef 5 "caller" leaf
       [OtherNode [Call 6 (Name 6 "bar" Load) [] []]] [] None []].

(** The text of [test_syntax_error_handling]: an unterminated function
    header. *)
Definition src_unterminated : string :=
  nl ++ "def foo(" ++ nl ++ "    # Incomplete function definition" ++ nl.

Definition parse_table : list (string * node) :=
  [(src_f_plain, ast_f_plain);
   (src_f_int, ast_f_int);
   (src_f_str, ast_f_str);
   (src_f_int_or_none, ast_f_int_or_none);
   (src_use_os, ast_use_os);
   (src_empty, ast_empty);
   (src_caller_calls_foo, ast_caller_calls_foo);
   (src_caller_returns_5, ast_caller_returns_5);
   (src_foo_called, ast_foo_called);
   (src_bar_called, ast_bar_called)].

(** [ast.parse] on the sample texts; any other text stands for one that
    does not parse. *)
Definition parse (content file_path : string) : outcome node :=
  match PyDict.get content parse_table with
  | Some tree => Returned tree
  | None => Raised (SyntaxError "invalid syntax")
  end.

(** [ast.unparse] on the annotations of the sample texts. *)
Definition unparse (n : node) : string :=
  match n with
  | Name _ id _ => id
  | OtherNode [Name _ id _; OtherNode []; OtherNode []] => id ++ " | None"
  | _ => "..."
  end.

Definition stdlib : PythonStdlib :=
  {| path_suffix := suffix;
     str_lower := lower;
     ast_parse := parse;
     ast_unparse := Some unparse;
     walk_raises := walk |}.

(** The analyses of [test_conflict_rename_and_call_old_name]: task-a
    renames [foo] to [bar], task-b modifies [caller]. *)
Definition rename_foo_to_bar : SemanticChange :=
  {| change_type := RENAME_FUNCTION;
     target := "bar";
     location := "function:foo";
     line_start := 1;
     line_end := 3;
     content_before := Some ("def foo():" ++ nl ++ "    pass");
     content_after := Some ("def bar():" ++ nl ++ "    pass") |}.

Definition modify_caller : SemanticChange :=
  {| change_type := MODIFY_FUNCTION;
     target := "caller";
     location := "function:caller";
     line_start := 5;
     line_end := 7;
     content_before := None;
     content_after := None |}.

Definition remove_import (symbol : string) : SemanticChange :=
  {| change_type := REMOVE_IMPORT;
     target := symbol;
     location := "import:" ++ symbol;
     line_start := 1;
     line_end := 1;
     content_before := None;
     content_after := None |}.

Definition modify_f : SemanticChange :=
  {| change_type := MODIFY_FUNCTION;
     target := "f";
     location := "function:f";
     line_start := 1;
     line_end := 1;
     content_before := None;
     content_after := None |}.

Definition analysis (changes : list SemanticChange) : FileAnalysis :=
  {| file_path := "test.py"; changes := changes |}.

(** [test_no_conflict_same_task]: task-a renames [foo] to [bar] and
    updates its own call site. *)
Definition same_task_analyses : TaskAnalyses :=
  [("task-a", analysis [rename_foo_to_bar])].
Definition same_task_contents : FileContents :=
  [("task-a", (src_foo_called, src_bar_called))].

(** [test_conflict_rename_and_call_old_name]: task-a renames [foo] to
    [bar], task-b adds a call of [foo]. *)
Definition cross_task_analyses : TaskAnalyses :=
  [("task-a", analysis [rename_foo_to_bar]);
   ("task-b", analysis [modify_caller])].
Definition cross_task_contents : FileContents :=
  [("task-b", (src_caller_returns_5, src_caller_calls_foo))].

(** A rename recorded without snippets. *)
Definition rename_foo_no_snippets : SemanticChange :=
  {| change_type := RENAME_FUNCTION;
     target := "foo";
     location := "function:foo";
     line_start := 1;
     line_end := 3;
     content_before := None;
     content_after := None |}.
Definition no_snippet_analyses : TaskAnalyses :=
  [("task-a", analysis [rename_foo_no_snippets]);
   ("task-b", analysis [modify_caller])].

(** task-a and task-c both remove [import os]; task-b calls [os.getcwd]
    without importing [os]. *)
Definition two_removers_analyses : TaskAnalyses :=
  [("task-a", analysis [remove_import "os"]);
   ("task-b", analysis [modify_caller]);
   ("task-c", analysis [remove_import "os"])].
Definition os_user_contents : FileContents :=
  [("task-b", (src_empty, src_use_os))].

(** The table of [src_use_os]. *)
Definition table_use_os : SymbolTable :=
  {| definitions := [];
     usages := [("os", [1%Z])];
     imports := [];
     function_calls := [("getcwd", [1%Z])];
     function_signatures := [] |}.

(** task-a makes the return type of [f] nullable, task-b changes it from
    [int] to [str]. *)
Definition two_changers_analyses : TaskAnalyses :=
  [("task-a", analysis [modify_f]); ("task-b", analysis [modify_f])].
Definition two_changers_contents : FileContents :=
  [("task-a", (src_f_int, src_f_int_or_none));
   ("task-b", (src_f_int, src_f_str))].

(** The same two tasks, task-b first. *)
Definition two_changers_contents_swapped : FileContents :=
  [("task-b", (src_f_int, src_f_str));
   ("task-a", (src_f_int, src_f_int_or_none))].

(** [test_adding_none_to_return_type], shortened: task-a changes the
    return type of [f] from [int] to [int | None]. *)
Definition broaden_analyses : TaskAnalyses :=
  [("task-a", analysis [modify_f])].
Definition broaden_contents : FileContents :=
  [("task-a", (src_f_int, src_f_int_or_none))].

(** The tables of [src_f_plain], [src_f_int] and [src_f_int_or_none]. *)
Definition table_f (return_type : option string) (usages : dict (list Z))
  : SymbolTable :=
  {| definitions := [("f", ("function", 1%Z, "module"))];
     usages := usages;
     imports := [];
     function_calls := [];
     function_signatures := [("f", return_type)] |}.
Definition table_f_plain : SymbolTable := table_f None [].
Definition table_f_int : SymbolTable :=
  table_f (Some "int") [("int", [1%Z])].
Definition table_f_int_or_none : SymbolTable :=
  table_f (Some "int | None") [("int", [1%Z])].

(** task-a gives [f], which had no annotation, the return type
    [int | None]. *)
Definition gain_analyses : TaskAnalyses := [("task-a", analysis [modify_f])].
Definition gain_contents : FileContents :=
  [("task-a", (src_f_plain, src_f_int_or_none))].

End Samples.

(** A second sample: a text with imports, a class, a method with a return
    annotation, an assignment and a method call. *)
Module ServiceSample.

Definition src_service : string :=
  "import os" ++ Samples.nl
  ++ "from typing import List as L" ++ Samples.nl
  ++ Samples.nl
  ++ "class A:" ++ Samples.nl
  ++ "    def m(self) -> L:" ++ Samples.nl
  ++ "        x = os.getcwd()" ++ Samples.nl
  ++ "        return x" ++ Samples.nl.

(** [Module([Import, ImportFrom, ClassDef('A', body=[FunctionDef('m',
    arguments(args=[arg('self')]), [Assign, Return], returns=Name('L'))])])] *)
Definition ast_service : node :=
  OtherNode
    [Import 1 [mk_alias "os" None];
     ImportFrom 2 (Some "typing") [mk_alias "List" (Some "L")];
     ClassDef 4 "A" [] []
       [FunctionDef 5 "m" (OtherNode [Samples.leaf])
          [Assign 6 [Name 6 "x" Store]
             (Call 6 (Attribute 6 (Name 6 "os" Load) "getcwd" Load) [] []);
           OtherNode [Name 7 "x" Load]]
          [] (Some (Name 5 "L" Load)) []]
       [] []].

Definition parse (content file_path : string) : outcome node :=
  if content =? src_service then Returned ast_service
  else Samples.parse content file_path.

Definition stdlib : PythonStdlib :=
  {| path_suffix := Samples.suffix;
     str_lower := Samples.lower;
     ast_parse := parse;
     ast_unparse := Some Samples.unparse;
     walk_raises := Samples.walk |}.

(** The table of [src_service]. *)
Definition table_service : SymbolTable :=
  {| definitions := [("os", ("import", 1%Z, "module"));
                     ("L", ("import", 2%Z, "module"));
                     ("A", ("class", 4%Z, "module"));
                     ("m", ("function", 5%Z, "class:A"));
                     ("x", ("variable", 6%Z, "function:m"))];
     usages := [("os", [6%Z]); ("x", [7%Z]); ("L", [5%Z])];
     imports := [("os", "os"); ("L", "typing.List")];
     function_calls := [("getcwd", [6%Z])];
     function_signatures := [("m", Some "L")] |}.

End ServiceSample.

(** A third sample: a text that parses to a tree too deep for the walk. *)
Module DeepSample.

(** ['.a' * n] *)
Fixpoint dotted (n : nat) : string :=
  match n with
  | O => ""
  | S k => ".a" ++ dotted k
  end.

(** ['x' + '.a' * 600] *)
Definition src_deep : string := "x" ++ dotted 600.

(** [Attribute(... Attribute(Name('x'), 'a') ..., 'a')] with [n]
    attributes. *)
Fixpoint chain (n : nat) : node :=
  match n with
  | O => Name 1 "x" Load
  | S k => Attribute 1 (chain k) "a" Load
  end.

(** [Module([Expr(...)])] *)
Definition ast_deep : node := OtherNode [OtherNode [chain 600]].

Definition parse (content file_path : string) : outcome node :=
  if content =? src_deep then Returned ast_deep
  else Samples.parse content file_path.

Definition stdlib : PythonStdlib :=
  {| path_suffix := Samples.suffix;
     str_lower := Samples.lower;
     ast_parse := parse;
     ast_unparse := Some Samples.unparse;
     walk_raises := Samples.walk |}.

End DeepSample.

(* ===================================================================== *)
(** ** Notions used in the statements *)

(** The file the detectors analyse:
    [next(iter(task_analyses.values())).file_path], when there is a task. *)
Definition analysed_file (task_analyses : TaskAnalyses) : option string :=
  match task_analyses with
  | [] => None
  | (_, first) :: _ => Some first.(file_path)
  end.

(** The change is a function rename that carries both snippets. *)
Definition rename_with_snippets (change : SemanticChange) : bool :=
  ChangeType_eqb change.(change_type) RENAME_FUNCTION
  && (truthy change.(content_before) && truthy change.(content_after)).

(** The change is a function rename that lacks a snippet: [content_before]
    or [content_after] is [None] or empty. *)
Definition rename_without_snippet (change : SemanticChange) : bool :=
  ChangeType_eqb change.(change_type) RENAME_FUNCTION
  && negb (truthy change.(content_before) && truthy change.(content_after)).

(** The analyses without the renames that lack a snippet. *)
Definition drop_renames_without_snippet (task_analyses : TaskAnalyses)
  : TaskAnalyses :=
  map (fun '(task_id, analysis) =>
         (task_id,
          {| file_path := analysis.(file_path);
             changes := filter (fun change =>
                                  negb (rename_without_snippet change))
                               analysis.(changes) |}))
      task_analyses.

(** The analysis records the removal of the import of [symbol]. *)
Definition removes_import (symbol : string) (analysis : FileAnalysis) : bool :=
  existsb (fun change =>
             ChangeType_eqb change.(change_type) REMOVE_IMPORT
             && (change.(target) =? symbol))
          analysis.(changes).

(** The last task, in the order of [task_analyses], that records the removal
    of the import of [symbol]. *)
Definition last_remover (task_analyses : TaskAnalyses) (symbol : string)
  : option string :=
  fold_left
    (fun found '(task_id, analysis) =>
       if removes_import symbol analysis then Some task_id else found)
    task_analyses None.

(** What the output of a detector says. *)
Definition rename_reported (conflicts : list SemanticConflict)
           (old_name rename_task_id task_id : string) : Prop :=
  exists c, In c conflicts
            /\ c.(conflict_type) = "function_rename"
            /\ c.(severity) = HIGH
            /\ c.(tasks_involved) = [rename_task_id; task_id]
            /\ c.(sc_location) = "function:" ++ old_name.

Definition import_removal_reported (conflicts : list SemanticConflict)
           (symbol removal_task_id task_id : string) : Prop :=
  exists c, In c conflicts
            /\ c.(conflict_type) = "import_removal"
            /\ c.(severity) = CRITICAL
            /\ c.(tasks_involved) = [removal_task_id; task_id]
            /\ c.(sc_location) = "import:" ++ symbol.

Definition type_change_reported (conflicts : list SemanticConflict)
           (func_name change_task_id : string) : Prop :=
  exists c, In c conflicts
            /\ c.(conflict_type) = "type_change"
            /\ c.(severity) = MEDIUM
            /\ c.(tasks_involved) = [change_task_id]
            /\ c.(sc_location) = "function:" ++ func_name.

(** The kinds the passes emit. *)
Definition emitted_kinds : list string :=
  ["function_rename"; "import_removal"; "type_change"].

(** The new annotation has the marker ["None"] and the old one lacks it. *)
Definition none_added (old_type new_type : string) : bool :=
  str_contains "None" new_type && negb (str_contains "None" old_type).

Section Notions.
Context {py : PythonStdlib}.

(** The table [build_symbol_table] returns; the function always returns
    ([build_symbol_table_returns] below). *)
Definition table_of (file_path content : string) : option SymbolTable :=
  match build_symbol_table file_path content with
  | Returned table => table
  | Raised _ => None
  end.

(** What one iteration of the loop of [detect_function_rename_conflicts]
    over [file_contents] appends. *)
Definition rename_findings (file_path : string)
           (renames : dict (string * string))
           (entry : string * (string * string)) : list SemanticConflict :=
  let '(task_id, (_, after_content)) := entry in
  match table_of file_path after_content with
  | None => []
  | Some symbol_table =>
      flat_map (rename_check file_path task_id symbol_table []) renames
  end.

(** What one iteration of the loop of [detect_import_removal_conflicts]
    over [file_contents] appends. *)
Definition removal_findings (file_path : string) (removals : dict string)
           (entry : string * (string * string)) : list SemanticConflict :=
  let '(task_id, (_, after_content)) := entry in
  match table_of file_path after_content with
  | None => []
  | Some symbol_table =>
      flat_map (removal_check file_path task_id symbol_table []) removals
  end.

(** The recorded return types of [func_name] in two tables, when both
    record the function and the two types differ. *)
Definition signature_transition (before_symbols after_symbols : SymbolTable)
           (func_name : string) : option (option string * option string) :=
  match PyDict.get func_name before_symbols.(function_signatures),
        PyDict.get func_name after_symbols.(function_signatures) with
  | Some old_type, Some new_type =>
      if opt_str_eqb old_type new_type then None
      else Some (old_type, new_type)
  | _, _ => None
  end.

(** The recorded return types of [func_name] before and after a task's
    edit, when both versions parse, both record the function and the two
    types differ. *)
Definition type_transition (file_path func_name : string)
           (contents : string * string)
  : option (option string * option string) :=
  let '(before_content, after_content) := contents in
  match table_of file_path before_content,
        table_of file_path after_content with
  | Some before_symbols, Some after_symbols =>
      signature_transition before_symbols after_symbols func_name
  | _, _ => None
  end.

(** The transition of [func_name] made by the last task, in the order of
    [file_contents], that has one. *)
Definition last_type_change (file_path : string)
           (file_contents : FileContents) (func_name : string)
  : option type_change :=
  fold_left
    (fun found '(task_id, contents) =>
       match type_transition file_path func_name contents with
       | Some (old_type, new_type) => Some (old_type, new_type, task_id)
       | None => found
       end)
    file_contents None.

(** One iteration of the first loop of [detect_type_change_conflicts]. *)
Definition record_type_changes (file_path : string)
           (type_changes : dict type_change)
           (entry : string * (string * string)) : dict type_change :=
  let '(task_id, (before_content, after_content)) := entry in
  match table_of file_path before_content,
        table_of file_path after_content with
  | Some before_symbols, Some after_symbols =>
      fold_left (record_type_change before_symbols after_symbols task_id)
                (PyDict.keys after_symbols.(function_signatures))
                type_changes
  | _, _ => type_changes
  end.

(** The findings of the three passes that report, in discovery order. *)
Definition rename_pass (task_analyses : TaskAnalyses)
           (file_contents : FileContents) : list SemanticConflict :=
  match analysed_file task_analyses with
  | None => []
  | Some fp =>
      flat_map (rename_findings fp (collect_renames task_analyses))
               file_contents
  end.

Definition removal_pass (task_analyses : TaskAnalyses)
           (file_contents : FileContents) : list SemanticConflict :=
  match analysed_file task_analyses with
  | None => []
  | Some fp =>
      flat_map (removal_findings fp (collect_removals task_analyses))
               file_contents
  end.

Definition type_change_pass (task_analyses : TaskAnalyses)
           (file_contents : FileContents) : list SemanticConflict :=
  match analysed_file task_analyses with
  | None => []
  | Some fp =>
      flat_map (type_change_check fp [])
               (fold_left (record_type_changes fp) file_contents
                          PyDict.empty)
  end.

(** The specification's sentence on import removals, read for every task
    that records a removal. *)
Definition import_removal_claim (task_analyses : TaskAnalyses)
           (file_contents : FileContents) : Prop :=
  forall fp removing_task analysis change task_id before_content
         after_content table,
    analysed_file task_analyses = Some fp ->
    In (removing_task, analysis) task_analyses ->
    In change analysis.(changes) ->
    change.(change_type) = REMOVE_IMPORT ->
    task_id <> removing_task ->
    In (task_id, (before_content, after_content)) file_contents ->
    build_symbol_table fp after_content = Returned (Some table) ->
    returns (detect_import_removal_conflicts task_analyses file_contents)
      (fun conflicts =>
         import_removal_reported conflicts change.(target) removing_task
                                 task_id
         <-> (PyDict.mem change.(target) table.(usages) = true
              /\ PyDict.mem change.(target) table.(imports) = false)).

(** The specification's sentences on [build_symbol_table]. *)
Definition build_symbol_table_claim (file_path content : string) : Prop :=
  (exists result, build_symbol_table file_path content = Returned result)
  /\ (str_lower (path_suffix file_path) <> ".py" ->
      build_symbol_table file_path content = Returned None)
  /\ (forall e, ast_parse content file_path = Raised e ->
                build_symbol_table file_path content = Returned None)
  /\ (str_lower (path_suffix file_path) = ".py" ->
      forall tree, ast_parse content file_path = Returned tree ->
                   exists table,
                     build_symbol_table file_path content
                     = Returned (Some table)).

(** The specification's sentence on return types, read for every task. *)
Definition type_change_claim (task_analyses : TaskAnalyses)
           (file_contents : FileContents) : Prop :=
  forall fp task_id before_content after_content before_symbols
         after_symbols func_name old_type new_type,
    analysed_file task_analyses = Some fp ->
    In (task_id, (before_content, after_content)) file_contents ->
    build_symbol_table fp before_content = Returned (Some before_symbols) ->
    build_symbol_table fp after_content = Returned (Some after_symbols) ->
    PyDict.get func_name before_symbols.(function_signatures)
    = Some (Some old_type) ->
    PyDict.get func_name after_symbols.(function_signatures)
    = Some (Some new_type) ->
    returns (detect_type_change_conflicts task_analyses file_contents)
      (fun conflicts =>
         type_change_reported conflicts func_name task_id
         <-> none_added old_type new_type = true).
End Notions.

(* ===================================================================== *)
(** ** The traversal, node by node

    [NodeVisitor.generic_visit] walks the child nodes of a node in field
    order; every [visit_] method of the extractor first updates the table
    (and, for a function or class, the scope), then calls it, and a function
    or class restores the scope afterwards. *)

Definition opt_nodes (o : option node) : list node :=
  match o with
  | Some n => [n]
  | None => []
  end.

(** The child nodes [generic_visit] walks, in its order. *)
Definition children (n : node) : list node :=
  match n with
  | Import _ _ => []
  | ImportFrom _ _ _ => []
  | FunctionDef _ _ args body decorator_list returns_ type_params
  | AsyncFunctionDef _ _ args body decorator_list returns_ type_params =>
      (args :: body ++ decorator_list ++ opt_nodes returns_ ++ type_params)%list
  | ClassDef _ _ bases keywords body decorator_list type_params =>
      (bases ++ keywords ++ body ++ decorator_list ++ type_params)%list
  | Assign _ targets value => (targets ++ [value])%list
  | AnnAssign _ target annotation value =>
      (target :: annotation :: opt_nodes value)%list
  | Name _ _ _ => []
  | Call _ func args keywords => (func :: args ++ keywords)%list
  | Attribute _ value _ _ => [value]
  | OtherNode children => children
  end.

(** [occurs_in m tree]: [m] is [tree] or a node below it. *)
Inductive occurs_in : node -> node -> Prop :=
| occurs_here (n : node) : occurs_in n n
| occurs_below (m child n : node) :
    In child (children n) -> occurs_in m child -> occurs_in m n.

(** [node.module or ""] *)
Definition module_or_empty (module : option string) : string :=
  match module with
  | Some m => if truthy (Some m) then m else ""
  | None => ""
  end.

(** The node is a call of [name] on [line]: of the name itself, or of an
    attribute of that name. *)
Definition calls (n : node) (name : string) (line : Z) : Prop :=
  match n with
  | Call lineno (Name _ id _) _ _ => id = name /\ lineno = line
  | Call lineno (Attribute _ _ attr _) _ _ => attr = name /\ lineno = line
  | _ => False
  end.

(** The node reads [name] on [line]. *)
Definition reads (n : node) (name : string) (line : Z) : Prop :=
  match n with
  | Name lineno id Load => id = name /\ lineno = line
  | _ => False
  end.

(** The node is an import statement that binds [name] to [source]. *)
Definition binds_import (n : node) (name source : string) : Prop :=
  match n with
  | Import _ names =>
      exists a, In a names /\ bound_name a = name /\ source = a.(alias_name)
  | ImportFrom _ module names =>
      exists a, In a names /\ bound_name a = name
                /\ source = module_or_empty module ++ "." ++ a.(alias_name)
  | _ => False
  end.

(** The node defines the class [name], or assigns to the variable [name]. *)
Definition defines (n : node) (name : string) : Prop :=
  match n with
  | ClassDef _ id _ _ _ _ _ => id = name
  | Assign _ targets _ =>
      exists lineno ctx, In (Name lineno name ctx) targets
  | AnnAssign _ (Name _ id _) _ _ => id = name
  | _ => False
  end.

(** [recorded name line d]: [line] is in the list [d] holds for [name]. *)
Definition recorded (name : string) (line : Z) (d : dict (list Z)) : Prop :=
  exists lines, PyDict.get name d = Some lines /\ In line lines.

Section Traversal.
Context {py : PythonStdlib}.

(** The node defines the function [name] with the recorded return type
    [return_type]. *)
Definition defines_function (n : node) (name : string)
           (return_type : option string) : Prop :=
  match n with
  | FunctionDef _ id _ _ _ returns_ _
  | AsyncFunctionDef _ id _ _ _ returns_ _ =>
      id = name /\ return_type = return_type_of returns_
  | _ => False
  end.

(** What a [visit_] method does before it calls [generic_visit]. *)
Definition enter (n : node) (self : PythonSymbolExtractor)
  : PythonSymbolExtractor :=
  match n with
  | Import lineno names => fold_left (import_alias lineno) names self
  | ImportFrom lineno module names =>
      fold_left (import_from_alias lineno (module_or_empty module)) names self
  | FunctionDef lineno name _ _ _ returns_ _ =>
      set_scope ("function:" ++ name)
        (on_table (add_function_signature name (return_type_of returns_))
           (on_table (add_definition name "function" lineno
                        self.(current_scope)) self))
  | AsyncFunctionDef lineno name _ _ _ returns_ _ =>
      set_scope ("function:" ++ name)
        (on_table (add_function_signature name (return_type_of returns_))
           (on_table (add_definition name "async_function" lineno
                        self.(current_scope)) self))
  | ClassDef lineno name _ _ _ _ _ =>
      set_scope ("class:" ++ name)
        (on_table (add_definition name "class" lineno self.(current_scope))
                  self)
  | Assign lineno targets _ => fold_left (define_target lineno) targets self
  | AnnAssign lineno target _ _ => define_target lineno self target
  | Name lineno id Load => on_table (add_usage id lineno) self
  | Name _ _ _ => self
  | Call lineno (Name _ id _) _ _ =>
      on_table (add_function_call id lineno) self
  | Call lineno (Attribute _ _ attr _) _ _ =>
      on_table (add_function_call attr lineno) self
  | Call _ _ _ _ => self
  | Attribute _ _ _ _ => self
  | OtherNode _ => self
  end.

(** What a [visit_] method does after [generic_visit]: a function or a
    class restores the scope it was entered in. *)
Definition leave (n : node) (before self : PythonSymbolExtractor)
  : PythonSymbolExtractor :=
  match n with
  | FunctionDef _ _ _ _ _ _ _
  | AsyncFunctionDef _ _ _ _ _ _ _
  | ClassDef _ _ _ _ _ _ _ => set_scope before.(current_scope) self
  | _ => self
  end.

(** Visiting a sequence of nodes, one after the other. *)
Definition visit_nodes (l : list node) (self : PythonSymbolExtractor)
  : PythonSymbolExtractor :=
  fold_left (fun self child => visit child self) l self.

(** One update of the table made on entering the node [m]. *)
Inductive table_step (m : node) : SymbolTable -> SymbolTable -> Prop :=
| step_import (name source : string) (lineno : Z) (scope : string)
              (t : SymbolTable) :
    binds_import m name source ->
    table_step m t (add_definition name "import" lineno scope
                                   (add_import name source t))
| step_function (name def_type : string) (return_type : option string)
                (lineno : Z) (scope : string) (t : SymbolTable) :
    defines_function m name return_type ->
    table_step m t (add_function_signature name return_type
                      (add_definition name def_type lineno scope t))
| step_definition (name def_type : string) (lineno : Z) (scope : string)
                  (t : SymbolTable) :
    defines m name ->
    table_step m t (add_definition name def_type lineno scope t)
| step_usage (name : string) (line : Z) (t : SymbolTable) :
    reads m name line ->
    table_step m t (add_usage name line t)
| step_call (name : string) (line : Z) (t : SymbolTable) :
    calls m name line ->
    table_step m t (add_function_call name line t).

(** [trace tree t t']: [t'] comes from [t] by updates made on entering
    nodes of [tree]. *)
Inductive trace (tree : node) (t : SymbolTable) : SymbolTable -> Prop :=
| trace_done : trace tree t t
| trace_step (m : node) (t1 t2 : SymbolTable) :
    trace tree t t1 -> occurs_in m tree -> table_step m t1 t2 ->
    trace tree t t2.
End Traversal.

(* ===================================================================== *)
(** ** More notions used in the statements *)

(** The analysis records, with both snippets, a rename whose target is
    [name]. *)
Definition renames_function (name : string) (analysis : FileAnalysis) : bool :=
  existsb (fun change =>
             rename_with_snippets change && (change.(target) =? name))
          analysis.(changes).

(** The last task, in the order of [task_analyses], that records such a
    rename. *)
Definition last_renamer (task_analyses : TaskAnalyses) (name : string)
  : option string :=
  fold_left
    (fun found '(task_id, analysis) =>
       if renames_function name analysis then Some task_id else found)
    task_analyses None.

(** The file contents without the before-texts. *)
Definition after_texts (file_contents : FileContents)
  : list (string * string) :=
  map (fun '(task_id, (_, after_content)) => (task_id, after_content))
      file_contents.

(* ===================================================================== *)
(** ** Dictionaries: lookup after assignment, distinct keys *)

Module PyDictFacts.
Section Facts.
Variable V : Type.
Implicit Types (d : dict V) (k : string) (v : V).

Lemma get_set_same k v d : PyDict.get k (PyDict.set k v d) = Some v.
Proof.
  induction d as [|[k' v'] rest IH]; simpl.
  - now rewrite String.eqb_refl.
  - destruct (k' =? k) eqn:E; simpl; rewrite E; auto.
Qed.

Lemma get_set_other k k' v d :
  k <> k' -> PyDict.get k' (PyDict.set k v d) = PyDict.get k' d.
Proof.
  intros Hne. induction d as [|[k0 v0] rest IH]; simpl.
  - destruct (k =? k') eqn:E; auto.
    apply String.eqb_eq in E. contradiction.
  - destruct (k0 =? k) eqn:E; simpl.
    + apply String.eqb_eq in E. subst k0.
      destruct (k =? k') eqn:E'; auto.
      apply String.eqb_eq in E'. contradiction.
    + now rewrite IH.
Qed.

Lemma get_In k v d : PyDict.get k d = Some v -> In (k, v) d.
Proof.
  induction d as [|[k0 v0] rest IH]; simpl; [discriminate|].
  destruct (k0 =? k) eqn:E.
  - apply String.eqb_eq in E. intros [= ->]. subst. now left.
  - intros H. right. auto.
Qed.

Lemma get_None_keys k d : PyDict.get k d = None -> ~ In k (PyDict.keys d).
Proof.
  induction d as [|[k0 v0] rest IH]; simpl; [tauto|].
  destruct (k0 =? k) eqn:E; [discriminate|].
  apply String.eqb_neq in E. intros H [Hk|Hk]; [contradiction|].
  now apply IH.
Qed.


Lemma In_get k v d : PyDict.wf d -> In (k, v) d -> PyDict.get k d = Some v.
Proof.
  unfold PyDict.wf.
  induction d as [|[k0 v0] rest IH]; simpl; [tauto|].
  intros Hnd [Heq|Hin].
  - injection Heq as -> ->. now rewrite String.eqb_refl.
  - inversion Hnd as [|? ? Hnotin Hnd']; subst.
    destruct (k0 =? k) eqn:E.
    + apply String.eqb_eq in E. subst k0. exfalso. apply Hnotin.
      change k with (fst (k, v)). now apply in_map.
    + auto.
Qed.

Lemma In_set k v k' v' d :
  In (k', v') (PyDict.set k v d) -> (k' = k /\ v' = v) \/ In (k', v') d.
Proof.
  induction d as [|[k0 v0] rest IH]; simpl.
  - intros [[= <- <-]|[]]. now left.
  - destruct (k0 =? k) eqn:E; simpl.
    + apply String.eqb_eq in E. subst k0.
      intros [[= <- <-]|Hin]; [now left | right; now right].
    + intros [Heq|Hin]; [right; now left|].
      destruct (IH Hin) as [?|?]; [now left | right; now right].
Qed.

Lemma keys_set k v d :
  forall k', In k' (PyDict.keys (PyDict.set k v d)) ->
             k' = k \/ In k' (PyDict.keys d).
Proof.
  induction d as [|[k0 v0] rest IH]; simpl; intros k'.
  - intros [<-|[]]. now left.
  - destruct (k0 =? k) eqn:E; simpl.
    + intros [<-|Hin]; right; [now left | now right].
    + intros [<-|Hin]; [right; now left|].
      destruct (IH _ Hin) as [?|?]; [now left | right; now right].
Qed.

Lemma wf_set k v d : PyDict.wf d -> PyDict.wf (PyDict.set k v d).
Proof.
  unfold PyDict.wf.
  induction d as [|[k0 v0] rest IH]; simpl; intros Hnd.
  - constructor; [simpl; tauto | constructor].
  - inversion Hnd as [|? ? Hnotin Hnd']; subst.
    destruct (k0 =? k) eqn:E; simpl.
    + now constructor.
    + constructor; [|auto].
      intros Hin. apply keys_set in Hin. destruct Hin as [->|Hin].
      * now rewrite String.eqb_refl in E.
      * contradiction.
Qed.

Lemma wf_empty : PyDict.wf (@PyDict.empty V).
Proof. constructor. Qed.

Lemma mem_true k d : PyDict.mem k d = true <-> exists v, PyDict.get k d = Some v.
Proof.
  unfold PyDict.mem. destruct (PyDict.get k d) as [v|]; split.
  - eauto.
  - reflexivity.
  - discriminate.
  - intros [v H]. discriminate H.
Qed.

Lemma mem_false k d : PyDict.mem k d = false <-> PyDict.get k d = None.
Proof.
  unfold PyDict.mem. destruct (PyDict.get k d); split; congruence.
Qed.

(** Folding an update that preserves distinct keys. *)
Lemma wf_fold_left (A : Type) (f : dict V -> A -> dict V) (l : list A) :
  (forall d x, PyDict.wf d -> PyDict.wf (f d x)) ->
  forall d, PyDict.wf d -> PyDict.wf (fold_left f l d).
Proof.
  intros Hf. induction l as [|x rest IH]; simpl; auto.
Qed.
End Facts.
End PyDictFacts.

(* ===================================================================== *)
(** ** Loops *)

(** A loop whose body only appends yields the initial list followed by what
    each iteration appends. *)
Lemma fold_left_appends (A B : Type) (f : list B -> A -> list B)
      (g : A -> list B) :
  (forall acc x, f acc x = (acc ++ g x)%list) ->
  forall l acc, fold_left f l acc = (acc ++ flat_map g l)%list.
Proof.
  intros Hf. induction l as [|x rest IH]; intros acc; simpl.
  - now rewrite app_nil_r.
  - now rewrite IH, Hf, <- app_assoc.
Qed.

(** A loop whose body always returns is a fold. *)
Lemma for_each_returns (A S : Type) (body : S -> A -> outcome S)
      (f : S -> A -> S) :
  (forall s x, body s x = Returned (f s x)) ->
  forall l s, for_each l s body = Returned (fold_left f l s).
Proof.
  intros Hb. induction l as [|x rest IH]; intros s; simpl; auto.
  rewrite Hb. simpl. apply IH.
Qed.

Lemma returns_intro (A : Type) (o : outcome A) (a : A) (P : A -> Prop) :
  o = Returned a -> P a -> returns o P.
Proof. intros. exists a. auto. Qed.


(* ===================================================================== *)
(** ** Strings *)

Lemma prefix_app (a b : string) : prefix a (a ++ b) = true.
Proof.
  induction a as [|c a IH]; simpl.
  - now destruct b.
  - destruct (ascii_dec c c); [exact IH | contradiction].
Qed.

Lemma prefix_app_app (a b c : string) : prefix a ((a ++ b) ++ c) = true.
Proof.
  induction a as [|x a IH]; simpl.
  - now destruct (b ++ c).
  - destruct (ascii_dec x x); [exact IH | contradiction].
Qed.


(* ===================================================================== *)
(** ** build_symbol_table *)

Section ExtractorFacts.
Context {py : PythonStdlib}.

(** Every exception is caught by one of the two [except] clauses. *)
Lemma isinstance_Exception (e : exn) : isinstance e Exception_class = true.
Proof. now destruct e. Qed.

Lemma build_symbol_table_returns (file_path content : string) :
  build_symbol_table file_path content
  = Returned (table_of file_path content).
Proof.
  unfold table_of, build_symbol_table.
  destruct (negb (str_lower (path_suffix file_path) =? ".py")); [reflexivity|].
  destruct (parse_and_extract file_path content) as [table|e]; [reflexivity|].
  destruct (isinstance e SyntaxError_class); [reflexivity|].
  now rewrite isinstance_Exception.
Qed.

Lemma table_of_Some (file_path content : string) (table : SymbolTable) :
  build_symbol_table file_path content = Returned (Some table) ->
  table_of file_path content = Some table.
Proof. unfold table_of. now intros ->. Qed.
End ExtractorFacts.

(* ===================================================================== *)
(** ** The detectors as folds *)

Section DetectorFacts.
Context {py : PythonStdlib}.

Lemma rename_check_appends fp task_id table conflicts entry :
  rename_check fp task_id table conflicts entry
  = (conflicts ++ rename_check fp task_id table [] entry)%list.
Proof.
  destruct entry as [old_name [new_name rename_task_id]]. simpl.
  destruct (rename_task_id =? task_id); [now rewrite app_nil_r|].
  destruct (PyDict.get old_name (function_calls table));
    [reflexivity | now rewrite app_nil_r].
Qed.

Lemma removal_check_appends fp task_id table conflicts entry :
  removal_check fp task_id table conflicts entry
  = (conflicts ++ removal_check fp task_id table [] entry)%list.
Proof.
  destruct entry as [symbol removal_task_id]. simpl.
  destruct (removal_task_id =? task_id); [now rewrite app_nil_r|].
  destruct (PyDict.get symbol (usages table)); [|now rewrite app_nil_r].
  destruct (negb (PyDict.mem symbol (imports table)));
    [reflexivity | now rewrite app_nil_r].
Qed.

Lemma type_change_check_appends fp conflicts entry :
  type_change_check fp conflicts entry
  = (conflicts ++ type_change_check fp [] entry)%list.
Proof.
  destruct entry as [func_name [[old_type new_type] change_task_id]]. simpl.
  destruct (truthy old_type && truthy new_type); [|now rewrite app_nil_r].
  destruct old_type as [old|], new_type as [new|];
    try now rewrite app_nil_r.
  destruct (str_contains "None" new && negb (str_contains "None" old));
    [reflexivity | now rewrite app_nil_r].
Qed.

Lemma detect_function_rename_conflicts_eq ta fc :
  detect_function_rename_conflicts ta fc = Returned (rename_pass ta fc).
Proof.
  unfold detect_function_rename_conflicts, rename_pass, analysed_file.
  destruct ta as [|[first_id first] rest]; [reflexivity|].
  set (ta := (first_id, first) :: rest).
  rewrite for_each_returns
    with (f := fun conflicts entry =>
                 (conflicts
                  ++ rename_findings (file_path first) (collect_renames ta)
                                     entry)%list).
  - now rewrite fold_left_appends
      with (g := rename_findings (file_path first) (collect_renames ta)).
  - intros conflicts [task_id [before_content after_content]].
    rewrite build_symbol_table_returns. simpl.
    destruct (table_of (file_path first) after_content) as [table|].
    + now rewrite fold_left_appends
        with (g := rename_check (file_path first) task_id table [])
        by (intros; apply rename_check_appends).
    + now rewrite app_nil_r.
Qed.

Lemma detect_import_removal_conflicts_eq ta fc :
  detect_import_removal_conflicts ta fc = Returned (removal_pass ta fc).
Proof.
  unfold detect_import_removal_conflicts, removal_pass, analysed_file.
  destruct ta as [|[first_id first] rest]; [reflexivity|].
  set (ta := (first_id, first) :: rest).
  rewrite for_each_returns
    with (f := fun conflicts entry =>
                 (conflicts
                  ++ removal_findings (file_path first) (collect_removals ta)
                                      entry)%list).
  - now rewrite fold_left_appends
      with (g := removal_findings (file_path first) (collect_removals ta)).
  - intros conflicts [task_id [before_content after_content]].
    rewrite build_symbol_table_returns. simpl.
    destruct (table_of (file_path first) after_content) as [table|].
    + now rewrite fold_left_appends
        with (g := removal_check (file_path first) task_id table [])
        by (intros; apply removal_check_appends).
    + now rewrite app_nil_r.
Qed.

Lemma collect_type_changes_eq fp fc :
  collect_type_changes fp fc
  = Returned (fold_left (record_type_changes fp) fc PyDict.empty).
Proof.
  unfold collect_type_changes.
  apply for_each_returns.
  intros type_changes [task_id [before_content after_content]].
  rewrite !build_symbol_table_returns. simpl.
  destruct (table_of fp before_content), (table_of fp after_content);
    reflexivity.
Qed.

Lemma detect_type_change_conflicts_eq ta fc :
  detect_type_change_conflicts ta fc = Returned (type_change_pass ta fc).
Proof.
  unfold detect_type_change_conflicts, type_change_pass, analysed_file.
  destruct ta as [|[first_id first] rest]; [reflexivity|].
  rewrite collect_type_changes_eq. simpl.
  now rewrite fold_left_appends with (g := type_change_check (file_path first) [])
    by (intros; apply type_change_check_appends).
Qed.

Lemma flat_map_singleton (A B : Type) (f : A -> B) (l : list A) :
  flat_map (fun x => [f x]) l = map f l.
Proof. induction l as [|x rest IH]; simpl; congruence. Qed.

(** The aggregator: the passes in their order, each finding converted. *)
Lemma detect_semantic_conflicts_eq ta fc :
  detect_semantic_conflicts ta fc
  = Returned (map to_region (rename_pass ta fc ++ removal_pass ta fc
                             ++ [] ++ type_change_pass ta fc)%list).
Proof.
  unfold detect_semantic_conflicts.
  destruct ta as [|first rest]; [reflexivity|].
  unfold run_detectors, detect_variable_rename_conflicts.
  rewrite detect_function_rename_conflicts_eq,
    detect_import_removal_conflicts_eq, detect_type_change_conflicts_eq.
  simpl bind.
  rewrite fold_left_appends with (g := fun c => [to_region c])
    by reflexivity.
  rewrite flat_map_singleton. simpl. now rewrite <- !app_assoc.
Qed.
End DetectorFacts.

(* ===================================================================== *)
(** ** What each pass can emit *)

Section Findings.
Context {py : PythonStdlib}.

Lemma rename_check_In fp task_id table old_name new_name rename_task_id c :
  In c (rename_check fp task_id table [] (old_name, (new_name, rename_task_id)))
  <-> rename_task_id <> task_id
      /\ exists call_lines,
           PyDict.get old_name table.(function_calls) = Some call_lines
           /\ c = rename_conflict fp task_id old_name new_name
                                  rename_task_id call_lines.
Proof.
  simpl. destruct (rename_task_id =? task_id) eqn:E.
  - apply String.eqb_eq in E. simpl. split; [tauto | intros [H _]; contradiction].
  - apply String.eqb_neq in E.
    destruct (PyDict.get old_name (function_calls table)) as [lines|]; simpl.
    + split.
      * intros [<-|[]]. eauto.
      * intros [_ [lines' [[= <-] ->]]]. now left.
    + split; [tauto | intros [_ [lines' [[=] _]]]].
Qed.

Lemma rename_findings_In fp renames fc c :
  In c (flat_map (rename_findings fp renames) fc)
  <-> exists task_id before_content after_content table old_name new_name
             rename_task_id call_lines,
        In (task_id, (before_content, after_content)) fc
        /\ table_of fp after_content = Some table
        /\ In (old_name, (new_name, rename_task_id)) renames
        /\ rename_task_id <> task_id
        /\ PyDict.get old_name table.(function_calls) = Some call_lines
        /\ c = rename_conflict fp task_id old_name new_name rename_task_id
                               call_lines.
Proof.
  rewrite in_flat_map. split.
  - intros [[task_id [before_content after_content]] [Hfc Hc]].
    unfold rename_findings in Hc.
    destruct (table_of fp after_content) as [table|] eqn:Ht; [|destruct Hc].
    apply in_flat_map in Hc.
    destruct Hc as [[old_name [new_name rename_task_id]] [Hr Hc]].
    apply rename_check_In in Hc. destruct Hc as [Hne [lines [Hg ->]]].
    exists task_id, before_content, after_content, table, old_name, new_name,
      rename_task_id, lines. auto 10.
  - intros (task_id & before_content & after_content & table & old_name
            & new_name & rename_task_id & lines & Hfc & Ht & Hr & Hne & Hg
            & ->).
    exists (task_id, (before_content, after_content)). split; [assumption|].
    unfold rename_findings. rewrite Ht. apply in_flat_map.
    exists (old_name, (new_name, rename_task_id)). split; [assumption|].
    apply rename_check_In. split; [assumption|]. exists lines. auto.
Qed.

Lemma removal_check_In fp task_id table symbol removal_task_id c :
  In c (removal_check fp task_id table [] (symbol, removal_task_id))
  <-> removal_task_id <> task_id
      /\ PyDict.mem symbol table.(imports) = false
      /\ exists usage_lines,
           PyDict.get symbol table.(usages) = Some usage_lines
           /\ c = removal_conflict fp task_id symbol removal_task_id
                                   usage_lines.
Proof.
  simpl. destruct (removal_task_id =? task_id) eqn:E.
  - apply String.eqb_eq in E. simpl. split; [tauto | intros [H _]; contradiction].
  - apply String.eqb_neq in E.
    destruct (PyDict.get symbol (usages table)) as [lines|]; simpl.
    + destruct (PyDict.mem symbol (imports table)); simpl.
      * split; [tauto | intros [_ [[=] _]]].
      * split.
        -- intros [<-|[]]. eauto.
        -- intros [_ [_ [lines' [[= <-] ->]]]]. now left.
    + split; [tauto | intros [_ [_ [lines' [[=] _]]]]].
Qed.

Lemma removal_findings_In fp removals fc c :
  In c (flat_map (removal_findings fp removals) fc)
  <-> exists task_id before_content after_content table symbol
             removal_task_id usage_lines,
        In (task_id, (before_content, after_content)) fc
        /\ table_of fp after_content = Some table
        /\ In (symbol, removal_task_id) removals
        /\ removal_task_id <> task_id
        /\ PyDict.mem symbol table.(imports) = false
        /\ PyDict.get symbol table.(usages) = Some usage_lines
        /\ c = removal_conflict fp task_id symbol removal_task_id
                                usage_lines.
Proof.
  rewrite in_flat_map. split.
  - intros [[task_id [before_content after_content]] [Hfc Hc]].
    unfold removal_findings in Hc.
    destruct (table_of fp after_content) as [table|] eqn:Ht; [|destruct Hc].
    apply in_flat_map in Hc.
    destruct Hc as [[symbol removal_task_id] [Hr Hc]].
    apply removal_check_In in Hc.
    destruct Hc as [Hne [Himp [lines [Hg ->]]]].
    exists task_id, before_content, after_content, table, symbol,
      removal_task_id, lines. auto 10.
  - intros (task_id & before_content & after_content & table & symbol
            & removal_task_id & lines & Hfc & Ht & Hr & Hne & Himp & Hg
            & ->).
    exists (task_id, (before_content, after_content)). split; [assumption|].
    unfold removal_findings. rewrite Ht. apply in_flat_map.
    exists (symbol, removal_task_id). split; [assumption|].
    apply removal_check_In. split; [assumption|]. split; [assumption|]. exists lines. auto.
Qed.

Lemma truthy_Some (s : string) : truthy (Some s) = true <-> s <> "".
Proof.
  simpl. destruct (s =? "") eqn:E; simpl.
  - apply String.eqb_eq in E. split; [discriminate | contradiction].
  - apply String.eqb_neq in E. split; auto.
Qed.

Lemma type_change_check_In fp func_name old_type new_type change_task_id c :
  In c (type_change_check fp []
          (func_name, (old_type, new_type, change_task_id)))
  <-> exists old new,
        old_type = Some old /\ new_type = Some new
        /\ old <> "" /\ new <> ""
        /\ none_added old new = true
        /\ c = type_change_conflict fp func_name old new change_task_id.
Proof.
  unfold type_change_check, none_added.
  destruct old_type as [old|], new_type as [new|];
    try (split;
         [ intros H; destruct (_ && _) in H; destruct H
         | intros (o & n & Ho & Hn & _); discriminate ]; fail).
  destruct (truthy (Some old)) eqn:Eo; cbn [andb].
  - destruct (truthy (Some new)) eqn:En.
    + apply truthy_Some in Eo, En.
      destruct (str_contains "None" new && negb (str_contains "None" old))
        eqn:Hadded; simpl.
      * split.
        -- intros [<-|[]]. exists old, new. auto 10.
        -- intros (o & n & [= <-] & [= <-] & _ & _ & _ & ->). now left.
      * split; [tauto|].
        intros (o & n & [= <-] & [= <-] & _ & _ & H & _). congruence.
    + split; [simpl; tauto|].
      intros (o & n & _ & [= <-] & _ & Hn & _).
      apply truthy_Some in Hn. congruence.
  - split; [simpl; tauto|].
    intros (o & n & [= <-] & _ & Ho & _).
    apply truthy_Some in Ho. congruence.
Qed.

Lemma rename_findings_kind fp renames fc c :
  In c (flat_map (rename_findings fp renames) fc) ->
  c.(conflict_type) = "function_rename".
Proof.
  intros H. apply rename_findings_In in H.
  destruct H as (? & ? & ? & ? & ? & ? & ? & ? & _ & _ & _ & _ & _ & ->).
  reflexivity.
Qed.

Lemma removal_findings_kind fp removals fc c :
  In c (flat_map (removal_findings fp removals) fc) ->
  c.(conflict_type) = "import_removal".
Proof.
  intros H. apply removal_findings_In in H.
  destruct H as (? & ? & ? & ? & ? & ? & ? & _ & _ & _ & _ & _ & _ & ->).
  reflexivity.
Qed.

Lemma type_change_findings_kind fp type_changes c :
  In c (flat_map (type_change_check fp []) type_changes) ->
  c.(conflict_type) = "type_change".
Proof.
  intros H. apply in_flat_map in H.
  destruct H as [[func_name [[old_type new_type] task_id]] [_ H]].
  apply type_change_check_In in H.
  destruct H as (? & ? & _ & _ & _ & _ & _ & ->). reflexivity.
Qed.
End Findings.

(* ===================================================================== *)
(** ** Properties of the extractor *)

(** C5, amended: for every file path and source text, [build_symbol_table]
    returns and never raises; it returns [None] when the lowered suffix of
    the path is not [".py"], when parsing raises, whatever the exception,
    and when the walk of the parsed tree raises; when the suffix is [".py"],
    the text parses and the walk of the tree completes, it returns the table
    the visitor fills from the tree. *)
Theorem build_symbol_table_none_or_table
        (py : PythonStdlib) (file_path content : string) :
  (exists result, build_symbol_table file_path content = Returned result)
  /\ (str_lower (path_suffix file_path) <> ".py" ->
      build_symbol_table file_path content = Returned None)
  /\ (forall e, ast_parse content file_path = Raised e ->
                build_symbol_table file_path content = Returned None)
  /\ (forall tree e,
         ast_parse content file_path = Returned tree ->
         walk_raises tree = Some e ->
         build_symbol_table file_path content = Returned None)
  /\ (forall tree,
         str_lower (path_suffix file_path) = ".py" ->
         ast_parse content file_path = Returned tree ->
         walk_raises tree = None ->
         build_symbol_table file_path content
         = Returned (Some (visit tree PythonSymbolExtractor_init).(symbol_table))).
Proof.
  split; [|split; [|split; [|split]]].
  - exists (table_of file_path content). apply build_symbol_table_returns.
  - intros Hext. unfold build_symbol_table.
    apply String.eqb_neq in Hext. now rewrite Hext.
  - intros e He. unfold build_symbol_table, parse_and_extract.
    destruct (negb (str_lower (path_suffix file_path) =? ".py"));
      [reflexivity|].
    rewrite He. simpl. now destruct e.
  - intros tree e Htree Hwalk. unfold build_symbol_table, parse_and_extract.
    destruct (negb (str_lower (path_suffix file_path) =? ".py"));
      [reflexivity|].
    rewrite Htree. simpl. rewrite Hwalk. now destruct e.
  - intros tree Hext Htree Hwalk.
    unfold build_symbol_table, parse_and_extract.
    apply String.eqb_eq in Hext. rewrite Hext, Htree. simpl.
    now rewrite Hwalk.
Qed.

(** The cases of C5, amended: a JavaScript path and an unterminated function
    header (texts of the module's tests), a tree too deep for the walk, a
    function definition. *)
Lemma build_symbol_table_none_or_table_witness :
  @build_symbol_table Samples.stdlib "test.js" "const x = 5;" = Returned None
  /\ @build_symbol_table Samples.stdlib "test.py" Samples.src_unterminated
     = Returned None
  /\ @build_symbol_table DeepSample.stdlib "deep.py" DeepSample.src_deep
     = Returned None
  /\ exists table,
       @build_symbol_table Samples.stdlib "test.py" Samples.src_f_int
       = Returned (Some table).
Proof.
  split; [|split; [|split]].
  - apply (build_symbol_table_none_or_table Samples.stdlib "test.js"
             "const x = 5;").
    vm_compute. discriminate.
  - apply (build_symbol_table_none_or_table Samples.stdlib "test.py"
             Samples.src_unterminated)
      with (e := SyntaxError "invalid syntax").
    reflexivity.
  - apply (build_symbol_table_none_or_table DeepSample.stdlib "deep.py"
             DeepSample.src_deep)
      with (tree := DeepSample.ast_deep)
           (e := OtherException "RecursionError"
                                "maximum recursion depth exceeded").
    + vm_compute. reflexivity.
    + vm_compute. reflexivity.
  - eexists.
    apply (build_symbol_table_none_or_table Samples.stdlib "test.py"
             Samples.src_f_int) with (tree := Samples.ast_f_int);
      reflexivity.
Defined.

(** C5 as the specification states it fails on a text that parses to a tree
    too deep for the walk: ['x' + '.a' * 600] in a [.py] file parses, the
    visitor raises [RecursionError] inside the [try] block, and the result is
    [None], not a table. *)
Lemma build_symbol_table_claim_counterexample :
  ~ @build_symbol_table_claim DeepSample.stdlib "deep.py" DeepSample.src_deep.
Proof.
  intros (_ & _ & _ & Hclaim).
  destruct (Hclaim eq_refl DeepSample.ast_deep) as [table Htable].
  - vm_compute. reflexivity.
  - vm_compute in Htable. discriminate Htable.
Qed.

(* ===================================================================== *)
(** ** Properties of the aggregator *)

Lemma to_region_reason_prefix (c : SemanticConflict) :
  prefix ("[Semantic: " ++ c.(conflict_type) ++ "] ") (to_region c).(reason)
  = true.
Proof.
  unfold to_region. cbn [reason].
  destruct (suggestion c) as [s|]; [|apply prefix_app].
  destruct (truthy (Some s)); [apply prefix_app_app | apply prefix_app].
Qed.

Lemma all_findings_kind (py : PythonStdlib) ta fc c :
  In c (rename_pass ta fc ++ removal_pass ta fc ++ []
        ++ type_change_pass ta fc)%list ->
  In c.(conflict_type) emitted_kinds.
Proof.
  unfold rename_pass, removal_pass, type_change_pass, emitted_kinds.
  destruct (analysed_file ta) as [fp|]; [|intros []].
  rewrite !in_app_iff. simpl.
  intros [H|[H|[[]|H]]].
  - apply rename_findings_kind in H. auto.
  - apply removal_findings_kind in H. auto.
  - apply type_change_findings_kind in H. auto.
Qed.

(** C6: for every input of [detect_semantic_conflicts], every region of the
    output has [can_auto_merge] false and the merge strategy
    [HUMAN_REQUIRED]; its reason starts with ["[Semantic: "] followed by the
    kind of the conflict, one of the kinds the passes emit, and ["] "]; and
    its change kinds are the kind [change_type_map] gives for that conflict
    kind, once per involved task. *)
Theorem aggregated_region_invariants
        (py : PythonStdlib) (task_analyses : TaskAnalyses)
        (file_contents : FileContents) :
  returns (detect_semantic_conflicts task_analyses file_contents)
    (fun regions =>
       forall region, In region regions ->
         region.(can_auto_merge) = false
         /\ region.(merge_strategy) = HUMAN_REQUIRED
         /\ length region.(change_types) = length region.(cr_tasks_involved)
         /\ exists kind,
              In kind emitted_kinds
              /\ prefix ("[Semantic: " ++ kind ++ "] ") region.(reason) = true
              /\ region.(change_types)
                 = repeat (get_default kind UNKNOWN change_type_map)
                          (length region.(cr_tasks_involved))).
Proof.
  eapply returns_intro; [apply detect_semantic_conflicts_eq|].
  intros region Hin. apply in_map_iff in Hin. destruct Hin as [c [<- Hc]].
  split; [reflexivity|]. split; [reflexivity|]. split.
  - simpl. apply repeat_length.
  - exists c.(conflict_type). split; [|split].
    + eapply all_findings_kind; eassumption.
    + apply to_region_reason_prefix.
    + reflexivity.
Qed.

(** C7: with no task analyses, [detect_semantic_conflicts] returns the empty
    list, whatever the file contents. *)
Theorem empty_analyses_no_conflicts
        (py : PythonStdlib) (file_contents : FileContents) :
  detect_semantic_conflicts [] file_contents = Returned [].
Proof. reflexivity. Qed.

(* ===================================================================== *)
(** ** The rename map *)

Lemma record_rename_In task_id renames change old_name new_name r :
  In (old_name, (new_name, r)) (record_rename task_id renames change) ->
  In (old_name, (new_name, r)) renames
  \/ (rename_with_snippets change = true
      /\ change.(target) = old_name /\ new_name = old_name /\ r = task_id).
Proof.
  unfold record_rename, rename_with_snippets.
  destruct (ChangeType_eqb (change_type change) RENAME_FUNCTION);
    [|now left].
  destruct (truthy (content_before change) && truthy (content_after change));
    [|now left].
  intros H. apply PyDictFacts.In_set in H.
  destruct H as [[-> [= -> ->]]|H]; [right | left]; auto.
Qed.

Lemma record_renames_In task_id changes :
  forall renames old_name new_name r,
    In (old_name, (new_name, r))
       (fold_left (record_rename task_id) changes renames) ->
    In (old_name, (new_name, r)) renames
    \/ (r = task_id /\ new_name = old_name
        /\ exists change, In change changes
                          /\ rename_with_snippets change = true
                          /\ change.(target) = old_name).
Proof.
  induction changes as [|change rest IH]; simpl; intros renames old new r H.
  - now left.
  - apply IH in H. destruct H as [H|(-> & -> & ch & Hin & Hs & Ht)].
    + apply record_rename_In in H.
      destruct H as [H|(Hs & Ht & -> & ->)]; [now left|].
      right. repeat split; auto. exists change. auto.
    + right. repeat split; auto. exists ch. auto.
Qed.

(** Every entry of the rename map comes from a rename with both snippets;
    its key and its new name are both the target of that change. *)
Lemma collect_renames_In task_analyses old_name new_name r :
  In (old_name, (new_name, r)) (collect_renames task_analyses) ->
  new_name = old_name
  /\ exists analysis change,
       In (r, analysis) task_analyses
       /\ In change analysis.(changes)
       /\ rename_with_snippets change = true
       /\ change.(target) = old_name.
Proof.
  unfold collect_renames.
  assert (G : forall l renames,
             In (old_name, (new_name, r))
                (fold_left
                   (fun renames '(task_id, analysis) =>
                      fold_left (record_rename task_id) analysis.(changes)
                                renames) l renames) ->
             In (old_name, (new_name, r)) renames
             \/ (new_name = old_name
                 /\ exists analysis change,
                      In (r, analysis) l
                      /\ In change analysis.(changes)
                      /\ rename_with_snippets change = true
                      /\ change.(target) = old_name)).
  { induction l as [|[task_id analysis] rest IH]; simpl; intros renames H.
    - now left.
    - apply IH in H. destruct H as [H|(-> & a & ch & Hin & Hch & Hs & Ht)].
      + apply record_renames_In in H.
        destruct H as [H|(-> & -> & ch & Hch & Hs & Ht)]; [now left|].
        right. split; [reflexivity|]. exists analysis, ch. auto.
      + right. split; [reflexivity|]. exists a, ch. auto. }
  intros H. apply G in H. destruct H as [[]|H]. exact H.
Qed.

Lemma fold_left_filter_skips (A S : Type) (f : S -> A -> S)
      (keep : A -> bool) :
  (forall s x, keep x = false -> f s x = s) ->
  forall l s, fold_left f (filter keep l) s = fold_left f l s.
Proof.
  intros Hskip. induction l as [|x rest IH]; intros s; simpl; [reflexivity|].
  destruct (keep x) eqn:E; simpl.
  - apply IH.
  - now rewrite (Hskip s x E).
Qed.

Lemma record_rename_skips task_id renames change :
  rename_without_snippet change = true ->
  record_rename task_id renames change = renames.
Proof.
  unfold rename_without_snippet, record_rename.
  destruct (ChangeType_eqb (change_type change) RENAME_FUNCTION);
    [|reflexivity].
  now destruct (truthy (content_before change)
                && truthy (content_after change)).
Qed.

Lemma collect_renames_drop task_analyses :
  collect_renames (drop_renames_without_snippet task_analyses)
  = collect_renames task_analyses.
Proof.
  unfold collect_renames, drop_renames_without_snippet.
  generalize (@PyDict.empty (string * string)).
  induction task_analyses as [|[task_id analysis] rest IH]; intros renames;
    simpl; [reflexivity|].
  rewrite fold_left_filter_skips.
  - apply IH.
  - intros s x Hx. apply record_rename_skips.
    now destruct (rename_without_snippet x).
Qed.

Lemma analysed_file_drop task_analyses :
  analysed_file (drop_renames_without_snippet task_analyses)
  = analysed_file task_analyses.
Proof. now destruct task_analyses as [|[task_id analysis] rest]. Qed.

(* ===================================================================== *)
(** ** Properties of the rename detector *)

(** C2: the rename detector never pairs a task with itself: every conflict it
    emits names two different tasks, the renaming task first; and when one
    task is the only one analysed and the only one with file contents, so
    that the renames and the call sites are its own, the detector emits
    nothing. *)
Theorem no_rename_conflict_within_a_task
        (py : PythonStdlib) (task_analyses : TaskAnalyses)
        (file_contents : FileContents) :
  returns (detect_function_rename_conflicts task_analyses file_contents)
    (fun conflicts =>
       (forall c, In c conflicts ->
                  exists rename_task_id task_id,
                    c.(tasks_involved) = [rename_task_id; task_id]
                    /\ rename_task_id <> task_id)
       /\ forall old_name task_id,
            ~ rename_reported conflicts old_name task_id task_id)
  /\ forall task_id analysis,
       (forall k, In k (PyDict.keys file_contents) -> k = task_id) ->
       detect_function_rename_conflicts [(task_id, analysis)] file_contents
       = Returned [].
Proof.
  assert (Hpair : forall c,
             In c (rename_pass task_analyses file_contents) ->
             exists rename_task_id task_id,
               c.(tasks_involved) = [rename_task_id; task_id]
               /\ rename_task_id <> task_id).
  { unfold rename_pass. intros c Hc.
    destruct (analysed_file task_analyses) as [fp|]; [|destruct Hc].
    apply rename_findings_In in Hc.
    destruct Hc as (t & _ & _ & _ & old & new & r & lines & _ & _ & _ & Hne
                    & _ & ->).
    exists r, t. auto. }
  split.
  - eapply returns_intro; [apply detect_function_rename_conflicts_eq|].
    split; [exact Hpair|].
    intros old t (c & Hc & _ & _ & Htasks & _).
    destruct (Hpair c Hc) as (r & t' & Htasks' & Hne).
    rewrite Htasks in Htasks'. injection Htasks' as <- <-. now apply Hne.
  - intros task_id analysis Hkeys.
    rewrite detect_function_rename_conflicts_eq. f_equal.
    unfold rename_pass. simpl.
    destruct (flat_map _ file_contents) as [|c rest] eqn:E; [reflexivity|].
    assert (Hc : In c (flat_map
                         (rename_findings (file_path analysis)
                            (collect_renames [(task_id, analysis)]))
                         file_contents)) by (rewrite E; now left).
    apply rename_findings_In in Hc.
    destruct Hc as (t & b & a & _ & old & new & r & _ & Hfc & _ & Hr & Hne
                    & _).
    apply collect_renames_In in Hr.
    destruct Hr as (_ & an & _ & [[= <- _]|[]] & _).
    exfalso. apply Hne. symmetry. apply Hkeys.
    change t with (fst (t, (b, a))). now apply in_map.
Qed.

(** C2 on [test_no_conflict_same_task]: task-a renames [foo] to [bar] and
    calls [bar] in its own after-text. *)
Lemma no_rename_conflict_within_a_task_witness :
  @detect_function_rename_conflicts Samples.stdlib Samples.same_task_analyses
    Samples.same_task_contents = Returned [].
Proof.
  apply (no_rename_conflict_within_a_task Samples.stdlib
           Samples.same_task_analyses Samples.same_task_contents).
  simpl. intros k [<-|[]]. reflexivity.
Defined.

(** C9: a rename change whose before or after snippet is absent or empty
    leaves the rename map as it is; the rename map, and so the output of the
    rename detector for any file contents, is the same with and without such
    changes; and when every rename change of the analyses lacks a snippet,
    the detector emits nothing. *)
Theorem rename_without_snippet_is_ignored
        (py : PythonStdlib) (task_analyses : TaskAnalyses)
        (file_contents : FileContents) :
  (forall task_id renames change,
      change.(change_type) = RENAME_FUNCTION ->
      truthy change.(content_before) = false
      \/ truthy change.(content_after) = false ->
      record_rename task_id renames change = renames)
  /\ collect_renames (drop_renames_without_snippet task_analyses)
     = collect_renames task_analyses
  /\ detect_function_rename_conflicts
       (drop_renames_without_snippet task_analyses) file_contents
     = detect_function_rename_conflicts task_analyses file_contents
  /\ ((forall task_id analysis change,
          In (task_id, analysis) task_analyses ->
          In change analysis.(changes) ->
          change.(change_type) = RENAME_FUNCTION ->
          truthy change.(content_before) = false
          \/ truthy change.(content_after) = false) ->
      collect_renames task_analyses = []
      /\ detect_function_rename_conflicts task_analyses file_contents
         = Returned []).
Proof.
  split; [|split; [|split]].
  - intros task_id renames change Hk Hs. apply record_rename_skips.
    unfold rename_without_snippet. rewrite Hk. simpl.
    destruct Hs as [-> | ->]; [reflexivity | now rewrite andb_false_r].
  - apply collect_renames_drop.
  - rewrite !detect_function_rename_conflicts_eq. unfold rename_pass.
    now rewrite analysed_file_drop, collect_renames_drop.
  - intros Hall.
    assert (Hnil : collect_renames task_analyses = []).
    { destruct (collect_renames task_analyses) as [|[old [new r]] rest] eqn:E;
        [reflexivity|].
      assert (Hin : In (old, (new, r)) (collect_renames task_analyses))
        by (rewrite E; now left).
      apply collect_renames_In in Hin.
      destruct Hin as (_ & an & ch & Han & Hch & Hs & _).
      unfold rename_with_snippets in Hs.
      apply andb_true_iff in Hs. destruct Hs as [Hk Hs].
      apply andb_true_iff in Hs. destruct Hs as [Hb Ha].
      assert (Hkind : change_type ch = RENAME_FUNCTION)
        by (destruct (change_type ch); try discriminate; reflexivity).
      destruct (Hall r an ch Han Hch Hkind); congruence. }
    split; [exact Hnil|].
    rewrite detect_function_rename_conflicts_eq. unfold rename_pass.
    rewrite Hnil. destruct (analysed_file task_analyses); [|reflexivity].
    f_equal. induction file_contents as [|[t [b a]] rest IH];
      [reflexivity|].
    simpl. rewrite IH. now destruct (table_of s a).
Qed.

(** C9 on a rename of [foo] recorded without snippets, while task-b's
    after-text calls [foo]. *)
Lemma rename_without_snippet_is_ignored_witness :
  @detect_function_rename_conflicts Samples.stdlib Samples.no_snippet_analyses
    Samples.cross_task_contents = Returned [].
Proof.
  apply (rename_without_snippet_is_ignored Samples.stdlib
           Samples.no_snippet_analyses Samples.cross_task_contents).
  intros task_id analysis change [[= <- <-]|[[= <- <-]|[]]] [<-|[]] Hk.
  - left. reflexivity.
  - discriminate Hk.
Defined.

(* ===================================================================== *)
(** ** The removal map *)

Lemma record_removal_wf task_id removals change :
  PyDict.wf removals -> PyDict.wf (record_removal task_id removals change).
Proof.
  unfold record_removal. intros Hwf.
  destruct (ChangeType_eqb (change_type change) REMOVE_IMPORT); [|exact Hwf].
  now apply PyDictFacts.wf_set.
Qed.

Lemma collect_removals_wf task_analyses :
  PyDict.wf (collect_removals task_analyses).
Proof.
  unfold collect_removals.
  apply PyDictFacts.wf_fold_left; [|apply PyDictFacts.wf_empty].
  intros d [task_id analysis] Hd.
  apply PyDictFacts.wf_fold_left; [|exact Hd].
  intros d' change. apply record_removal_wf.
Qed.

Lemma record_removals_get task_id symbol changes :
  forall removals,
    PyDict.get symbol (fold_left (record_removal task_id) changes removals)
    = if existsb (fun change =>
                    ChangeType_eqb change.(change_type) REMOVE_IMPORT
                    && (change.(target) =? symbol)) changes
      then Some task_id
      else PyDict.get symbol removals.
Proof.
  induction changes as [|change rest IH]; intros removals; simpl;
    [reflexivity|].
  rewrite IH.
  destruct (existsb _ rest); [now rewrite orb_true_r|].
  rewrite orb_false_r. unfold record_removal.
  destruct (ChangeType_eqb (change_type change) REMOVE_IMPORT); simpl;
    [|reflexivity].
  destruct (target change =? symbol) eqn:E.
  - apply String.eqb_eq in E. rewrite E. apply PyDictFacts.get_set_same.
  - apply String.eqb_neq in E. now apply PyDictFacts.get_set_other.
Qed.

(** The removal map sends a symbol to the last task that removes it. *)
Lemma collect_removals_get task_analyses symbol :
  PyDict.get symbol (collect_removals task_analyses)
  = last_remover task_analyses symbol.
Proof.
  unfold collect_removals, last_remover.
  change (@None string) with (PyDict.get symbol (@PyDict.empty string)).
  generalize (@PyDict.empty string).
  induction task_analyses as [|[task_id analysis] rest IH]; intros removals;
    simpl; [reflexivity|].
  rewrite IH. f_equal.
  rewrite record_removals_get. reflexivity.
Qed.

Lemma collect_removals_In task_analyses symbol task_id :
  In (symbol, task_id) (collect_removals task_analyses)
  <-> last_remover task_analyses symbol = Some task_id.
Proof.
  rewrite <- collect_removals_get. split.
  - apply PyDictFacts.In_get, collect_removals_wf.
  - apply PyDictFacts.get_In.
Qed.

(** An entry of a dict with distinct keys is the only one under its key. *)
Lemma wf_In_unique (V : Type) (d : dict V) (k : string) (v v' : V) :
  PyDict.wf d -> In (k, v) d -> In (k, v') d -> v = v'.
Proof.
  intros Hwf H H'.
  apply PyDictFacts.In_get in H; [|exact Hwf].
  apply PyDictFacts.In_get in H'; [|exact Hwf].
  congruence.
Qed.

(* ===================================================================== *)
(** ** Properties of the import removal detector *)

(** C3, amended: let [removing_task] be the last task, in the order of the
    analyses, that records the removal of the import of [symbol], and let
    [task_id] be another task, whose after-text parses.  The detector emits a
    CRITICAL conflict of kind "import_removal" for [symbol] naming exactly
    [removing_task] and [task_id] if and only if [symbol] is among the
    usages of [task_id]'s after-text and not among its imports; a conflict
    for [symbol] names no other removing task; and when no task other than
    [removing_task] uses [symbol], no conflict is emitted for it. *)
Theorem import_removal_conflict_iff
        (py : PythonStdlib) (task_analyses : TaskAnalyses)
        (file_contents : FileContents)
        (fp symbol removing_task task_id before_content after_content : string)
        (table : SymbolTable) :
  analysed_file task_analyses = Some fp ->
  PyDict.wf file_contents ->
  last_remover task_analyses symbol = Some removing_task ->
  task_id <> removing_task ->
  In (task_id, (before_content, after_content)) file_contents ->
  build_symbol_table fp after_content = Returned (Some table) ->
  returns (detect_import_removal_conflicts task_analyses file_contents)
    (fun conflicts =>
       (import_removal_reported conflicts symbol removing_task task_id
        <-> (PyDict.mem symbol table.(usages) = true
             /\ PyDict.mem symbol table.(imports) = false))
       /\ (forall other_task user,
              import_removal_reported conflicts symbol other_task user ->
              other_task = removing_task)
       /\ ((forall user before_content' after_content' table',
               user <> removing_task ->
               In (user, (before_content', after_content')) file_contents ->
               build_symbol_table fp after_content' = Returned (Some table') ->
               PyDict.mem symbol table'.(usages) = false) ->
           forall c, In c conflicts ->
                     c.(sc_location) <> "import:" ++ symbol)).
Proof.
  intros Hfp Hwf Hlast Hne Hfc Htable.
  eapply returns_intro; [apply detect_import_removal_conflicts_eq|].
  unfold removal_pass. rewrite Hfp.
  apply table_of_Some in Htable.
  split; [|split].
  - split.
    + intros (c & Hc & _ & _ & Htasks & Hloc).
      apply removal_findings_In in Hc.
      destruct Hc as (t & b & a & tbl & sym & r & lines & Hfc' & Ht & _ & _
                      & Himp & Huse & ->).
      simpl in Htasks, Hloc. injection Htasks as -> ->.
      injection Hloc as ->.
      assert (Heq : (b, a) = (before_content, after_content))
        by (eapply wf_In_unique; eassumption).
      injection Heq as -> ->.
      rewrite Htable in Ht. injection Ht as ->.
      split; [|exact Himp].
      apply PyDictFacts.mem_true. eauto.
    + intros [Huse Himp].
      apply PyDictFacts.mem_true in Huse. destruct Huse as [lines Huse].
      exists (removal_conflict fp task_id symbol removing_task lines).
      split; [|repeat split].
      apply removal_findings_In.
      exists task_id, before_content, after_content, table, symbol,
        removing_task, lines.
      repeat split; auto.
      now apply collect_removals_In.
  - intros other user (c & Hc & _ & _ & Htasks & Hloc).
    apply removal_findings_In in Hc.
    destruct Hc as (t & b & a & tbl & sym & r & lines & _ & _ & Hr & _ & _
                    & _ & ->).
    simpl in Htasks, Hloc. injection Htasks as -> ->.
    injection Hloc as ->.
    apply collect_removals_In in Hr. congruence.
  - intros Hunused c Hc Hloc.
    apply removal_findings_In in Hc.
    destruct Hc as (t & b & a & tbl & sym & r & lines & Hfc' & Ht & Hr & Hrt
                    & _ & Huse & ->).
    simpl in Hloc. injection Hloc as ->.
    apply collect_removals_In in Hr.
    assert (r = removing_task) by congruence. subst r.
    assert (Hmem : PyDict.mem symbol tbl.(usages) = false).
    { apply (Hunused t b a tbl); auto.
      rewrite build_symbol_table_returns. now rewrite Ht. }
    apply PyDictFacts.mem_false in Hmem. congruence.
Qed.

(** C3, amended, on two tasks that remove [import os] while task-b calls
    [os.getcwd] without importing [os]: the conflict names task-c, the last
    task that removes the import, and task-b. *)
Lemma import_removal_conflict_iff_witness :
  returns (@detect_import_removal_conflicts Samples.stdlib
             Samples.two_removers_analyses Samples.os_user_contents)
    (fun conflicts =>
       import_removal_reported conflicts "os" "task-c" "task-b").
Proof.
  destruct (@import_removal_conflict_iff Samples.stdlib
              Samples.two_removers_analyses Samples.os_user_contents
              "test.py" "os" "task-c" "task-b" Samples.src_empty
              Samples.src_use_os Samples.table_use_os)
    as (conflicts & Heq & Hiff & _).
  - reflexivity.
  - repeat constructor. simpl. tauto.
  - reflexivity.
  - discriminate.
  - now left.
  - reflexivity.
  - exists conflicts. split; [exact Heq|].
    apply Hiff. split; reflexivity.
Defined.

(** C3 as the specification states it fails on the same input: task-a
    records the removal of [import os], task-b uses [os] without importing
    it, and no conflict names task-a and task-b. *)
Lemma import_removal_claim_counterexample :
  ~ @import_removal_claim Samples.stdlib Samples.two_removers_analyses
      Samples.os_user_contents.
Proof.
  intros Hclaim.
  destruct (Hclaim "test.py" "task-a"
                   (Samples.analysis [Samples.remove_import "os"])
                   (Samples.remove_import "os") "task-b" Samples.src_empty
                   Samples.src_use_os Samples.table_use_os)
    as (conflicts & Heq & Hiff).
  - reflexivity.
  - now left.
  - now left.
  - reflexivity.
  - discriminate.
  - now left.
  - reflexivity.
  - vm_compute in Heq. injection Heq as <-.
    destruct Hiff as [_ Hback].
    destruct Hback as (c & Hc & _ & _ & Htasks & _).
    + split; reflexivity.
    + destruct Hc as [<-|[]]. discriminate Htasks.
Qed.

(* ===================================================================== *)
(** ** The map of type changes *)

Section TypeChanges.
Context {py : PythonStdlib}.

Lemma record_type_change_eq b a task_id type_changes func_name :
  record_type_change b a task_id type_changes func_name
  = match signature_transition b a func_name with
    | Some (old_type, new_type) =>
        PyDict.set func_name (old_type, new_type, task_id) type_changes
    | None => type_changes
    end.
Proof.
  unfold record_type_change, signature_transition.
  destruct (PyDict.get func_name (function_signatures b)) as [old|];
    [|reflexivity].
  destruct (PyDict.get func_name (function_signatures a)) as [new|];
    [|reflexivity].
  now destruct (opt_str_eqb old new).
Qed.

Lemma record_type_change_wf b a task_id type_changes func_name :
  PyDict.wf type_changes ->
  PyDict.wf (record_type_change b a task_id type_changes func_name).
Proof.
  rewrite record_type_change_eq. intros Hwf.
  destruct (signature_transition b a func_name) as [[old new]|]; [|exact Hwf].
  now apply PyDictFacts.wf_set.
Qed.

Lemma record_type_change_fold_get b a task_id func_name names :
  forall type_changes,
    PyDict.get func_name
      (fold_left (record_type_change b a task_id) names type_changes)
    = match signature_transition b a func_name with
      | Some (old_type, new_type) =>
          if existsb (String.eqb func_name) names
          then Some (old_type, new_type, task_id)
          else PyDict.get func_name type_changes
      | None => PyDict.get func_name type_changes
      end.
Proof.
  induction names as [|name rest IH]; intros type_changes; simpl.
  - now destruct (signature_transition b a func_name) as [[? ?]|].
  - rewrite IH, record_type_change_eq.
    destruct (func_name =? name) eqn:E.
    + apply String.eqb_eq in E. subst name.
      destruct (signature_transition b a func_name) as [[old new]|]; [|reflexivity].
      simpl. rewrite PyDictFacts.get_set_same.
      now destruct (existsb (String.eqb func_name) rest).
    + apply String.eqb_neq in E. simpl.
      destruct (signature_transition b a name) as [[o n]|];
        [rewrite PyDictFacts.get_set_other by congruence|]; reflexivity.
Qed.

Lemma existsb_eqb_keys (V : Type) (d : dict V) (k : string) (v : V) :
  PyDict.get k d = Some v -> existsb (String.eqb k) (PyDict.keys d) = true.
Proof.
  intros Hget. apply existsb_exists. exists k. split.
  - apply PyDictFacts.get_In in Hget.
    change k with (fst (k, v)). now apply in_map.
  - apply String.eqb_refl.
Qed.

Lemma record_type_changes_get fp type_changes task_id contents func_name :
  PyDict.get func_name
    (record_type_changes fp type_changes (task_id, contents))
  = match type_transition fp func_name contents with
    | Some (old_type, new_type) => Some (old_type, new_type, task_id)
    | None => PyDict.get func_name type_changes
    end.
Proof.
  destruct contents as [before_content after_content].
  unfold record_type_changes, type_transition.
  destruct (table_of fp before_content) as [b|]; [|reflexivity].
  destruct (table_of fp after_content) as [a|]; [|reflexivity].
  rewrite record_type_change_fold_get. unfold signature_transition.
  destruct (PyDict.get func_name (function_signatures b)) as [old|];
    [|reflexivity].
  destruct (PyDict.get func_name (function_signatures a)) as [new|] eqn:Ea;
    [|reflexivity].
  destruct (opt_str_eqb old new); [reflexivity|].
  now rewrite (existsb_eqb_keys _ _ Ea).
Qed.

Lemma record_type_changes_wf fp type_changes entry :
  PyDict.wf type_changes ->
  PyDict.wf (record_type_changes fp type_changes entry).
Proof.
  destruct entry as [task_id [before_content after_content]].
  unfold record_type_changes. intros Hwf.
  destruct (table_of fp before_content) as [b|]; [|exact Hwf].
  destruct (table_of fp after_content) as [a|]; [|exact Hwf].
  apply PyDictFacts.wf_fold_left; [|exact Hwf].
  intros d name. apply record_type_change_wf.
Qed.

(** The map of type changes sends a function to the transition of the
    last task that has one. *)
Lemma type_changes_get fp fc func_name :
  PyDict.get func_name (fold_left (record_type_changes fp) fc PyDict.empty)
  = last_type_change fp fc func_name.
Proof.
  unfold last_type_change.
  assert (G : forall l type_changes,
             PyDict.get func_name
               (fold_left (record_type_changes fp) l type_changes)
             = fold_left
                 (fun found '(task_id, contents) =>
                    match type_transition fp func_name contents with
                    | Some (old_type, new_type) =>
                        Some (old_type, new_type, task_id)
                    | None => found
                    end) l (PyDict.get func_name type_changes)).
  { induction l as [|[task_id contents] rest IH]; intros type_changes;
      cbn [fold_left]; [reflexivity|].
    rewrite IH, record_type_changes_get.
    now destruct (type_transition fp func_name contents) as [[old new]|]. }
  apply G.
Qed.

Lemma type_changes_wf fp fc :
  PyDict.wf (fold_left (record_type_changes fp) fc PyDict.empty).
Proof.
  apply PyDictFacts.wf_fold_left; [|apply PyDictFacts.wf_empty].
  intros d entry. apply record_type_changes_wf.
Qed.

Lemma type_changes_In fp fc func_name change :
  In (func_name, change) (fold_left (record_type_changes fp) fc PyDict.empty)
  <-> last_type_change fp fc func_name = Some change.
Proof.
  rewrite <- type_changes_get. split.
  - apply PyDictFacts.In_get, type_changes_wf.
  - apply PyDictFacts.get_In.
Qed.

(** The last transition of a function is the transition of some task. *)
Lemma last_type_change_In fp fc func_name old_type new_type task_id :
  last_type_change fp fc func_name = Some (old_type, new_type, task_id) ->
  exists contents,
    In (task_id, contents) fc
    /\ type_transition fp func_name contents = Some (old_type, new_type).
Proof.
  unfold last_type_change.
  assert (G : forall l found,
             fold_left
               (fun found '(task_id, contents) =>
                  match type_transition fp func_name contents with
                  | Some (old_type, new_type) =>
                      Some (old_type, new_type, task_id)
                  | None => found
                  end) l found
             = Some (old_type, new_type, task_id) ->
             found = Some (old_type, new_type, task_id)
             \/ exists contents,
                  In (task_id, contents) l
                  /\ type_transition fp func_name contents
                     = Some (old_type, new_type)).
  { induction l as [|[t contents] rest IH]; simpl; intros found H.
    - now left.
    - apply IH in H. destruct H as [H|(c & Hin & Hc)].
      + destruct (type_transition fp func_name contents) as [[o n]|] eqn:E.
        * injection H as -> -> ->. right. exists contents. auto.
        * now left.
      + right. exists c. auto. }
  intros H. apply G in H. destruct H as [H|H]; [discriminate | exact H].
Qed.

(** What the type pass reports for a function, from the last transition. *)
Lemma type_change_pass_In fp fc c :
  In c (flat_map (type_change_check fp [])
                 (fold_left (record_type_changes fp) fc PyDict.empty))
  <-> exists func_name old new task_id,
        last_type_change fp fc func_name = Some (Some old, Some new, task_id)
        /\ old <> "" /\ new <> ""
        /\ none_added old new = true
        /\ c = type_change_conflict fp func_name old new task_id.
Proof.
  rewrite in_flat_map. split.
  - intros [[func_name [[old_type new_type] task_id]] [Hin Hc]].
    apply type_change_check_In in Hc.
    destruct Hc as (old & new & -> & -> & Ho & Hn & Hadd & ->).
    apply type_changes_In in Hin.
    exists func_name, old, new, task_id. auto.
  - intros (func_name & old & new & task_id & Hlast & Ho & Hn & Hadd & ->).
    exists (func_name, (Some old, Some new, task_id)). split.
    + now apply type_changes_In.
    + apply type_change_check_In. exists old, new. auto 10.
Qed.
End TypeChanges.

(* ===================================================================== *)
(** ** Properties of the type change detector *)

Lemma none_added_nonempty (old_type new_type : string) :
  none_added old_type new_type = true -> new_type <> "".
Proof. intros H ->. unfold none_added in H. simpl in H. discriminate. Qed.

(** The type change detector as it behaves, one entry for each function:
    let [task_id] be the last task, in the order of the file
    contents, whose before and after versions both parse, both record
    [func_name] and record different return types for it, and let both
    recorded types be annotations, [old_type] (not empty) and [new_type].
    The detector emits a MEDIUM conflict of kind "type_change" for
    [func_name] naming [task_id] if and only if [new_type] contains the text
    "None" and [old_type] does not; and no conflict for [func_name] names
    another task. *)
Theorem type_change_conflict_iff
        (py : PythonStdlib) (task_analyses : TaskAnalyses)
        (file_contents : FileContents)
        (fp func_name old_type new_type task_id : string) :
  analysed_file task_analyses = Some fp ->
  last_type_change fp file_contents func_name
  = Some (Some old_type, Some new_type, task_id) ->
  old_type <> "" ->
  returns (detect_type_change_conflicts task_analyses file_contents)
    (fun conflicts =>
       (type_change_reported conflicts func_name task_id
        <-> none_added old_type new_type = true)
       /\ forall other_task,
            type_change_reported conflicts func_name other_task ->
            other_task = task_id).
Proof.
  intros Hfp Hlast Hold.
  eapply returns_intro; [apply detect_type_change_conflicts_eq|].
  unfold type_change_pass. rewrite Hfp.
  assert (Hinv : forall other_task,
             type_change_reported
               (flat_map (type_change_check fp [])
                  (fold_left (record_type_changes fp) file_contents
                             PyDict.empty))
               func_name other_task ->
             other_task = task_id /\ none_added old_type new_type = true).
  { intros other (c & Hc & _ & _ & Htasks & Hloc).
    apply type_change_pass_In in Hc.
    destruct Hc as (f & o & n & t & Hlast' & _ & _ & Hadd & ->).
    simpl in Htasks, Hloc. injection Htasks as ->. injection Hloc as ->.
    rewrite Hlast in Hlast'. injection Hlast' as <- <- <-. auto. }
  split; [split|].
  - intros H. now apply Hinv in H.
  - intros Hadd.
    exists (type_change_conflict fp func_name old_type new_type task_id).
    split; [|repeat split].
    apply type_change_pass_In.
    exists func_name, old_type, new_type, task_id.
    repeat split; auto. now apply none_added_nonempty in Hadd.
  - intros other H. now apply Hinv in H.
Qed.

(** On [test_adding_none_to_return_type]: the return type of [f] changes
    from [int] to [int | None]. *)
Lemma type_change_conflict_iff_witness :
  returns (@detect_type_change_conflicts Samples.stdlib
             Samples.broaden_analyses Samples.broaden_contents)
    (fun conflicts => type_change_reported conflicts "f" "task-a").
Proof.
  destruct (@type_change_conflict_iff Samples.stdlib Samples.broaden_analyses
              Samples.broaden_contents "test.py" "f" "int" "int | None"
              "task-a")
    as (conflicts & Heq & Hiff & _).
  - reflexivity.
  - reflexivity.
  - discriminate.
  - exists conflicts. split; [exact Heq|]. apply Hiff. reflexivity.
Defined.

(** The specification's sentence on return types fails when a later task
    changes the same function: task-a changes the return type of [f] from
    [int] to [int | None], task-b from [int] to [str], and no conflict names
    task-a. *)
Lemma type_change_claim_counterexample :
  ~ @type_change_claim Samples.stdlib Samples.two_changers_analyses
      Samples.two_changers_contents.
Proof.
  intros Hclaim.
  destruct (Hclaim "test.py" "task-a" Samples.src_f_int
                   Samples.src_f_int_or_none Samples.table_f_int
                   Samples.table_f_int_or_none "f" "int" "int | None")
    as (conflicts & Heq & Hiff).
  - reflexivity.
  - now left.
  - reflexivity.
  - reflexivity.
  - reflexivity.
  - reflexivity.
  - vm_compute in Heq. injection Heq as <-.
    destruct Hiff as [_ Hback].
    destruct Hback as (c & [] & _).
    reflexivity.
Qed.

(** C4 on two tasks that change the return type of [f], task-a from [int]
    to [int | None] and task-b from [int] to [str]: with task-a first in the
    file contents, the entry of task-b replaces the entry of task-a in the
    map of type changes and the detector reports nothing, although task-a
    added [None]; with task-b first, the conflict that names task-a is
    reported. *)
Theorem type_change_lost_to_a_later_task :
  @detect_type_change_conflicts Samples.stdlib Samples.two_changers_analyses
    Samples.two_changers_contents
  = Returned []
  /\ @detect_type_change_conflicts Samples.stdlib
       Samples.two_changers_analyses Samples.two_changers_contents_swapped
     = Returned [type_change_conflict "test.py" "f" "int" "int | None"
                                      "task-a"].
Proof. split; reflexivity. Qed.

(** C10: when the return type recorded for [func_name] is absent in the
    before version or in the after version of a task's file, the detector
    emits no conflict for [func_name] naming that task; and when that task
    is the only one with file contents, it emits no conflict for
    [func_name] at all. *)
Theorem absent_annotation_not_flagged
        (py : PythonStdlib) (task_analyses : TaskAnalyses)
        (file_contents : FileContents)
        (fp task_id before_content after_content func_name : string)
        (before_symbols after_symbols : SymbolTable) :
  analysed_file task_analyses = Some fp ->
  PyDict.wf file_contents ->
  In (task_id, (before_content, after_content)) file_contents ->
  build_symbol_table fp before_content = Returned (Some before_symbols) ->
  build_symbol_table fp after_content = Returned (Some after_symbols) ->
  PyDict.get func_name before_symbols.(function_signatures) = Some None
  \/ PyDict.get func_name after_symbols.(function_signatures) = Some None ->
  returns (detect_type_change_conflicts task_analyses file_contents)
    (fun conflicts =>
       ~ type_change_reported conflicts func_name task_id
       /\ ((forall other, In other (PyDict.keys file_contents) ->
                          other = task_id) ->
           forall c, In c conflicts ->
                     c.(sc_location) <> "function:" ++ func_name)).
Proof.
  intros Hfp Hwf Hfc Hb Ha Habsent.
  eapply returns_intro; [apply detect_type_change_conflicts_eq|].
  unfold type_change_pass. rewrite Hfp.
  apply table_of_Some in Hb, Ha.
  assert (Hnot : forall old new,
             last_type_change fp file_contents func_name
             <> Some (Some old, Some new, task_id)).
  { intros old new Hlast. apply last_type_change_In in Hlast.
    destruct Hlast as ([b a] & Hin & Htr).
    assert (Heq : (b, a) = (before_content, after_content))
      by (eapply wf_In_unique; eassumption).
    injection Heq as -> ->.
    unfold type_transition in Htr. rewrite Hb, Ha in Htr.
    unfold signature_transition in Htr.
    destruct Habsent as [H|H]; rewrite H in Htr.
    - destruct (PyDict.get func_name (function_signatures after_symbols))
        as [[n|]|]; simpl in Htr; discriminate.
    - destruct (PyDict.get func_name (function_signatures before_symbols))
        as [[o|]|]; simpl in Htr; discriminate. }
  split.
  - intros (c & Hc & _ & _ & Htasks & Hloc).
    apply type_change_pass_In in Hc.
    destruct Hc as (f & o & n & t & Hlast & _ & _ & _ & ->).
    simpl in Htasks, Hloc. injection Htasks as ->. injection Hloc as ->.
    exact (Hnot o n Hlast).
  - intros Honly c Hc Hloc.
    apply type_change_pass_In in Hc.
    destruct Hc as (f & o & n & t & Hlast & _ & _ & _ & ->).
    simpl in Hloc. injection Hloc as ->.
    assert (t = task_id).
    { apply last_type_change_In in Hlast.
      destruct Hlast as (contents & Hin & _).
      apply Honly. change t with (fst (t, contents)). now apply in_map. }
    subst t. exact (Hnot o n Hlast).
Qed.

(** C10 on a function that gains the annotation [int | None]: nothing is
    reported. *)
Lemma absent_annotation_not_flagged_witness :
  returns (@detect_type_change_conflicts Samples.stdlib Samples.gain_analyses
             Samples.gain_contents)
    (fun conflicts => ~ type_change_reported conflicts "f" "task-a").
Proof.
  destruct (@absent_annotation_not_flagged Samples.stdlib
              Samples.gain_analyses Samples.gain_contents "test.py" "task-a"
              Samples.src_f_plain Samples.src_f_int_or_none "f"
              Samples.table_f_plain Samples.table_f_int_or_none)
    as (conflicts & Heq & Hnot & _).
  - reflexivity.
  - repeat constructor. simpl. tauto.
  - now left.
  - reflexivity.
  - reflexivity.
  - left. reflexivity.
  - exists conflicts. split; [exact Heq | exact Hnot].
Defined.

(* ===================================================================== *)
(** ** The rename detector and the old name *)

(** Every conflict of the rename detector is about the target of a rename
    change: the task named second calls that target. *)
Lemma rename_conflicts_follow_target
      (py : PythonStdlib) (task_analyses : TaskAnalyses)
      (file_contents : FileContents) (c : SemanticConflict) :
  In c (rename_pass task_analyses file_contents) ->
  exists fp rename_task_id task_id analysis change before_content
         after_content table,
    analysed_file task_analyses = Some fp
    /\ In (rename_task_id, analysis) task_analyses
    /\ In change analysis.(changes)
    /\ change.(change_type) = RENAME_FUNCTION
    /\ In (task_id, (before_content, after_content)) file_contents
    /\ build_symbol_table fp after_content = Returned (Some table)
    /\ PyDict.mem change.(target) table.(function_calls) = true
    /\ c.(tasks_involved) = [rename_task_id; task_id]
    /\ c.(sc_location) = "function:" ++ change.(target).
Proof.
  unfold rename_pass.
  destruct (analysed_file task_analyses) as [fp|] eqn:Hfp; [|intros []].
  intros Hc. apply rename_findings_In in Hc.
  destruct Hc as (t & b & a & table & old & new & r & lines & Hfc & Ht & Hr
                  & _ & Hcalls & ->).
  apply collect_renames_In in Hr.
  destruct Hr as (_ & an & ch & Han & Hch & Hs & <-).
  exists fp, r, t, an, ch, b, a, table.
  repeat split; auto.
  - unfold rename_with_snippets in Hs. apply andb_true_iff in Hs.
    destruct Hs as [Hk _].
    destruct (change_type ch); try discriminate; reflexivity.
  - rewrite build_symbol_table_returns. now rewrite Ht.
  - apply PyDictFacts.mem_true. eauto.
Qed.

(** C1 on [test_conflict_rename_and_call_old_name]: task-a renames [foo] to
    [bar], recorded with target [bar] (the new name) and both snippets;
    task-b's after-text parses and calls the old name [foo].  The rename map
    is keyed by the target [bar], and the detector returns no conflict. *)
Theorem rename_conflict_missed_for_old_name :
  collect_renames Samples.cross_task_analyses = [("bar", ("bar", "task-a"))]
  /\ (exists table,
         @build_symbol_table Samples.stdlib "test.py"
           Samples.src_caller_calls_foo = Returned (Some table)
         /\ PyDict.get "foo" table.(function_calls) = Some [6%Z]
         /\ PyDict.mem "bar" table.(function_calls) = false)
  /\ @detect_function_rename_conflicts Samples.stdlib
       Samples.cross_task_analyses Samples.cross_task_contents
     = Returned [].
Proof.
  split; [reflexivity|]. split; [|reflexivity].
  eexists. split; [reflexivity|]. split; reflexivity.
Qed.

(* ===================================================================== *)
(** ** The traversal is a pre-order walk *)

Section TraversalFacts.
Context {py : PythonStdlib}.

Lemma visit_nodes_app (l1 l2 : list node) (self : PythonSymbolExtractor) :
  visit_nodes (l1 ++ l2) self = visit_nodes l2 (visit_nodes l1 self).
Proof. apply fold_left_app. Qed.

Lemma visit_nodes_cons (child : node) (l : list node)
      (self : PythonSymbolExtractor) :
  visit_nodes (child :: l) self = visit_nodes l (visit child self).
Proof. reflexivity. Qed.

Lemma visit_nodes_opt (o : option node) (self : PythonSymbolExtractor) :
  visit_nodes (opt_nodes o) self
  = match o with
    | Some child => visit child self
    | None => self
    end.
Proof. now destruct o. Qed.

(** [visit] enters the node, visits its children in field order and
    leaves. *)
Lemma visit_eq (n : node) (self : PythonSymbolExtractor) :
  visit n self = leave n self (visit_nodes (children n) (enter n self)).
Proof.
  destruct n as [| | | | | | | | lineno func args keywords | |];
    cbn [children leave enter];
    rewrite ?visit_nodes_cons, ?visit_nodes_app, ?visit_nodes_opt;
    reflexivity.
Qed.
End TraversalFacts.

Section NodeInduction.
Variable P : node -> Prop.
Hypothesis step : forall n, Forall P (children n) -> P n.

(** Induction on a node from its children. *)
Fixpoint node_children_ind (n : node) : P n :=
  let all :=
    fix all (l : list node) : Forall P l :=
      match l with
      | [] => Forall_nil P
      | child :: rest => Forall_cons child (node_children_ind child) (all rest)
      end in
  let opt := fun o : option node =>
    match o return Forall P (opt_nodes o) with
    | Some child => Forall_cons child (node_children_ind child) (Forall_nil P)
    | None => Forall_nil P
    end in
  let app := fun l1 l2 (H1 : Forall P l1) (H2 : Forall P l2) =>
    proj2 (Forall_app P l1 l2) (conj H1 H2) in
  step n
    match n return Forall P (children n) with
    | Import _ _ => Forall_nil P
    | ImportFrom _ _ _ => Forall_nil P
    | FunctionDef _ _ args body decorator_list returns_ type_params
    | AsyncFunctionDef _ _ args body decorator_list returns_ type_params =>
        Forall_cons args (node_children_ind args)
          (app _ _ (all body)
             (app _ _ (all decorator_list)
                (app _ _ (opt returns_) (all type_params))))
    | ClassDef _ _ bases keywords body decorator_list type_params =>
        app _ _ (all bases)
          (app _ _ (all keywords)
             (app _ _ (all body)
                (app _ _ (all decorator_list) (all type_params))))
    | Assign _ targets value =>
        app _ _ (all targets)
          (Forall_cons value (node_children_ind value) (Forall_nil P))
    | AnnAssign _ target annotation value =>
        Forall_cons target (node_children_ind target)
          (Forall_cons annotation (node_children_ind annotation) (opt value))
    | Name _ _ _ => Forall_nil P
    | Call _ func args keywords =>
        Forall_cons func (node_children_ind func)
          (app _ _ (all args) (all keywords))
    | Attribute _ value _ _ =>
        Forall_cons value (node_children_ind value) (Forall_nil P)
    | OtherNode children => all children
    end.
End NodeInduction.

(* ===================================================================== *)
(** ** The scope and the updates of a visit *)

Section VisitFacts.
Context {py : PythonStdlib}.

Lemma import_alias_scope lineno names :
  forall self,
    current_scope (fold_left (import_alias lineno) names self)
    = current_scope self.
Proof.
  induction names as [|a rest IH]; intros self; simpl; [reflexivity|].
  now rewrite IH.
Qed.

Lemma import_from_alias_scope lineno module names :
  forall self,
    current_scope (fold_left (import_from_alias lineno module) names self)
    = current_scope self.
Proof.
  induction names as [|a rest IH]; intros self; simpl; [reflexivity|].
  now rewrite IH.
Qed.

Lemma define_target_scope lineno self target :
  current_scope (define_target lineno self target) = current_scope self.
Proof. now destruct target. Qed.

Lemma define_targets_scope lineno targets :
  forall self,
    current_scope (fold_left (define_target lineno) targets self)
    = current_scope self.
Proof.
  induction targets as [|target rest IH]; intros self; simpl; [reflexivity|].
  now rewrite IH, define_target_scope.
Qed.

Lemma visit_nodes_scope (l : list node) :
  Forall (fun child => forall self,
              current_scope (visit child self) = current_scope self) l ->
  forall self, current_scope (visit_nodes l self) = current_scope self.
Proof.
  induction 1 as [|child rest Hchild _ IH]; intros self; [reflexivity|].
  rewrite visit_nodes_cons, IH. apply Hchild.
Qed.

(** Visiting a node leaves the current scope as it was. *)
Lemma visit_scope (n : node) :
  forall self, current_scope (visit n self) = current_scope self.
Proof.
  induction n as [n IH] using node_children_ind. intros self.
  rewrite visit_eq.
  destruct n as [lineno names|lineno module names| | | |lineno targets value
                 |lineno target annotation value|lineno id ctx
                 |lineno func args keywords| |];
    cbn [leave]; try reflexivity;
    rewrite (visit_nodes_scope IH); cbn [enter].
  - apply import_alias_scope.
  - apply import_from_alias_scope.
  - apply define_targets_scope.
  - apply define_target_scope.
  - now destruct ctx.
  - now destruct func.
  - reflexivity.
  - reflexivity.
Qed.

Lemma trace_trans tree t1 t2 t3 :
  trace tree t1 t2 -> trace tree t2 t3 -> trace tree t1 t3.
Proof.
  intros H12 H23. induction H23 as [|m t t' _ IH Hm Hstep]; [exact H12|].
  eapply trace_step; eauto.
Qed.

Lemma trace_below child n t t' :
  In child (children n) -> trace child t t' -> trace n t t'.
Proof.
  intros Hin H. induction H as [|m t1 t2 _ IH Hm Hstep]; [constructor|].
  eapply trace_step; [exact IH | | exact Hstep].
  eapply occurs_below; eassumption.
Qed.

Lemma trace_one tree m t t' :
  occurs_in m tree -> table_step m t t' -> trace tree t t'.
Proof. intros Hm Hstep. eapply trace_step; [constructor | eassumption..]. Qed.

Lemma import_alias_trace tree lineno all_names :
  occurs_in (Import lineno all_names) tree ->
  forall names self,
    incl names all_names ->
    trace tree (symbol_table self)
          (symbol_table (fold_left (import_alias lineno) names self)).
Proof.
  intros Hm. induction names as [|a rest IH]; intros self Hincl; simpl;
    [constructor|].
  eapply trace_trans; [|apply IH; intros x Hx; apply Hincl; now right].
  eapply trace_one; [exact Hm|].
  unfold import_alias. cbn [on_table symbol_table current_scope].
  apply step_import. exists a. split; [apply Hincl; now left | auto].
Qed.

Lemma import_from_alias_trace tree lineno module all_names :
  occurs_in (ImportFrom lineno module all_names) tree ->
  forall names self,
    incl names all_names ->
    trace tree (symbol_table self)
          (symbol_table
             (fold_left (import_from_alias lineno (module_or_empty module))
                        names self)).
Proof.
  intros Hm. induction names as [|a rest IH]; intros self Hincl; simpl;
    [constructor|].
  eapply trace_trans; [|apply IH; intros x Hx; apply Hincl; now right].
  eapply trace_one; [exact Hm|].
  unfold import_from_alias. cbn [on_table symbol_table current_scope].
  apply step_import. exists a. split; [apply Hincl; now left | auto].
Qed.

Lemma define_targets_trace tree lineno all_targets value :
  occurs_in (Assign lineno all_targets value) tree ->
  forall targets self,
    incl targets all_targets ->
    trace tree (symbol_table self)
          (symbol_table (fold_left (define_target lineno) targets self)).
Proof.
  intros Hm. induction targets as [|target rest IH]; intros self Hincl; simpl;
    [constructor|].
  eapply trace_trans; [|apply IH; intros x Hx; apply Hincl; now right].
  destruct target; try constructor.
  eapply trace_one; [exact Hm|].
  cbn [define_target on_table symbol_table].
  apply step_definition. simpl. eexists _, _. apply Hincl. now left.
Qed.

(** Entering a node updates the table by steps of that node. *)
Lemma enter_trace tree m self :
  occurs_in m tree ->
  trace tree (symbol_table self) (symbol_table (enter m self)).
Proof.
  intros Hm.
  destruct m as [lineno names|lineno module names
                 |lineno name args body decos returns_ tps
                 |lineno name args body decos returns_ tps
                 |lineno name bases kws body decos tps
                 |lineno targets value
                 |lineno target annotation value|lineno id ctx
                 |lineno func args keywords| |]; cbn [enter].
  - apply (import_alias_trace Hm). apply incl_refl.
  - apply (import_from_alias_trace Hm). apply incl_refl.
  - eapply trace_one; [exact Hm|].
    cbn [set_scope on_table symbol_table current_scope].
    apply step_function. split; reflexivity.
  - eapply trace_one; [exact Hm|].
    cbn [set_scope on_table symbol_table current_scope].
    apply step_function. split; reflexivity.
  - eapply trace_one; [exact Hm|].
    cbn [set_scope on_table symbol_table current_scope].
    apply step_definition. reflexivity.
  - apply (define_targets_trace Hm). apply incl_refl.
  - destruct target; try constructor.
    eapply trace_one; [exact Hm|].
    cbn [define_target on_table symbol_table].
    apply step_definition. reflexivity.
  - destruct ctx; try constructor.
    eapply trace_one; [exact Hm|]. apply step_usage. split; reflexivity.
  - destruct func; try constructor.
    + eapply trace_one; [exact Hm|]. apply step_call. split; reflexivity.
    + eapply trace_one; [exact Hm|]. apply step_call. split; reflexivity.
  - constructor.
  - constructor.
Qed.

Lemma leave_table n before self :
  symbol_table (leave n before self) = symbol_table self.
Proof. now destruct n. Qed.

Lemma visit_nodes_trace n (l : list node) :
  Forall (fun child => forall self,
              trace child (symbol_table self)
                    (symbol_table (visit child self))) l ->
  incl l (children n) ->
  forall self,
    trace n (symbol_table self) (symbol_table (visit_nodes l self)).
Proof.
  induction 1 as [|child rest Hchild _ IH]; intros Hincl self;
    [constructor|].
  rewrite visit_nodes_cons.
  eapply trace_trans.
  - eapply trace_below; [apply Hincl; now left | apply Hchild].
  - apply IH. intros x Hx. apply Hincl. now right.
Qed.

(** The table after a visit comes from the table before it by updates made
    on entering the nodes of the visited tree. *)
Lemma visit_trace (n : node) :
  forall self, trace n (symbol_table self) (symbol_table (visit n self)).
Proof.
  induction n as [n IH] using node_children_ind. intros self.
  rewrite visit_eq, leave_table.
  eapply trace_trans; [apply enter_trace; constructor|].
  apply visit_nodes_trace; [exact IH | apply incl_refl].
Qed.

(** A property of tables that every update keeps holds after a visit, and
    after visiting a sequence of nodes. *)
Lemma trace_keeps (Q : SymbolTable -> Prop) :
  (forall m t t', table_step m t t' -> Q t -> Q t') ->
  forall tree t t', trace tree t t' -> Q t -> Q t'.
Proof.
  intros Hstep tree t t' H HQ. induction H as [|m t1 t2 _ IH _ Hs]; eauto.
Qed.

Lemma visit_nodes_keeps (Q : SymbolTable -> Prop) :
  (forall m t t', table_step m t t' -> Q t -> Q t') ->
  forall l self, Q (symbol_table self) ->
                 Q (symbol_table (visit_nodes l self)).
Proof.
  intros Hstep. induction l as [|child rest IH]; intros self HQ; [exact HQ|].
  rewrite visit_nodes_cons. apply IH.
  eapply trace_keeps; [exact Hstep | apply visit_trace | exact HQ].
Qed.

(** What entering a node of the tree establishes, and every update keeps,
    holds after the visit of the tree. *)
Lemma occurs_establishes (Q : SymbolTable -> Prop) (m : node) :
  (forall n t t', table_step n t t' -> Q t -> Q t') ->
  (forall self, Q (symbol_table (enter m self))) ->
  forall tree, occurs_in m tree ->
               forall self, Q (symbol_table (visit tree self)).
Proof.
  intros Hstep Henter tree Hocc.
  induction Hocc as [n|m child n Hin _ IH]; intros self;
    rewrite visit_eq, leave_table.
  - apply visit_nodes_keeps; [exact Hstep | apply Henter].
  - apply in_split in Hin. destruct Hin as (l1 & l2 & ->).
    rewrite visit_nodes_app, visit_nodes_cons.
    apply visit_nodes_keeps; [exact Hstep | apply IH; assumption].
Qed.
End VisitFacts.

(* ===================================================================== *)
(** ** Lists of lines *)

Section LineFacts.

Lemma append_line_same name line d :
  PyDict.get name (append_line name line d)
  = Some (match PyDict.get name d with
          | Some lines => lines ++ [line]
          | None => [line]
          end)%list.
Proof.
  unfold append_line, PyDict.mem.
  destruct (PyDict.get name d) as [lines|] eqn:E.
  - rewrite E. apply PyDictFacts.get_set_same.
  - rewrite PyDictFacts.get_set_same. apply PyDictFacts.get_set_same.
Qed.

Lemma append_line_other name line d k :
  name <> k -> PyDict.get k (append_line name line d) = PyDict.get k d.
Proof.
  intros Hne. unfold append_line, PyDict.mem.
  destruct (PyDict.get name d) as [lines|] eqn:E.
  - rewrite E. now apply PyDictFacts.get_set_other.
  - rewrite PyDictFacts.get_set_same.
    rewrite !PyDictFacts.get_set_other by assumption. reflexivity.
Qed.

Lemma recorded_append_line name line d k l :
  recorded k l (append_line name line d)
  <-> recorded k l d \/ (k = name /\ l = line).
Proof.
  unfold recorded. destruct (String.eqb_spec name k) as [->|Hne].
  - rewrite append_line_same. split.
    + intros (lines & [= <-] & Hin).
      destruct (PyDict.get k d) as [old|].
      * apply in_app_iff in Hin. destruct Hin as [Hin|[<-|[]]]; eauto.
      * destruct Hin as [<-|[]]. auto.
    + intros [(lines & Hget & Hin)|[_ ->]].
      * rewrite Hget. eexists. split; [reflexivity|].
        apply in_app_iff. now left.
      * eexists. split; [reflexivity|].
        destruct (PyDict.get k d); [apply in_app_iff; right|]; now left.
  - rewrite append_line_other by assumption. split.
    + intros H. now left.
    + intros [H|[-> _]]; [exact H | contradiction].
Qed.

Lemma append_line_nonempty name line d :
  (forall k lines, PyDict.get k d = Some lines -> lines <> []) ->
  forall k lines,
    PyDict.get k (append_line name line d) = Some lines -> lines <> [].
Proof.
  intros Hd k lines. destruct (String.eqb_spec name k) as [->|Hne].
  - rewrite append_line_same. intros [= <-].
    destruct (PyDict.get k d) as [old|]; [|discriminate].
    now destruct old.
  - rewrite append_line_other by assumption. apply Hd.
Qed.

Lemma mem_set_same (V : Type) k (v : V) d :
  PyDict.mem k (PyDict.set k v d) = true.
Proof. apply PyDictFacts.mem_true. rewrite PyDictFacts.get_set_same. eauto. Qed.

Lemma mem_set_keep (V : Type) k k' (v : V) d :
  PyDict.mem k d = true -> PyDict.mem k (PyDict.set k' v d) = true.
Proof.
  destruct (String.eqb_spec k' k) as [->|Hne]; [intros _; apply mem_set_same|].
  unfold PyDict.mem. now rewrite PyDictFacts.get_set_other.
Qed.

Lemma mem_set_inv (V : Type) k k' (v : V) d :
  PyDict.mem k (PyDict.set k' v d) = true ->
  k = k' \/ PyDict.mem k d = true.
Proof.
  destruct (String.eqb_spec k' k) as [->|Hne]; [now left|].
  unfold PyDict.mem. rewrite PyDictFacts.get_set_other by assumption. auto.
Qed.
End LineFacts.


(* ===================================================================== *)
(** ** What the extractor records *)

Section Records.
Context {py : PythonStdlib}.

(** A table is returned only for a [.py] path whose text parses, and it is
    the table of the visitor. *)
Lemma build_symbol_table_Some fp content table :
  build_symbol_table fp content = Returned (Some table) ->
  str_lower (path_suffix fp) = ".py"
  /\ exists tree,
       ast_parse content fp = Returned tree
       /\ table = (visit tree PythonSymbolExtractor_init).(symbol_table).
Proof.
  unfold build_symbol_table, parse_and_extract.
  destruct (str_lower (path_suffix fp) =? ".py") eqn:E; simpl;
    [|discriminate].
  apply String.eqb_eq in E.
  destruct (ast_parse content fp) as [tree|e]; simpl.
  - destruct (walk_raises tree) as [e|].
    + destruct e; discriminate.
    + intros [= <-]. eauto.
  - destruct e; discriminate.
Qed.

Lemma built_table fp content tree table :
  ast_parse content fp = Returned tree ->
  build_symbol_table fp content = Returned (Some table) ->
  table = (visit tree PythonSymbolExtractor_init).(symbol_table).
Proof.
  intros Hparse Hbuild. apply build_symbol_table_Some in Hbuild.
  destruct Hbuild as (_ & tree' & Hparse' & ->). congruence.
Qed.

Lemma trace_invariant (Q : SymbolTable -> Prop) tree :
  (forall m t t', occurs_in m tree -> table_step m t t' -> Q t -> Q t') ->
  forall t t', trace tree t t' -> Q t -> Q t'.
Proof.
  intros Hstep t t' H HQ. induction H as [|m t1 t2 _ IH Hm Hs]; eauto.
Qed.

Lemma calls_stable name line m t t' :
  table_step m t t' ->
  recorded name line t.(function_calls) ->
  recorded name line t'.(function_calls).
Proof.
  intros Hstep H. destruct Hstep; cbn; try exact H.
  apply recorded_append_line. now left.
Qed.

Lemma usages_stable name line m t t' :
  table_step m t t' ->
  recorded name line t.(usages) -> recorded name line t'.(usages).
Proof.
  intros Hstep H. destruct Hstep; cbn; try exact H.
  apply recorded_append_line. now left.
Qed.

Lemma imports_stable name m t t' :
  table_step m t t' ->
  PyDict.mem name t.(imports) = true -> PyDict.mem name t'.(imports) = true.
Proof.
  intros Hstep H. destruct Hstep; cbn; try exact H.
  now apply mem_set_keep.
Qed.

Lemma signatures_stable name m t t' :
  table_step m t t' ->
  PyDict.mem name t.(function_signatures) = true ->
  PyDict.mem name t'.(function_signatures) = true.
Proof.
  intros Hstep H. destruct Hstep; cbn; try exact H.
  now apply mem_set_keep.
Qed.

Lemma definitions_stable name m t t' :
  table_step m t t' ->
  PyDict.mem name t.(definitions) = true ->
  PyDict.mem name t'.(definitions) = true.
Proof.
  intros Hstep H. destruct Hstep; cbn; try exact H; now apply mem_set_keep.
Qed.

Lemma import_alias_binds lineno name :
  forall names self,
    (exists a, In a names /\ bound_name a = name)
    \/ PyDict.mem name self.(symbol_table).(imports) = true ->
    PyDict.mem name
      (fold_left (import_alias lineno) names self).(symbol_table).(imports)
    = true.
Proof.
  induction names as [|a rest IH]; intros self H; simpl.
  - destruct H as [(a & [] & _)|H]. exact H.
  - apply IH. destruct H as [(a' & [<-|Hin] & Hname)|H].
    + right. cbn. subst name. apply mem_set_same.
    + left. eauto.
    + right. cbn. now apply mem_set_keep.
Qed.

Lemma import_from_alias_binds lineno module name :
  forall names self,
    (exists a, In a names /\ bound_name a = name)
    \/ PyDict.mem name self.(symbol_table).(imports) = true ->
    PyDict.mem name
      (fold_left (import_from_alias lineno module) names self)
        .(symbol_table).(imports)
    = true.
Proof.
  induction names as [|a rest IH]; intros self H; simpl.
  - destruct H as [(a & [] & _)|H]. exact H.
  - apply IH. destruct H as [(a' & [<-|Hin] & Hname)|H].
    + right. cbn. subst name. apply mem_set_same.
    + left. eauto.
    + right. cbn. now apply mem_set_keep.
Qed.

Lemma define_targets_defines lineno name :
  forall targets self,
    (exists l ctx, In (Name l name ctx) targets)
    \/ PyDict.mem name self.(symbol_table).(definitions) = true ->
    PyDict.mem name
      (fold_left (define_target lineno) targets self)
        .(symbol_table).(definitions)
    = true.
Proof.
  induction targets as [|target rest IH]; intros self H; simpl.
  - destruct H as [(l & ctx & [])|H]. exact H.
  - apply IH. destruct H as [(l & ctx & [->|Hin])|H].
    + right. cbn. apply mem_set_same.
    + left. eauto.
    + right. destruct target; try exact H. cbn. now apply mem_set_keep.
Qed.
End Records.

Section RecordsMore.
Context {py : PythonStdlib}.

Lemma import_alias_defines lineno name :
  forall names self,
    (exists a, In a names /\ bound_name a = name)
    \/ PyDict.mem name self.(symbol_table).(definitions) = true ->
    PyDict.mem name
      (fold_left (import_alias lineno) names self)
        .(symbol_table).(definitions)
    = true.
Proof.
  induction names as [|a rest IH]; intros self H; simpl.
  - destruct H as [(a & [] & _)|H]. exact H.
  - apply IH. destruct H as [(a' & [<-|Hin] & Hname)|H].
    + right. cbn. subst name. apply mem_set_same.
    + left. eauto.
    + right. cbn. now apply mem_set_keep.
Qed.

Lemma import_from_alias_defines lineno module name :
  forall names self,
    (exists a, In a names /\ bound_name a = name)
    \/ PyDict.mem name self.(symbol_table).(definitions) = true ->
    PyDict.mem name
      (fold_left (import_from_alias lineno module) names self)
        .(symbol_table).(definitions)
    = true.
Proof.
  induction names as [|a rest IH]; intros self H; simpl.
  - destruct H as [(a & [] & _)|H]. exact H.
  - apply IH. destruct H as [(a' & [<-|Hin] & Hname)|H].
    + right. cbn. subst name. apply mem_set_same.
    + left. eauto.
    + right. cbn. now apply mem_set_keep.
Qed.

(** The lists of lines only grow at their end. *)
Lemma lines_grow name lines m t t' (field : SymbolTable -> dict (list Z)) :
  field = usages \/ field = function_calls ->
  table_step m t t' ->
  (exists more, PyDict.get name (field t) = Some (lines ++ more)%list) ->
  exists more, PyDict.get name (field t') = Some (lines ++ more)%list.
Proof.
  intros Hfield Hstep (more & Hget).
  destruct Hfield as [-> | ->]; destruct Hstep as [| | |name' line'|name' line'];
    cbn; eauto;
    (destruct (String.eqb_spec name' name) as [->|Hne];
     [ rewrite append_line_same, Hget; exists (more ++ [line'])%list;
       now rewrite app_assoc
     | rewrite append_line_other by assumption; eauto ]).
Qed.
End RecordsMore.

(* ===================================================================== *)
(** ** Properties of the extractor beyond the claims *)

(** X1: visiting a node, whatever it contains, leaves the current scope of
    the extractor as it was: every function and class restores the scope it
    was entered in. *)
Theorem visit_restores_scope
        (py : PythonStdlib) (n : node) (self : PythonSymbolExtractor) :
  current_scope (visit n self) = current_scope self.
Proof. apply visit_scope. Qed.

(** X2: [build_symbol_table] returns a table only for a path whose lowered
    suffix is [".py"] and whose text parses, and the table is the one the
    visitor fills from the parsed tree, starting from an empty table. *)
Theorem table_only_for_parsed_python
        (py : PythonStdlib) (file_path content : string)
        (table : SymbolTable) :
  build_symbol_table file_path content = Returned (Some table) ->
  str_lower (path_suffix file_path) = ".py"
  /\ exists tree,
       ast_parse content file_path = Returned tree
       /\ table = (visit tree PythonSymbolExtractor_init).(symbol_table).
Proof. apply build_symbol_table_Some. Qed.

Lemma table_only_for_parsed_python_witness :
  Samples.lower (Samples.suffix "svc.py") = ".py"
  /\ exists tree,
       ServiceSample.parse ServiceSample.src_service "svc.py" = Returned tree
       /\ ServiceSample.table_service
          = (@visit ServiceSample.stdlib tree PythonSymbolExtractor_init)
              .(symbol_table).
Proof.
  apply (@table_only_for_parsed_python ServiceSample.stdlib "svc.py"
           ServiceSample.src_service ServiceSample.table_service).
  reflexivity.
Defined.

Lemma built_function_calls
        (py : PythonStdlib) (file_path content : string) (tree : node)
        (table : SymbolTable) :
  ast_parse content file_path = Returned tree ->
  build_symbol_table file_path content = Returned (Some table) ->
  forall name line,
    recorded name line table.(function_calls)
    <-> exists m, occurs_in m tree /\ calls m name line.
Proof.
  intros Hparse Hbuild name line.
  rewrite (@built_table py file_path content tree table Hparse Hbuild). split.
  - revert name line.
    apply (@trace_invariant py
             (fun t => forall name line,
                  recorded name line t.(function_calls) ->
                  exists m, occurs_in m tree /\ calls m name line)
             tree)
      with (t := symbol_table PythonSymbolExtractor_init);
      [|apply visit_trace|].
    + intros m t t' Hm Hstep IH name line H.
      destruct Hstep; cbn in H; try (apply IH; exact H).
      apply recorded_append_line in H.
      destruct H as [H|[-> ->]]; [now apply IH | eauto].
    + intros name line (lines & [=] & _).
  - intros (m & Hm & Hcalls).
    apply (@occurs_establishes py
             (fun t => recorded name line t.(function_calls)) m);
      [intros; eapply calls_stable; eassumption | | exact Hm].
    intros self. destruct m as [| | | | | | | |l func args kws| |];
      try destruct Hcalls.
    destruct func; try destruct Hcalls; subst; cbn;
      apply recorded_append_line; now right.
Qed.

(** X3: the call sites recorded in a built table are exactly the call
    expressions of the parsed tree: [line] is recorded for [name] if and
    only if the tree has a call on [line] of the name [name] or of an
    attribute [name]. *)
Theorem function_calls_are_the_call_sites
        (py : PythonStdlib) (file_path content : string) (tree : node)
        (table : SymbolTable) :
  ast_parse content file_path = Returned tree ->
  build_symbol_table file_path content = Returned (Some table) ->
  forall name line,
    recorded name line table.(function_calls)
    <-> exists m, occurs_in m tree /\ calls m name line.
Proof. apply built_function_calls. Qed.

Lemma function_calls_are_the_call_sites_witness :
  recorded "getcwd" 6 ServiceSample.table_service.(function_calls)
  <-> exists m, occurs_in m ServiceSample.ast_service /\ calls m "getcwd" 6.
Proof.
  apply (@function_calls_are_the_call_sites ServiceSample.stdlib "svc.py"
           ServiceSample.src_service);
    reflexivity.
Defined.

(** X4: the usages recorded in a built table are exactly the names the
    parsed tree reads: [line] is recorded for [name] if and only if the
    tree has the name [name] in load context on [line]. *)
Theorem usages_are_the_reads
        (py : PythonStdlib) (file_path content : string) (tree : node)
        (table : SymbolTable) :
  ast_parse content file_path = Returned tree ->
  build_symbol_table file_path content = Returned (Some table) ->
  forall name line,
    recorded name line table.(usages)
    <-> exists m, occurs_in m tree /\ reads m name line.
Proof.
  intros Hparse Hbuild name line.
  rewrite (@built_table py file_path content tree table Hparse Hbuild). split.
  - revert name line.
    apply (@trace_invariant py
             (fun t => forall name line,
                  recorded name line t.(usages) ->
                  exists m, occurs_in m tree /\ reads m name line)
             tree)
      with (t := symbol_table PythonSymbolExtractor_init);
      [|apply visit_trace|].
    + intros m t t' Hm Hstep IH name line H.
      destruct Hstep; cbn in H; try (apply IH; exact H).
      apply recorded_append_line in H.
      destruct H as [H|[-> ->]]; [now apply IH | eauto].
    + intros name line (lines & [=] & _).
  - intros (m & Hm & Hreads).
    apply (@occurs_establishes py
             (fun t => recorded name line t.(usages)) m);
      [intros; eapply usages_stable; eassumption | | exact Hm].
    intros self. destruct m as [| | | | | | |l id ctx| | |];
      try destruct Hreads.
    destruct ctx; try destruct Hreads; subst; cbn;
      apply recorded_append_line; now right.
Qed.

Lemma usages_are_the_reads_witness :
  recorded "os" 6 ServiceSample.table_service.(usages)
  <-> exists m, occurs_in m ServiceSample.ast_service /\ reads m "os" 6.
Proof.
  apply (@usages_are_the_reads ServiceSample.stdlib "svc.py"
           ServiceSample.src_service);
    reflexivity.
Defined.

Lemma built_imports
        (py : PythonStdlib) (file_path content : string) (tree : node)
        (table : SymbolTable) :
  ast_parse content file_path = Returned tree ->
  build_symbol_table file_path content = Returned (Some table) ->
  forall name,
    (PyDict.mem name table.(imports) = true
     <-> exists m source, occurs_in m tree /\ binds_import m name source)
    /\ forall source,
         PyDict.get name table.(imports) = Some source ->
         exists m, occurs_in m tree /\ binds_import m name source.
Proof.
  intros Hparse Hbuild name.
  rewrite (@built_table py file_path content tree table Hparse Hbuild).
  assert (Hsound : forall source,
             PyDict.get name
               (imports (symbol_table (visit tree PythonSymbolExtractor_init)))
             = Some source ->
             exists m, occurs_in m tree /\ binds_import m name source).
  { revert name.
    apply (@trace_invariant py
             (fun t => forall name source,
                  PyDict.get name t.(imports) = Some source ->
                  exists m, occurs_in m tree /\ binds_import m name source)
             tree)
      with (t := symbol_table PythonSymbolExtractor_init);
      [|apply visit_trace|].
    - intros m t t' Hm Hstep IH name source H.
      destruct Hstep as [name' source' l sc t Hb| | | |]; cbn in H;
        try (apply IH; exact H).
      destruct (String.eqb_spec name' name) as [->|Hne].
      + rewrite PyDictFacts.get_set_same in H. injection H as <-. eauto.
      + rewrite PyDictFacts.get_set_other in H by assumption. now apply IH.
    - intros name source [=]. }
  split; [split|exact Hsound].
  - intros H. apply PyDictFacts.mem_true in H. destruct H as [source H].
    apply Hsound in H. destruct H as (m & Hm & Hb). eauto.
  - intros (m & source & Hm & Hb).
    apply (@occurs_establishes py
             (fun t => PyDict.mem name t.(imports) = true) m);
      [intros; eapply imports_stable; eassumption | | exact Hm].
    intros self. destruct m as [l names|l module names| | | | | | | | |];
      try destruct Hb; cbn [enter].
    + apply import_alias_binds. left. exists x. tauto.
    + apply import_from_alias_binds. left. exists x. tauto.
Qed.

(** X5: the imports of a built table are exactly the names the import
    statements of the parsed tree bind: a name is a key if and only if some
    [import] or [from ... import] statement of the tree binds it (under its
    [as] name when it has one), and the source recorded for it is the one
    of such a statement: the module for [import], [module.symbol] for
    [from module import symbol]. *)
Theorem imports_are_the_bound_names
        (py : PythonStdlib) (file_path content : string) (tree : node)
        (table : SymbolTable) :
  ast_parse content file_path = Returned tree ->
  build_symbol_table file_path content = Returned (Some table) ->
  forall name,
    (PyDict.mem name table.(imports) = true
     <-> exists m source, occurs_in m tree /\ binds_import m name source)
    /\ forall source,
         PyDict.get name table.(imports) = Some source ->
         exists m, occurs_in m tree /\ binds_import m name source.
Proof. apply built_imports. Qed.

Lemma imports_are_the_bound_names_witness :
  PyDict.mem "L" ServiceSample.table_service.(imports) = true
  <-> exists m source, occurs_in m ServiceSample.ast_service
                       /\ binds_import m "L" source.
Proof.
  apply (@imports_are_the_bound_names ServiceSample.stdlib "svc.py"
           ServiceSample.src_service ServiceSample.ast_service
           ServiceSample.table_service);
    reflexivity.
Defined.

(** X6: the function signatures of a built table are exactly the functions
    the parsed tree defines: a name is a key if and only if the tree has a
    [def] or [async def] of that name, and the return type recorded for it
    is the unparsed annotation of such a definition, [None] when it has no
    annotation. *)
Theorem signatures_are_the_function_definitions
        (py : PythonStdlib) (file_path content : string) (tree : node)
        (table : SymbolTable) :
  ast_parse content file_path = Returned tree ->
  build_symbol_table file_path content = Returned (Some table) ->
  forall name,
    (PyDict.mem name table.(function_signatures) = true
     <-> exists m return_type,
           occurs_in m tree /\ defines_function m name return_type)
    /\ forall return_type,
         PyDict.get name table.(function_signatures) = Some return_type ->
         exists m, occurs_in m tree /\ defines_function m name return_type.
Proof.
  intros Hparse Hbuild name.
  rewrite (@built_table py file_path content tree table Hparse Hbuild).
  assert (Hsound : forall return_type,
             PyDict.get name
               (function_signatures
                  (symbol_table (visit tree PythonSymbolExtractor_init)))
             = Some return_type ->
             exists m, occurs_in m tree
                       /\ defines_function m name return_type).
  { revert name.
    apply (@trace_invariant py
             (fun t => forall name return_type,
                  PyDict.get name t.(function_signatures) = Some return_type ->
                  exists m, occurs_in m tree
                            /\ defines_function m name return_type)
             tree)
      with (t := symbol_table PythonSymbolExtractor_init);
      [|apply visit_trace|].
    - intros m t t' Hm Hstep IH name return_type H.
      destruct Hstep as [|name' ty r l sc t Hd| | |]; cbn in H;
        try (apply IH; exact H).
      destruct (String.eqb_spec name' name) as [->|Hne].
      + rewrite PyDictFacts.get_set_same in H. injection H as <-. eauto.
      + rewrite PyDictFacts.get_set_other in H by assumption. now apply IH.
    - intros name return_type [=]. }
  split; [split|exact Hsound].
  - intros H. apply PyDictFacts.mem_true in H. destruct H as [r H].
    apply Hsound in H. destruct H as (m & Hm & Hd). eauto.
  - intros (m & r & Hm & Hd).
    apply (@occurs_establishes py
             (fun t => PyDict.mem name t.(function_signatures) = true) m);
      [intros; eapply signatures_stable; eassumption | | exact Hm].
    intros self. destruct m; try destruct Hd; subst; cbn; apply mem_set_same.
Qed.

Lemma signatures_are_the_function_definitions_witness :
  PyDict.mem "m" ServiceSample.table_service.(function_signatures) = true
  <-> exists m return_type,
        occurs_in m ServiceSample.ast_service
        /\ @defines_function ServiceSample.stdlib m "m" return_type.
Proof.
  apply (@signatures_are_the_function_definitions ServiceSample.stdlib
           "svc.py" ServiceSample.src_service ServiceSample.ast_service
           ServiceSample.table_service);
    reflexivity.
Defined.

(** X7: the definitions of a built table are exactly the names the parsed
    tree introduces: a name is a key if and only if the tree has an import
    statement that binds it, a function or class definition of that name,
    or an assignment, plain or annotated, whose target is that name. *)
Theorem definitions_are_the_introduced_names
        (py : PythonStdlib) (file_path content : string) (tree : node)
        (table : SymbolTable) :
  ast_parse content file_path = Returned tree ->
  build_symbol_table file_path content = Returned (Some table) ->
  forall name,
    PyDict.mem name table.(definitions) = true
    <-> exists m,
          occurs_in m tree
          /\ ((exists source, binds_import m name source)
              \/ (exists return_type, defines_function m name return_type)
              \/ defines m name).
Proof.
  intros Hparse Hbuild name.
  rewrite (@built_table py file_path content tree table Hparse Hbuild).
  split.
  - revert name.
    apply (@trace_invariant py
             (fun t => forall name,
                  PyDict.mem name t.(definitions) = true ->
                  exists m,
                    occurs_in m tree
                    /\ ((exists source, binds_import m name source)
                        \/ (exists return_type,
                               defines_function m name return_type)
                        \/ defines m name))
             tree)
      with (t := symbol_table PythonSymbolExtractor_init);
      [|apply visit_trace|].
    + intros m t t' Hm Hstep IH name H.
      destruct Hstep; cbn in H; try (apply IH; exact H);
        apply mem_set_inv in H; destruct H as [->|H];
        try (apply IH; exact H); exists m; split; eauto.
    + intros name [=].
  - intros (m & Hm & Hintro).
    apply (@occurs_establishes py
             (fun t => PyDict.mem name t.(definitions) = true) m);
      [intros; eapply definitions_stable; eassumption | | exact Hm].
    intros self.
    destruct Hintro as [(source & Hb)|[(r & Hd)|Hd]].
    + destruct m as [l names|l module names| | | | | | | | |];
        try destruct Hb; cbn [enter].
      * apply import_alias_defines. left. exists x. tauto.
      * apply import_from_alias_defines. left. exists x. tauto.
    + destruct m; try destruct Hd; subst; cbn; apply mem_set_same.
    + destruct m as [| | | |l id bases kws body decos tps|l targets value
                     |l target annotation value| | | |];
        try destruct Hd; cbn [enter].
      * subst. cbn. apply mem_set_same.
      * apply define_targets_defines. left. destruct H as [ctx H]. eauto.
      * destruct target; try destruct Hd. subst. cbn. apply mem_set_same.
Qed.

Lemma definitions_are_the_introduced_names_witness :
  PyDict.mem "x" ServiceSample.table_service.(definitions) = true
  <-> exists m,
        occurs_in m ServiceSample.ast_service
        /\ ((exists source, binds_import m "x" source)
            \/ (exists return_type,
                   @defines_function ServiceSample.stdlib m "x" return_type)
            \/ defines m "x").
Proof.
  apply (@definitions_are_the_introduced_names ServiceSample.stdlib "svc.py"
           ServiceSample.src_service ServiceSample.ast_service
           ServiceSample.table_service);
    reflexivity.
Defined.

Lemma built_lines_nonempty
      (py : PythonStdlib) (file_path content : string)
      (table : SymbolTable) :
  build_symbol_table file_path content = Returned (Some table) ->
  forall name lines,
    (PyDict.get name table.(usages) = Some lines -> lines <> [])
    /\ (PyDict.get name table.(function_calls) = Some lines -> lines <> []).
Proof.
  intros Hbuild. apply build_symbol_table_Some in Hbuild.
  destruct Hbuild as (_ & tree & _ & ->).
  assert (H : (forall name lines,
                  PyDict.get name
                    (usages (symbol_table
                               (visit tree PythonSymbolExtractor_init)))
                  = Some lines -> lines <> [])
              /\ (forall name lines,
                     PyDict.get name
                       (function_calls
                          (symbol_table
                             (visit tree PythonSymbolExtractor_init)))
                     = Some lines -> lines <> [])).
  { apply (@trace_keeps py
             (fun t => (forall name lines,
                           PyDict.get name t.(usages) = Some lines ->
                           lines <> [])
                       /\ (forall name lines,
                              PyDict.get name t.(function_calls) = Some lines ->
                              lines <> [])))
      with (tree := tree) (t := symbol_table PythonSymbolExtractor_init);
      [|apply visit_trace|].
    - intros m t t' Hstep [Hu Hc].
      destruct Hstep; cbn; split; auto; now apply append_line_nonempty.
    - split; intros name lines [=]. }
  intros name lines. split; apply H.
Qed.

(** X8: in a built table no name of [usages] or [function_calls] holds an
    empty list: a name becomes a key only together with its first line. *)
Theorem recorded_lines_are_not_empty
        (py : PythonStdlib) (file_path content : string)
        (table : SymbolTable) :
  build_symbol_table file_path content = Returned (Some table) ->
  forall name lines,
    (PyDict.get name table.(usages) = Some lines -> lines <> [])
    /\ (PyDict.get name table.(function_calls) = Some lines -> lines <> []).
Proof. apply built_lines_nonempty. Qed.

Lemma recorded_lines_are_not_empty_witness :
  (PyDict.get "os" ServiceSample.table_service.(usages) = Some [6%Z] ->
   [6%Z] <> [])
  /\ (PyDict.get "os" ServiceSample.table_service.(function_calls)
      = Some [6%Z] -> [6%Z] <> []).
Proof.
  apply (@recorded_lines_are_not_empty ServiceSample.stdlib "svc.py"
           ServiceSample.src_service ServiceSample.table_service).
  reflexivity.
Defined.

(** X9: in a built table every imported name and every name with a function
    signature is also a key of [definitions]. *)
Theorem imports_and_signatures_are_definitions
        (py : PythonStdlib) (file_path content : string)
        (table : SymbolTable) :
  build_symbol_table file_path content = Returned (Some table) ->
  forall name,
    (PyDict.mem name table.(imports) = true ->
     PyDict.mem name table.(definitions) = true)
    /\ (PyDict.mem name table.(function_signatures) = true ->
        PyDict.mem name table.(definitions) = true).
Proof.
  intros Hbuild. apply build_symbol_table_Some in Hbuild.
  destruct Hbuild as (_ & tree & _ & ->).
  assert (H : forall name,
             (PyDict.mem name
                (imports (symbol_table (visit tree PythonSymbolExtractor_init)))
              = true ->
              PyDict.mem name
                (definitions
                   (symbol_table (visit tree PythonSymbolExtractor_init)))
              = true)
             /\ (PyDict.mem name
                   (function_signatures
                      (symbol_table (visit tree PythonSymbolExtractor_init)))
                 = true ->
                 PyDict.mem name
                   (definitions
                      (symbol_table (visit tree PythonSymbolExtractor_init)))
                 = true)).
  { apply (@trace_keeps py
             (fun t => forall name,
                  (PyDict.mem name t.(imports) = true ->
                   PyDict.mem name t.(definitions) = true)
                  /\ (PyDict.mem name t.(function_signatures) = true ->
                      PyDict.mem name t.(definitions) = true)))
      with (tree := tree) (t := symbol_table PythonSymbolExtractor_init);
      [|apply visit_trace|].
    - intros m t t' Hstep IH name. destruct (IH name) as [Hi Hs].
      destruct Hstep; cbn; split; auto; intros Hmem;
        try (apply mem_set_inv in Hmem; destruct Hmem as [->|Hmem];
             [apply mem_set_same | apply mem_set_keep; auto]);
        try (apply mem_set_keep; auto).
    - intros name. split; intros [=]. }
  exact H.
Qed.

Lemma imports_and_signatures_are_definitions_witness :
  (PyDict.mem "L" ServiceSample.table_service.(imports) = true ->
   PyDict.mem "L" ServiceSample.table_service.(definitions) = true)
  /\ (PyDict.mem "L" ServiceSample.table_service.(function_signatures)
      = true ->
      PyDict.mem "L" ServiceSample.table_service.(definitions) = true).
Proof.
  apply (@imports_and_signatures_are_definitions ServiceSample.stdlib
           "svc.py" ServiceSample.src_service ServiceSample.table_service).
  reflexivity.
Defined.

(** X10: a visit never removes what the table holds: every key of
    [definitions], [imports] and [function_signatures] is still a key after
    it, and every list of [usages] and [function_calls] is after it the same
    list with the new lines added at its end. *)
Theorem visit_only_adds
        (py : PythonStdlib) (n : node) (self : PythonSymbolExtractor)
        (name : string) :
  let before := self.(symbol_table) in
  let after := (visit n self).(symbol_table) in
  (PyDict.mem name before.(definitions) = true ->
   PyDict.mem name after.(definitions) = true)
  /\ (PyDict.mem name before.(imports) = true ->
      PyDict.mem name after.(imports) = true)
  /\ (PyDict.mem name before.(function_signatures) = true ->
      PyDict.mem name after.(function_signatures) = true)
  /\ (forall lines,
         PyDict.get name before.(usages) = Some lines ->
         exists more,
           PyDict.get name after.(usages) = Some (lines ++ more)%list)
  /\ (forall lines,
         PyDict.get name before.(function_calls) = Some lines ->
         exists more,
           PyDict.get name after.(function_calls) = Some (lines ++ more)%list).
Proof.
  cbv zeta. pose proof (visit_trace n self) as Htrace.
  split; [|split; [|split; [|split]]].
  - intros H. revert Htrace H.
    apply (@trace_keeps py
             (fun t => PyDict.mem name t.(definitions) = true)).
    intros; eapply definitions_stable; eassumption.
  - intros H. revert Htrace H.
    apply (@trace_keeps py (fun t => PyDict.mem name t.(imports) = true)).
    intros; eapply imports_stable; eassumption.
  - intros H. revert Htrace H.
    apply (@trace_keeps py
             (fun t => PyDict.mem name t.(function_signatures) = true)).
    intros; eapply signatures_stable; eassumption.
  - intros lines H.
    apply (@trace_keeps py
             (fun t => exists more,
                  PyDict.get name t.(usages) = Some (lines ++ more)%list))
      with (tree := n) (t := symbol_table self); [|exact Htrace|].
    + intros m t t' Hstep. eapply lines_grow; [now left | exact Hstep].
    + exists []. now rewrite app_nil_r.
  - intros lines H.
    apply (@trace_keeps py
             (fun t => exists more,
                  PyDict.get name t.(function_calls)
                  = Some (lines ++ more)%list))
      with (tree := n) (t := symbol_table self); [|exact Htrace|].
    + intros m t t' Hstep. eapply lines_grow; [now right | exact Hstep].
    + exists []. now rewrite app_nil_r.
Qed.

(* ===================================================================== *)
(** ** The detectors: which tasks, which kinds *)

Section DetectorsMore.
Context {py : PythonStdlib}.

Lemma flat_map_nil (A B : Type) (f : A -> list B) (l : list A) :
  (forall x, In x l -> f x = []) -> flat_map f l = [].
Proof.
  induction l as [|x rest IH]; intros H; simpl; [reflexivity|].
  rewrite (H x) by now left. apply IH. intros y Hy. apply H. now right.
Qed.

Lemma table_of_unsupported fp content :
  str_lower (path_suffix fp) <> ".py" -> table_of fp content = None.
Proof.
  intros Hext. unfold table_of, build_symbol_table.
  apply String.eqb_neq in Hext. now rewrite Hext.
Qed.

Lemma last_remover_In task_analyses symbol task_id :
  last_remover task_analyses symbol = Some task_id ->
  In task_id (PyDict.keys task_analyses).
Proof.
  unfold last_remover.
  assert (G : forall l found,
             fold_left
               (fun found '(task_id, analysis) =>
                  if removes_import symbol analysis then Some task_id
                  else found) l found = Some task_id ->
             found = Some task_id \/ In task_id (PyDict.keys l)).
  { induction l as [|[t a] rest IH]; simpl; intros found H; [now left|].
    apply IH in H. destruct H as [H|H]; [|right; now right].
    destruct (removes_import symbol a); [|now left].
    injection H as ->. right. now left. }
  intros H. apply G in H. destruct H as [H|H]; [discriminate | exact H].
Qed.

Lemma key_of_entry (V : Type) (d : dict V) (k : string) (v : V) :
  In (k, v) d -> In k (PyDict.keys d).
Proof. intros H. change k with (fst (k, v)). now apply in_map. Qed.

(** The tasks a finding of each pass names. *)
Lemma rename_pass_tasks ta fc c :
  In c (rename_pass ta fc) ->
  c.(conflict_type) = "function_rename" /\ c.(severity) = HIGH
  /\ (exists name, c.(sc_location) = "function:" ++ name)
  /\ analysed_file ta = Some c.(sc_file_path)
  /\ exists a b, c.(tasks_involved) = [a; b] /\ In a (PyDict.keys ta)
                 /\ In b (PyDict.keys fc) /\ a <> b.
Proof.
  unfold rename_pass.
  destruct (analysed_file ta) as [fp|]; [|intros []].
  intros Hc. apply rename_findings_In in Hc.
  destruct Hc as (t & b & a & table & old & new & r & lines & Hfc & _ & Hr
                  & Hne & _ & ->).
  apply collect_renames_In in Hr. destruct Hr as (_ & an & ch & Han & _).
  repeat split; simpl; eauto.
  exists r, t. repeat split; eauto using key_of_entry.
Qed.

Lemma removal_pass_tasks ta fc c :
  In c (removal_pass ta fc) ->
  c.(conflict_type) = "import_removal" /\ c.(severity) = CRITICAL
  /\ (exists name, c.(sc_location) = "import:" ++ name)
  /\ analysed_file ta = Some c.(sc_file_path)
  /\ exists a b, c.(tasks_involved) = [a; b] /\ In a (PyDict.keys ta)
                 /\ In b (PyDict.keys fc) /\ a <> b.
Proof.
  unfold removal_pass.
  destruct (analysed_file ta) as [fp|]; [|intros []].
  intros Hc. apply removal_findings_In in Hc.
  destruct Hc as (t & b & a & table & sym & r & lines & Hfc & _ & Hr
                  & Hne & _ & _ & ->).
  apply collect_removals_In, last_remover_In in Hr.
  repeat split; simpl; eauto.
  exists r, t. repeat split; eauto using key_of_entry.
Qed.

Lemma type_change_pass_tasks ta fc c :
  In c (type_change_pass ta fc) ->
  c.(conflict_type) = "type_change" /\ c.(severity) = MEDIUM
  /\ (exists name, c.(sc_location) = "function:" ++ name)
  /\ analysed_file ta = Some c.(sc_file_path)
  /\ c.(line_number) = 0%Z
  /\ exists b, c.(tasks_involved) = [b] /\ In b (PyDict.keys fc).
Proof.
  unfold type_change_pass.
  destruct (analysed_file ta) as [fp|]; [|intros []].
  intros Hc. apply type_change_pass_In in Hc.
  destruct Hc as (f & o & n & t & Hlast & _ & _ & _ & ->).
  apply last_type_change_In in Hlast. destruct Hlast as (contents & Hin & _).
  repeat split; simpl; eauto.
  exists t. split; eauto using key_of_entry.
Qed.
End DetectorsMore.

(** X11: when the path of the analysed file does not have the suffix
    [".py"] (in any letter case), [detect_semantic_conflicts] reports
    nothing, whatever the changes and the texts. *)
Theorem unsupported_extension_no_conflicts
        (py : PythonStdlib) (task_analyses : TaskAnalyses)
        (file_contents : FileContents) (fp : string) :
  analysed_file task_analyses = Some fp ->
  str_lower (path_suffix fp) <> ".py" ->
  detect_semantic_conflicts task_analyses file_contents = Returned [].
Proof.
  intros Hfp Hext. rewrite detect_semantic_conflicts_eq.
  unfold rename_pass, removal_pass, type_change_pass. rewrite Hfp.
  rewrite !flat_map_nil; [reflexivity| | |].
  - assert (Hskip : forall l d,
               fold_left (record_type_changes fp) l d = d).
    { induction l as [|[t [b a]] rest IH]; intros d; simpl; [reflexivity|].
      rewrite IH, table_of_unsupported by assumption.
      reflexivity. }
    rewrite Hskip. intros x [].
  - intros [t [b a]] _. unfold removal_findings.
    now rewrite table_of_unsupported.
  - intros [t [b a]] _. unfold rename_findings.
    now rewrite table_of_unsupported.
Qed.

Lemma unsupported_extension_no_conflicts_witness :
  @detect_semantic_conflicts Samples.stdlib
    [("task-a", {| file_path := "test.js";
                   changes := [Samples.remove_import "os"] |})]
    Samples.os_user_contents
  = Returned [].
Proof.
  apply (@unsupported_extension_no_conflicts Samples.stdlib _ _ "test.js").
  - reflexivity.
  - vm_compute. discriminate.
Defined.

(** X12: every region [detect_semantic_conflicts] returns names tasks it
    was given: either two different tasks, the first a task of the analyses
    and the second a task of the file contents, or one task of the file
    contents. *)
Theorem regions_name_given_tasks
        (py : PythonStdlib) (task_analyses : TaskAnalyses)
        (file_contents : FileContents) :
  returns (detect_semantic_conflicts task_analyses file_contents)
    (fun regions =>
       forall region, In region regions ->
         (exists a b,
             region.(cr_tasks_involved) = [a; b]
             /\ In a (PyDict.keys task_analyses)
             /\ In b (PyDict.keys file_contents)
             /\ a <> b)
         \/ (exists b,
                region.(cr_tasks_involved) = [b]
                /\ In b (PyDict.keys file_contents))).
Proof.
  eapply returns_intro; [apply detect_semantic_conflicts_eq|].
  intros region Hin. apply in_map_iff in Hin. destruct Hin as [c [<- Hc]].
  rewrite !in_app_iff in Hc. simpl.
  destruct Hc as [Hc|[Hc|[[]|Hc]]].
  - left. apply rename_pass_tasks in Hc. tauto.
  - left. apply removal_pass_tasks in Hc. tauto.
  - right. apply type_change_pass_tasks in Hc. tauto.
Qed.

Lemma to_region_fields (c : SemanticConflict) :
  (to_region c).(cr_severity) = c.(severity)
  /\ (to_region c).(cr_tasks_involved) = c.(tasks_involved)
  /\ (to_region c).(cr_location) = c.(sc_location)
  /\ (to_region c).(change_types)
     = repeat (get_default c.(conflict_type) UNKNOWN change_type_map)
              (length c.(tasks_involved)).
Proof. repeat split. Qed.

(** X13: every region [detect_semantic_conflicts] returns is of one of
    three shapes: a rename (reason tagged "function_rename", severity HIGH,
    two tasks, change kinds twice [RENAME_FUNCTION], location a function),
    an import removal (tagged "import_removal", CRITICAL, two tasks, twice
    [REMOVE_IMPORT], location an import) or a type change (tagged
    "type_change", MEDIUM, one task, once [MODIFY_FUNCTION], location a
    function); its file path is the path of the first analysis; the
    kinds [MODIFY_VARIABLE] and [UNKNOWN] never occur. *)
Theorem regions_have_three_shapes
        (py : PythonStdlib) (task_analyses : TaskAnalyses)
        (file_contents : FileContents) :
  returns (detect_semantic_conflicts task_analyses file_contents)
    (fun regions =>
       forall region, In region regions ->
         analysed_file task_analyses = Some region.(cr_file_path)
         /\ ((prefix "[Semantic: function_rename] " region.(reason) = true
              /\ region.(cr_severity) = HIGH
              /\ region.(change_types) = [RENAME_FUNCTION; RENAME_FUNCTION]
              /\ length region.(cr_tasks_involved) = 2
              /\ prefix "function:" region.(cr_location) = true)
             \/ (prefix "[Semantic: import_removal] " region.(reason) = true
                 /\ region.(cr_severity) = CRITICAL
                 /\ region.(change_types) = [REMOVE_IMPORT; REMOVE_IMPORT]
                 /\ length region.(cr_tasks_involved) = 2
                 /\ prefix "import:" region.(cr_location) = true)
             \/ (prefix "[Semantic: type_change] " region.(reason) = true
                 /\ region.(cr_severity) = MEDIUM
                 /\ region.(change_types) = [MODIFY_FUNCTION]
                 /\ length region.(cr_tasks_involved) = 1
                 /\ prefix "function:" region.(cr_location) = true))).
Proof.
  eapply returns_intro; [apply detect_semantic_conflicts_eq|].
  intros region Hin. apply in_map_iff in Hin. destruct Hin as [c [<- Hc]].
  rewrite !in_app_iff in Hc.
  pose proof (to_region_reason_prefix c) as Hreason.
  destruct (to_region_fields c) as (Es & Et & El & Ec).
  rewrite Es, Et, El, Ec.
  destruct Hc as [Hc|[Hc|[[]|Hc]]].
  - apply rename_pass_tasks in Hc.
    destruct Hc as (Hk & Hs & [name Hl] & Hf & a & b & Ht & _).
    split; [exact Hf|]. left.
    rewrite Hk in *. rewrite Hs, Ht, Hl.
    repeat split; auto. apply prefix_app.
  - apply removal_pass_tasks in Hc.
    destruct Hc as (Hk & Hs & [name Hl] & Hf & a & b & Ht & _).
    split; [exact Hf|]. right; left.
    rewrite Hk in *. rewrite Hs, Ht, Hl.
    repeat split; auto. apply prefix_app.
  - apply type_change_pass_tasks in Hc.
    destruct Hc as (Hk & Hs & [name Hl] & Hf & _ & b & Ht & _).
    split; [exact Hf|]. right; right.
    rewrite Hk in *. rewrite Hs, Ht, Hl.
    repeat split; auto. apply prefix_app.
Qed.

(* ===================================================================== *)
(** ** The rename map, by target *)

Lemma record_rename_wf task_id renames change :
  PyDict.wf renames -> PyDict.wf (record_rename task_id renames change).
Proof.
  unfold record_rename. intros Hwf.
  destruct (ChangeType_eqb (change_type change) RENAME_FUNCTION); [|exact Hwf].
  destruct (truthy (content_before change) && truthy (content_after change));
    [|exact Hwf].
  now apply PyDictFacts.wf_set.
Qed.

Lemma collect_renames_wf task_analyses :
  PyDict.wf (collect_renames task_analyses).
Proof.
  unfold collect_renames.
  apply PyDictFacts.wf_fold_left; [|apply PyDictFacts.wf_empty].
  intros d [task_id analysis] Hd.
  apply PyDictFacts.wf_fold_left; [|exact Hd].
  intros d' change. apply record_rename_wf.
Qed.

Lemma record_renames_get task_id name changes :
  forall renames,
    PyDict.get name (fold_left (record_rename task_id) changes renames)
    = if existsb (fun change =>
                    rename_with_snippets change
                    && (change.(target) =? name)) changes
      then Some (name, task_id)
      else PyDict.get name renames.
Proof.
  induction changes as [|change rest IH]; intros renames; simpl;
    [reflexivity|].
  rewrite IH.
  destruct (existsb _ rest); [now rewrite orb_true_r|].
  rewrite orb_false_r. unfold record_rename, rename_with_snippets.
  destruct (ChangeType_eqb (change_type change) RENAME_FUNCTION); simpl;
    [|reflexivity].
  destruct (truthy (content_before change) && truthy (content_after change));
    simpl; [|reflexivity].
  destruct (target change =? name) eqn:E.
  - apply String.eqb_eq in E. rewrite E. apply PyDictFacts.get_set_same.
  - apply String.eqb_neq in E. now apply PyDictFacts.get_set_other.
Qed.

(** The rename map sends a target to itself and the last task that renames
    to it. *)
Lemma collect_renames_get task_analyses name :
  PyDict.get name (collect_renames task_analyses)
  = option_map (pair name) (last_renamer task_analyses name).
Proof.
  unfold collect_renames, last_renamer.
  assert (G : forall l renames found,
             PyDict.get name renames = option_map (pair name) found ->
             PyDict.get name
               (fold_left
                  (fun renames '(task_id, analysis) =>
                     fold_left (record_rename task_id) analysis.(changes)
                               renames) l renames)
             = option_map (pair name)
                 (fold_left
                    (fun found '(task_id, analysis) =>
                       if renames_function name analysis then Some task_id
                       else found) l found)).
  { induction l as [|[task_id analysis] rest IH]; intros renames found H;
      simpl; [exact H|].
    apply IH. rewrite record_renames_get. unfold renames_function.
    destruct (existsb _ (changes analysis)); [reflexivity | exact H]. }
  now apply G.
Qed.

Lemma collect_renames_entry task_analyses name new_name task_id :
  In (name, (new_name, task_id)) (collect_renames task_analyses)
  <-> new_name = name /\ last_renamer task_analyses name = Some task_id.
Proof.
  split.
  - intros H. apply PyDictFacts.In_get in H; [|apply collect_renames_wf].
    rewrite collect_renames_get in H.
    destruct (last_renamer task_analyses name); [|discriminate].
    injection H as <- <-. auto.
  - intros [-> H]. apply PyDictFacts.get_In.
    now rewrite collect_renames_get, H.
Qed.

Lemma rename_reported_iff
        (py : PythonStdlib) (task_analyses : TaskAnalyses)
        (file_contents : FileContents)
        (fp name renaming_task task_id before_content after_content : string)
        (table : SymbolTable) :
  analysed_file task_analyses = Some fp ->
  PyDict.wf file_contents ->
  last_renamer task_analyses name = Some renaming_task ->
  task_id <> renaming_task ->
  In (task_id, (before_content, after_content)) file_contents ->
  build_symbol_table fp after_content = Returned (Some table) ->
  returns (detect_function_rename_conflicts task_analyses file_contents)
    (fun conflicts =>
       (rename_reported conflicts name renaming_task task_id
        <-> PyDict.mem name table.(function_calls) = true)
       /\ forall other_task caller,
            rename_reported conflicts name other_task caller ->
            other_task = renaming_task).
Proof.
  intros Hfp Hwf Hlast Hne Hfc Htable.
  eapply returns_intro; [apply detect_function_rename_conflicts_eq|].
  unfold rename_pass. rewrite Hfp.
  apply table_of_Some in Htable.
  split; [split|].
  - intros (c & Hc & _ & _ & Htasks & Hloc).
    apply rename_findings_In in Hc.
    destruct Hc as (t & b & a & tbl & old & new & r & lines & Hfc' & Ht & _
                    & _ & Hcalls & ->).
    simpl in Htasks, Hloc. injection Htasks as -> ->. injection Hloc as ->.
    assert (Heq : (b, a) = (before_content, after_content))
      by (eapply wf_In_unique; eassumption).
    injection Heq as -> ->.
    rewrite Htable in Ht. injection Ht as ->.
    apply PyDictFacts.mem_true. eauto.
  - intros Hcalls.
    apply PyDictFacts.mem_true in Hcalls. destruct Hcalls as [lines Hcalls].
    exists (rename_conflict fp task_id name name renaming_task lines).
    split; [|repeat split].
    apply rename_findings_In.
    exists task_id, before_content, after_content, table, name, name,
      renaming_task, lines.
    repeat split; auto.
    now apply collect_renames_entry.
  - intros other caller (c & Hc & _ & _ & Htasks & Hloc).
    apply rename_findings_In in Hc.
    destruct Hc as (t & b & a & tbl & old & new & r & lines & _ & _ & Hr & _
                    & _ & ->).
    simpl in Htasks, Hloc. injection Htasks as -> ->. injection Hloc as ->.
    apply collect_renames_entry in Hr. destruct Hr as [_ Hr]. congruence.
Qed.

(** X14: the rename detector as it behaves, keyed by the target of the
    change: let [renaming_task] be the last task, in the order of the
    analyses, that records with both snippets a RENAME_FUNCTION change of
    target [name], and let [task_id] be another task, whose after-text
    parses.  The detector emits a HIGH conflict of kind "function_rename"
    for [name] naming [renaming_task] and [task_id], in that order, if and
    only if [task_id]'s after-text calls [name]; and no conflict for [name]
    names another renaming task. *)
Theorem rename_conflict_iff_for_target
        (py : PythonStdlib) (task_analyses : TaskAnalyses)
        (file_contents : FileContents)
        (fp name renaming_task task_id before_content after_content : string)
        (table : SymbolTable) :
  analysed_file task_analyses = Some fp ->
  PyDict.wf file_contents ->
  last_renamer task_analyses name = Some renaming_task ->
  task_id <> renaming_task ->
  In (task_id, (before_content, after_content)) file_contents ->
  build_symbol_table fp after_content = Returned (Some table) ->
  returns (detect_function_rename_conflicts task_analyses file_contents)
    (fun conflicts =>
       (rename_reported conflicts name renaming_task task_id
        <-> PyDict.mem name table.(function_calls) = true)
       /\ forall other_task caller,
            rename_reported conflicts name other_task caller ->
            other_task = renaming_task).
Proof. apply rename_reported_iff. Qed.

(** X14 on the tests' rename of [foo] to [bar], recorded with target [bar]:
    a task whose after-text calls [bar] is reported. *)
Lemma rename_conflict_iff_for_target_witness :
  returns (@detect_function_rename_conflicts Samples.stdlib
             Samples.cross_task_analyses
             [("task-b", (Samples.src_foo_called, Samples.src_bar_called))])
    (fun conflicts => rename_reported conflicts "bar" "task-a" "task-b").
Proof.
  destruct (@rename_conflict_iff_for_target Samples.stdlib
              Samples.cross_task_analyses
              [("task-b", (Samples.src_foo_called, Samples.src_bar_called))]
              "test.py" "bar" "task-a" "task-b" Samples.src_foo_called
              Samples.src_bar_called
              {| definitions := [("bar", ("function", 2%Z, "module"));
                                 ("caller", ("function", 5%Z, "module"))];
                 usages := [("bar", [6%Z])];
                 imports := [];
                 function_calls := [("bar", [6%Z])];
                 function_signatures := [("bar", None); ("caller", None)] |})
    as (conflicts & Heq & Hiff & _).
  - reflexivity.
  - repeat constructor. simpl. tauto.
  - reflexivity.
  - discriminate.
  - now left.
  - reflexivity.
  - exists conflicts. split; [exact Heq|]. apply Hiff. reflexivity.
Defined.

(* ===================================================================== *)
(** ** The detectors: what they look at *)

Section Inputs.
Context {py : PythonStdlib}.

Lemma flat_map_after_texts (B : Type)
      (f : string * (string * string) -> list B) (fc : FileContents) :
  (forall t b a, f (t, (b, a)) = f (t, ("", a))) ->
  flat_map f fc = flat_map (fun '(t, a) => f (t, ("", a))) (after_texts fc).
Proof.
  intros Hf. induction fc as [|[t [b a]] rest IH]; simpl; [reflexivity|].
  now rewrite IH, Hf.
Qed.

Lemma opt_str_eqb_refl (o : option string) : opt_str_eqb o o = true.
Proof. destruct o; simpl; [apply String.eqb_refl | reflexivity]. Qed.

Lemma signature_transition_same table func_name :
  signature_transition table table func_name = None.
Proof.
  unfold signature_transition.
  destruct (PyDict.get func_name (function_signatures table)); [|reflexivity].
  now rewrite opt_str_eqb_refl.
Qed.

Lemma first_line_In (lines : list Z) : lines <> [] -> In (first_line lines) lines.
Proof. destruct lines; [congruence | intros _; now left]. Qed.

Lemma table_of_build fp content table :
  table_of fp content = Some table ->
  build_symbol_table fp content = Returned (Some table).
Proof. intros H. rewrite build_symbol_table_returns. now rewrite H. Qed.

Lemma type_pass_locations fp (type_changes : dict type_change) loc :
  In loc (map sc_location (flat_map (type_change_check fp []) type_changes)) ->
  exists name, In name (PyDict.keys type_changes) /\ loc = "function:" ++ name.
Proof.
  intros H. apply in_map_iff in H. destruct H as (c & <- & Hc).
  apply in_flat_map in Hc.
  destruct Hc as [[name [[old new] t]] [Hin Hc]].
  apply type_change_check_In in Hc.
  destruct Hc as (o & n & _ & _ & _ & _ & _ & ->).
  exists name. split; [|reflexivity]. eapply key_of_entry. exact Hin.
Qed.

Lemma type_pass_NoDup fp (type_changes : dict type_change) :
  PyDict.wf type_changes ->
  NoDup (map sc_location (flat_map (type_change_check fp []) type_changes)).
Proof.
  unfold PyDict.wf.
  induction type_changes as [|[name [[old new] t]] rest IH]; intros Hwf;
    [constructor|].
  inversion Hwf as [|? ? Hnotin Hrest]; subst.
  cbn [flat_map]. rewrite map_app.
  match goal with
  | |- NoDup (map _ ?head ++ _)%list =>
      assert (Hhead : head = []
                      \/ exists c, head = [c]
                                   /\ sc_location c = "function:" ++ name)
  end.
  { unfold type_change_check.
    destruct (truthy old && truthy new); [|now left].
    destruct old as [o|], new as [n|]; try now left.
    destruct (str_contains "None" n && negb (str_contains "None" o));
      [right | now left].
    eexists. split; reflexivity. }
  destruct Hhead as [-> | (c & -> & Hloc)]; simpl; [now apply IH|].
  constructor; [|now apply IH].
  intros Hin. apply type_pass_locations in Hin.
  destruct Hin as (name' & Hkey & Heq). rewrite Hloc in Heq.
  simpl in Heq. injection Heq as ->. contradiction.
Qed.
End Inputs.

(** X15: the type change detector looks at the analyses only for the path
    of the analysed file: with the same first path it returns the same
    conflicts, whatever changes the tasks record. *)
Theorem type_changes_ignore_the_change_records
        (py : PythonStdlib) (task_analyses1 task_analyses2 : TaskAnalyses)
        (file_contents : FileContents) :
  analysed_file task_analyses1 = analysed_file task_analyses2 ->
  detect_type_change_conflicts task_analyses1 file_contents
  = detect_type_change_conflicts task_analyses2 file_contents.
Proof.
  intros H. rewrite !detect_type_change_conflicts_eq.
  unfold type_change_pass. now rewrite H.
Qed.

Lemma type_changes_ignore_the_change_records_witness :
  @detect_type_change_conflicts Samples.stdlib Samples.broaden_analyses
    Samples.broaden_contents
  = @detect_type_change_conflicts Samples.stdlib Samples.same_task_analyses
      Samples.broaden_contents.
Proof.
  apply (@type_changes_ignore_the_change_records Samples.stdlib).
  reflexivity.
Defined.

(** X16: the rename detector and the import removal detector look only at
    the after-texts: two file contents with the same tasks and after-texts,
    in the same order, give the same conflicts, whatever the before-texts. *)
Theorem before_texts_are_ignored
        (py : PythonStdlib) (task_analyses : TaskAnalyses)
        (file_contents1 file_contents2 : FileContents) :
  after_texts file_contents1 = after_texts file_contents2 ->
  detect_function_rename_conflicts task_analyses file_contents1
  = detect_function_rename_conflicts task_analyses file_contents2
  /\ detect_import_removal_conflicts task_analyses file_contents1
     = detect_import_removal_conflicts task_analyses file_contents2.
Proof.
  intros H.
  rewrite !detect_function_rename_conflicts_eq,
    !detect_import_removal_conflicts_eq.
  unfold rename_pass, removal_pass.
  destruct (analysed_file task_analyses) as [fp|]; [|split; reflexivity].
  split; f_equal.
  - rewrite (flat_map_after_texts _ file_contents1) by reflexivity.
    rewrite (flat_map_after_texts _ file_contents2) by reflexivity.
    now rewrite H.
  - rewrite (flat_map_after_texts _ file_contents1) by reflexivity.
    rewrite (flat_map_after_texts _ file_contents2) by reflexivity.
    now rewrite H.
Qed.

Lemma before_texts_are_ignored_witness :
  @detect_import_removal_conflicts Samples.stdlib
    Samples.two_removers_analyses Samples.os_user_contents
  = @detect_import_removal_conflicts Samples.stdlib
      Samples.two_removers_analyses
      [("task-b", (Samples.src_f_int, Samples.src_use_os))].
Proof.
  apply (@before_texts_are_ignored Samples.stdlib
           Samples.two_removers_analyses Samples.os_user_contents
           [("task-b", (Samples.src_f_int, Samples.src_use_os))]).
  reflexivity.
Defined.

(** X17: when no task changes its text (before and after are the same
    text for every task), the type change detector reports nothing. *)
Theorem unchanged_texts_no_type_change
        (py : PythonStdlib) (task_analyses : TaskAnalyses)
        (file_contents : FileContents) :
  (forall task_id before_content after_content,
      In (task_id, (before_content, after_content)) file_contents ->
      before_content = after_content) ->
  detect_type_change_conflicts task_analyses file_contents = Returned [].
Proof.
  intros Hsame. rewrite detect_type_change_conflicts_eq. f_equal.
  unfold type_change_pass.
  destruct (analysed_file task_analyses) as [fp|]; [|reflexivity].
  destruct (flat_map _ _) as [|c rest] eqn:E; [reflexivity|].
  assert (Hc : In c (flat_map (type_change_check fp [])
                       (fold_left (record_type_changes fp) file_contents
                                  PyDict.empty)))
    by (rewrite E; now left).
  apply type_change_pass_In in Hc.
  destruct Hc as (f & o & n & t & Hlast & _).
  apply last_type_change_In in Hlast.
  destruct Hlast as ([b a] & Hin & Htr).
  rewrite (Hsame t b a Hin) in Htr. unfold type_transition in Htr.
  destruct (table_of fp a); [|discriminate].
  now rewrite signature_transition_same in Htr.
Qed.

Lemma unchanged_texts_no_type_change_witness :
  @detect_type_change_conflicts Samples.stdlib Samples.broaden_analyses
    [("task-a", (Samples.src_f_int_or_none, Samples.src_f_int_or_none))]
  = Returned [].
Proof.
  apply (@unchanged_texts_no_type_change Samples.stdlib).
  intros task_id before_content after_content [[= _ <- <-]|[]]. reflexivity.
Defined.

(** X18: a task whose after-text yields no table (it does not parse, or
    the file is not Python) is never the checked task of a region: no
    region names it second after a renaming or removing task, and none
    names it alone. *)
Theorem task_without_table_is_not_checked
        (py : PythonStdlib) (task_analyses : TaskAnalyses)
        (file_contents : FileContents)
        (fp task_id before_content after_content : string) :
  analysed_file task_analyses = Some fp ->
  PyDict.wf file_contents ->
  In (task_id, (before_content, after_content)) file_contents ->
  build_symbol_table fp after_content = Returned None ->
  returns (detect_semantic_conflicts task_analyses file_contents)
    (fun regions =>
       forall region, In region regions ->
         region.(cr_tasks_involved) <> [task_id]
         /\ forall other, region.(cr_tasks_involved) <> [other; task_id]).
Proof.
  intros Hfp Hwf Hfc Hnone.
  assert (Ht : table_of fp after_content = None)
    by (unfold table_of; now rewrite Hnone).
  eapply returns_intro; [apply detect_semantic_conflicts_eq|].
  intros region Hin. apply in_map_iff in Hin. destruct Hin as [c [<- Hc]].
  unfold rename_pass, removal_pass, type_change_pass in Hc.
  rewrite Hfp in Hc. rewrite !in_app_iff in Hc. cbn [to_region
                                                     cr_tasks_involved].
  assert (Hunique : forall b a,
             In (task_id, (b, a)) file_contents ->
             table_of fp a = None).
  { intros b a Hin.
    assert (Heq : (b, a) = (before_content, after_content))
      by (eapply wf_In_unique; eassumption).
    now injection Heq as -> ->. }
  destruct Hc as [Hc|[Hc|[[]|Hc]]].
  - apply rename_findings_In in Hc.
    destruct Hc as (t & b & a & tbl & old & new & r & lines & Hin & Htbl & _
                    & _ & _ & ->).
    simpl. split; [discriminate|]. intros other [= _ ->].
    rewrite (Hunique b a Hin) in Htbl. discriminate.
  - apply removal_findings_In in Hc.
    destruct Hc as (t & b & a & tbl & sym & r & lines & Hin & Htbl & _
                    & _ & _ & _ & ->).
    simpl. split; [discriminate|]. intros other [= _ ->].
    rewrite (Hunique b a Hin) in Htbl. discriminate.
  - apply type_change_pass_In in Hc.
    destruct Hc as (f & o & n & t & Hlast & _ & _ & _ & ->).
    simpl. split; [|discriminate]. intros [= ->].
    apply last_type_change_In in Hlast.
    destruct Hlast as ([b a] & Hin & Htr).
    unfold type_transition in Htr. rewrite (Hunique b a Hin) in Htr.
    now destruct (table_of fp b).
Qed.

Lemma task_without_table_is_not_checked_witness :
  returns (@detect_semantic_conflicts Samples.stdlib
             Samples.two_removers_analyses
             [("task-b", (Samples.src_empty, Samples.src_unterminated))])
    (fun regions =>
       forall region, In region regions ->
         region.(cr_tasks_involved) <> ["task-b"]
         /\ forall other, region.(cr_tasks_involved) <> [other; "task-b"]).
Proof.
  apply (@task_without_table_is_not_checked Samples.stdlib
           Samples.two_removers_analyses
           [("task-b", (Samples.src_empty, Samples.src_unterminated))]
           "test.py" "task-b" Samples.src_empty Samples.src_unterminated).
  - reflexivity.
  - repeat constructor. simpl. tauto.
  - now left.
  - reflexivity.
Defined.

(** X19: the type change detector reports a function at most once: the
    locations of its conflicts are pairwise different. *)
Theorem one_type_change_per_function
        (py : PythonStdlib) (task_analyses : TaskAnalyses)
        (file_contents : FileContents) :
  returns (detect_type_change_conflicts task_analyses file_contents)
    (fun conflicts => NoDup (map sc_location conflicts)).
Proof.
  eapply returns_intro; [apply detect_type_change_conflicts_eq|].
  unfold type_change_pass.
  destruct (analysed_file task_analyses) as [fp|]; [|constructor].
  apply type_pass_NoDup, type_changes_wf.
Qed.

(** X20: the line number of a conflict points at the code that collides:
    for a rename conflict it is a line on which the checked task's
    after-text calls the renamed name, for an import removal conflict a line
    on which it uses the removed symbol (the first such line recorded, never
    the default 0 of an empty list); a type change conflict always carries
    line 0. *)
Theorem conflict_lines_point_at_the_collision
        (py : PythonStdlib) (task_analyses : TaskAnalyses)
        (file_contents : FileContents) :
  returns (detect_function_rename_conflicts task_analyses file_contents)
    (fun conflicts =>
       forall c, In c conflicts ->
         exists fp name renaming_task task_id before_content after_content
                table,
           analysed_file task_analyses = Some fp
           /\ c.(tasks_involved) = [renaming_task; task_id]
           /\ c.(sc_location) = "function:" ++ name
           /\ In (task_id, (before_content, after_content)) file_contents
           /\ build_symbol_table fp after_content = Returned (Some table)
           /\ recorded name c.(line_number) table.(function_calls))
  /\ returns (detect_import_removal_conflicts task_analyses file_contents)
       (fun conflicts =>
          forall c, In c conflicts ->
            exists fp symbol removing_task task_id before_content
                   after_content table,
              analysed_file task_analyses = Some fp
              /\ c.(tasks_involved) = [removing_task; task_id]
              /\ c.(sc_location) = "import:" ++ symbol
              /\ In (task_id, (before_content, after_content)) file_contents
              /\ build_symbol_table fp after_content = Returned (Some table)
              /\ recorded symbol c.(line_number) table.(usages))
  /\ returns (detect_type_change_conflicts task_analyses file_contents)
       (fun conflicts =>
          forall c, In c conflicts -> c.(line_number) = 0%Z).
Proof.
  split; [|split].
  - eapply returns_intro; [apply detect_function_rename_conflicts_eq|].
    unfold rename_pass. intros c Hc.
    destruct (analysed_file task_analyses) as [fp|]; [|destruct Hc].
    apply rename_findings_In in Hc.
    destruct Hc as (t & b & a & tbl & old & new & r & lines & Hin & Htbl & _
                    & _ & Hcalls & ->).
    apply table_of_build in Htbl.
    exists fp, old, r, t, b, a, tbl. repeat split; auto.
    exists lines. split; [exact Hcalls|]. apply first_line_In.
    destruct (@built_lines_nonempty py fp a tbl Htbl old lines) as [_ Hc].
    now apply Hc.
  - eapply returns_intro; [apply detect_import_removal_conflicts_eq|].
    unfold removal_pass. intros c Hc.
    destruct (analysed_file task_analyses) as [fp|]; [|destruct Hc].
    apply removal_findings_In in Hc.
    destruct Hc as (t & b & a & tbl & sym & r & lines & Hin & Htbl & _
                    & _ & _ & Huse & ->).
    apply table_of_build in Htbl.
    exists fp, sym, r, t, b, a, tbl. repeat split; auto.
    exists lines. split; [exact Huse|]. apply first_line_In.
    destruct (@built_lines_nonempty py fp a tbl Htbl sym lines) as [Hu _].
    now apply Hu.
  - eapply returns_intro; [apply detect_type_change_conflicts_eq|].
    intros c Hc. apply type_change_pass_tasks in Hc. tauto.
Qed.

(* ===================================================================== *)
(** ** The methods of SymbolTable *)

Lemma keys_set_present (V : Type) (k : string) (v : V) (d : dict V) :
  PyDict.mem k d = true -> PyDict.keys (PyDict.set k v d) = PyDict.keys d.
Proof.
  unfold PyDict.mem.
  induction d as [|[k' v'] rest IH]; simpl; [discriminate|].
  destruct (k' =? k) eqn:E; simpl; [reflexivity|].
  intros H. now rewrite IH.
Qed.

(** X21: [add_usage] and [add_function_call] put the line at the end of the
    list of the name, which starts as the empty list when the name is new;
    the lists of the other names and the other parts of the table stay as
    they are. *)
Theorem add_usage_and_call_append
        (t : SymbolTable) (name : string) (line : Z) :
  let lines_of := fun (d : dict (list Z)) =>
    match PyDict.get name d with
    | Some lines => lines
    | None => []
    end in
  (PyDict.get name (add_usage name line t).(usages)
   = Some (lines_of t.(usages) ++ [line])%list
   /\ (forall other, other <> name ->
          PyDict.get other (add_usage name line t).(usages)
          = PyDict.get other t.(usages))
   /\ (add_usage name line t).(function_calls) = t.(function_calls)
   /\ (add_usage name line t).(definitions) = t.(definitions)
   /\ (add_usage name line t).(imports) = t.(imports)
   /\ (add_usage name line t).(function_signatures) = t.(function_signatures))
  /\ (PyDict.get name (add_function_call name line t).(function_calls)
      = Some (lines_of t.(function_calls) ++ [line])%list
      /\ (forall other, other <> name ->
             PyDict.get other (add_function_call name line t).(function_calls)
             = PyDict.get other t.(function_calls))
      /\ (add_function_call name line t).(usages) = t.(usages)
      /\ (add_function_call name line t).(definitions) = t.(definitions)
      /\ (add_function_call name line t).(imports) = t.(imports)
      /\ (add_function_call name line t).(function_signatures)
         = t.(function_signatures)).
Proof.
  cbv zeta. split; (split; [|split; [|repeat split]]); cbn.
  - rewrite append_line_same. now destruct (PyDict.get name (usages t)).
  - intros other Hne. apply append_line_other. congruence.
  - rewrite append_line_same.
    now destruct (PyDict.get name (function_calls t)).
  - intros other Hne. apply append_line_other. congruence.
Qed.

(** X22: a name defined again keeps a single entry in [definitions], at the
    place of its first definition and with the kind, line and scope of the
    last one; the same holds for [imports] and [function_signatures]. *)
Theorem redefinition_replaces_the_entry
        (t : SymbolTable) (name : string)
        (def_type : string) (line : Z) (scope source : string)
        (return_type : option string) :
  (PyDict.mem name t.(definitions) = true ->
   PyDict.keys (add_definition name def_type line scope t).(definitions)
   = PyDict.keys t.(definitions)
   /\ PyDict.get name (add_definition name def_type line scope t).(definitions)
      = Some (def_type, line, scope))
  /\ (PyDict.mem name t.(imports) = true ->
      PyDict.keys (add_import name source t).(imports)
      = PyDict.keys t.(imports)
      /\ PyDict.get name (add_import name source t).(imports) = Some source)
  /\ (PyDict.mem name t.(function_signatures) = true ->
      PyDict.keys
        (add_function_signature name return_type t).(function_signatures)
      = PyDict.keys t.(function_signatures)
      /\ PyDict.get name
           (add_function_signature name return_type t).(function_signatures)
         = Some return_type).
Proof.
  split; [|split]; intros H; cbn;
    (split; [now apply keys_set_present | apply PyDictFacts.get_set_same]).
Qed.

Lemma redefinition_replaces_the_entry_witness :
  PyDict.keys
    (add_definition "m" "variable" 9 "module"
                    ServiceSample.table_service).(definitions)
  = PyDict.keys ServiceSample.table_service.(definitions)
  /\ PyDict.get "m"
       (add_definition "m" "variable" 9 "module"
                       ServiceSample.table_service).(definitions)
     = Some ("variable", 9%Z, "module").
Proof.
  apply (@redefinition_replaces_the_entry ServiceSample.table_service "m"
           "variable" 9 "module" "" None).
  reflexivity.
Defined.

(* ===================================================================== *)
(** ** The detectors on the parsed tree *)

Lemma build_of_parse (py : PythonStdlib) fp content tree :
  str_lower (path_suffix fp) = ".py" ->
  ast_parse content fp = Returned tree ->
  walk_raises tree = None ->
  build_symbol_table fp content
  = Returned (Some (visit tree PythonSymbolExtractor_init).(symbol_table)).
Proof.
  intros Hext Htree Hwalk. unfold build_symbol_table, parse_and_extract.
  apply String.eqb_eq in Hext. rewrite Hext, Htree. simpl. now rewrite Hwalk.
Qed.

(** X23: a task that imports the symbol itself is never reported for it:
    when the after-text of [task_id] parses to a tree with an import
    statement that binds [symbol], anywhere in the tree, no import removal
    conflict for [symbol] names [task_id] as the using task. *)
Theorem importing_task_is_not_reported
        (py : PythonStdlib) (task_analyses : TaskAnalyses)
        (file_contents : FileContents)
        (fp symbol task_id before_content after_content : string)
        (tree : node) :
  analysed_file task_analyses = Some fp ->
  PyDict.wf file_contents ->
  In (task_id, (before_content, after_content)) file_contents ->
  str_lower (path_suffix fp) = ".py" ->
  ast_parse after_content fp = Returned tree ->
  (exists m source, occurs_in m tree /\ binds_import m symbol source) ->
  returns (detect_import_removal_conflicts task_analyses file_contents)
    (fun conflicts =>
       forall removing_task,
         ~ import_removal_reported conflicts symbol removing_task task_id).
Proof.
  intros Hfp Hwf Hfc Hext Htree Hbinds.
  eapply returns_intro; [apply detect_import_removal_conflicts_eq|].
  unfold removal_pass. rewrite Hfp.
  intros removing_task (c & Hc & _ & _ & Htasks & Hloc).
  apply removal_findings_In in Hc.
  destruct Hc as (t & b & a & tbl & sym & r & lines & Hfc' & Ht & _ & _
                  & Himp & _ & ->).
  simpl in Htasks, Hloc. injection Htasks as -> ->. injection Hloc as ->.
  assert (Heq : (b, a) = (before_content, after_content))
    by (eapply wf_In_unique; eassumption).
  injection Heq as -> ->.
  apply table_of_build in Ht.
  pose proof (@built_imports py fp after_content tree tbl Htree Ht symbol)
    as [[_ Hmem] _].
  rewrite (Hmem Hbinds) in Himp. discriminate.
Qed.

Lemma importing_task_is_not_reported_witness :
  returns (@detect_import_removal_conflicts ServiceSample.stdlib
             Samples.two_removers_analyses
             [("task-b", (Samples.src_empty, ServiceSample.src_service))])
    (fun conflicts =>
       forall removing_task,
         ~ import_removal_reported conflicts "os" removing_task "task-b").
Proof.
  apply (@importing_task_is_not_reported ServiceSample.stdlib
           Samples.two_removers_analyses
           [("task-b", (Samples.src_empty, ServiceSample.src_service))]
           "test.py" "os" "task-b" Samples.src_empty
           ServiceSample.src_service ServiceSample.ast_service).
  - reflexivity.
  - repeat constructor. simpl. tauto.
  - now left.
  - reflexivity.
  - reflexivity.
  - exists (Import 1 [mk_alias "os" None]), "os". split.
    + eapply occurs_below; [|apply occurs_here]. now left.
    + exists (mk_alias "os" None). repeat split. now left.
Defined.

(** X24: the rename detector matches calls by name alone, anywhere in the
    text: with [renaming_task] the last task that records, with both
    snippets, a rename of target [name], and [task_id] another task whose
    after-text parses to [tree], a tree the visitor walks to its end, the
    conflict naming the two is emitted if and only if [tree] has, at any
    depth, a call of the name [name] or a call of an attribute [name] of any
    object. *)
Theorem rename_conflict_iff_a_call_in_the_tree
        (py : PythonStdlib) (task_analyses : TaskAnalyses)
        (file_contents : FileContents)
        (fp name renaming_task task_id before_content after_content : string)
        (tree : node) :
  analysed_file task_analyses = Some fp ->
  PyDict.wf file_contents ->
  last_renamer task_analyses name = Some renaming_task ->
  task_id <> renaming_task ->
  In (task_id, (before_content, after_content)) file_contents ->
  str_lower (path_suffix fp) = ".py" ->
  ast_parse after_content fp = Returned tree ->
  walk_raises tree = None ->
  returns (detect_function_rename_conflicts task_analyses file_contents)
    (fun conflicts =>
       rename_reported conflicts name renaming_task task_id
       <-> exists m line, occurs_in m tree /\ calls m name line).
Proof.
  intros Hfp Hwf Hlast Hne Hfc Hext Htree Hwalk.
  pose proof (@build_of_parse py fp after_content tree Hext Htree Hwalk)
    as Hbuild.
  destruct (@rename_reported_iff py task_analyses file_contents fp name
              renaming_task task_id before_content after_content _
              Hfp Hwf Hlast Hne Hfc Hbuild)
    as (conflicts & Heq & Hiff & _).
  exists conflicts. split; [exact Heq|]. rewrite Hiff.
  rewrite PyDictFacts.mem_true. split.
  - intros [lines Hget].
    destruct (@built_lines_nonempty py fp after_content _ Hbuild name lines)
      as [_ Hnonempty].
    specialize (Hnonempty Hget). destruct lines as [|line rest]; [congruence|].
    assert (Hrec : recorded name line
                     (function_calls
                        (symbol_table (visit tree PythonSymbolExtractor_init))))
      by (exists (line :: rest); split; [exact Hget | now left]).
    apply (@built_function_calls py fp after_content tree _ Htree Hbuild)
      in Hrec.
    destruct Hrec as (m & Hm & Hcalls). eauto.
  - intros (m & line & Hm & Hcalls).
    assert (Hrec : recorded name line
                     (function_calls
                        (symbol_table (visit tree PythonSymbolExtractor_init))))
      by (apply (@built_function_calls py fp after_content tree _ Htree
                   Hbuild); eauto).
    destruct Hrec as (lines & Hget & _). eauto.
Qed.

(** X24 on a rename whose target is [getcwd]: the method call
    [os.getcwd()] inside the method [m] of class [A] is reported. *)
Lemma rename_conflict_iff_a_call_in_the_tree_witness :
  returns (@detect_function_rename_conflicts ServiceSample.stdlib
             [("task-a",
               Samples.analysis
                 [{| change_type := RENAME_FUNCTION;
                     target := "getcwd";
                     location := "function:cwd";
                     line_start := 1;
                     line_end := 2;
                     content_before := Some "def cwd(): pass";
                     content_after := Some "def getcwd(): pass" |}])]
             [("task-b", (Samples.src_empty, ServiceSample.src_service))])
    (fun conflicts => rename_reported conflicts "getcwd" "task-a" "task-b").
Proof.
  destruct (@rename_conflict_iff_a_call_in_the_tree ServiceSample.stdlib
              [("task-a",
                Samples.analysis
                  [{| change_type := RENAME_FUNCTION;
                      target := "getcwd";
                      location := "function:cwd";
                      line_start := 1;
                      line_end := 2;
                      content_before := Some "def cwd(): pass";
                      content_after := Some "def getcwd(): pass" |}])]
              [("task-b", (Samples.src_empty, ServiceSample.src_service))]
              "test.py" "getcwd" "task-a" "task-b" Samples.src_empty
              ServiceSample.src_service ServiceSample.ast_service)
    as (conflicts & Heq & Hiff).
  - reflexivity.
  - repeat constructor. simpl. tauto.
  - reflexivity.
  - discriminate.
  - now left.
  - reflexivity.
  - reflexivity.
  - reflexivity.
  - exists conflicts. split; [exact Heq|]. apply Hiff.
    exists (Call 6 (Attribute 6 (Name 6 "os" Load) "getcwd" Load) [] []), 6%Z.
    split; [|split; reflexivity].
    eapply occurs_below; [right; right; now left|].
    eapply occurs_below; [simpl; now left|].
    eapply occurs_below; [simpl; right; now left|].
    eapply occurs_below; [simpl; right; now left|].
    apply occurs_here.
Defined.
